(** * PerfKitBenchmarker: the BenchmarkSpec resource life cycle and the
      stage sequencer of pkb.py

    A shallow embedding of [perfkitbenchmarker/benchmark_spec.py] and of the
    run loop of [perfkitbenchmarker/pkb.py].  Python objects become records,
    dictionaries become [gmap]s, and every method that talks to a cloud
    provider, to a benchmark module or to the file system becomes a
    computation in a state-and-exception monad whose state records the calls
    that were made. *)

From Stdlib Require Import ZArith.
From stdpp Require Import gmap strings list fin_maps pretty sorting.

Open Scope Z_scope.
Open Scope string_scope.
Open Scope list_scope.

(** ** Enumerations of benchmark_spec.py and pkb.py *)

(** The values of the [cloud] flag ([flags.DEFINE_enum('cloud', ...)]). *)
Inductive Cloud := GCP | AZURE | AWS | DIGITALOCEAN.

(** The values of the [os_type] flag. *)
Inductive OsType := DEBIAN | RHEL | WINDOWS.

(** The values of the [run_stage] flag: 'all', 'prepare', 'run', 'cleanup'. *)
Inductive Stage := STAGE_ALL | STAGE_PREPARE | STAGE_RUN | STAGE_CLEANUP.

#[global] Instance Cloud_eq_dec : EqDecision Cloud.
Proof. solve_decision. Defined.
#[global] Instance OsType_eq_dec : EqDecision OsType.
Proof. solve_decision. Defined.
#[global] Instance Stage_eq_dec : EqDecision Stage.
Proof. solve_decision. Defined.

(** The strings behind the constants (benchmark_spec.py, lines 37 to 43),
    as [%s] prints them. *)
Definition Cloud_str (c : Cloud) : string :=
  match c with
  | GCP => "GCP" | AZURE => "Azure" | AWS => "AWS" | DIGITALOCEAN => "DigitalOcean"
  end.

Definition OsType_str (o : OsType) : string :=
  match o with
  | DEBIAN => "debian" | RHEL => "rhel" | WINDOWS => "windows"
  end.

(** The one-character string that holds a double quote. *)
Definition dquote : string := String (Ascii.ascii_of_nat 34) EmptyString.

(** [stage in [s1, s2]] *)
Definition stage_in (s : Stage) (l : list Stage) : bool := bool_decide (s ∈ l).

(** The classes named in the [CLASSES] table, and the class of static VMs. *)
Inductive VmClass :=
| DebianBasedGceVirtualMachine | RhelBasedGceVirtualMachine
| WindowsGceVirtualMachine
| DebianBasedAzureVirtualMachine | RhelBasedAzureVirtualMachine
| WindowsAzureVirtualMachine
| DebianBasedAwsVirtualMachine | RhelBasedAwsVirtualMachine
| WindowsAwsVirtualMachine
| DebianBasedDigitalOceanVirtualMachine | RhelBasedDigitalOceanVirtualMachine
| StaticVirtualMachine.

Inductive NetworkClass := GceNetwork | AzureNetwork | AwsNetwork | DigitalOceanNetwork.
Inductive FirewallClass := GceFirewall | AzureFirewall | AwsFirewall | DigitalOceanFirewall.

#[global] Instance VmClass_eq_dec : EqDecision VmClass.
Proof. solve_decision. Defined.
#[global] Instance NetworkClass_eq_dec : EqDecision NetworkClass.
Proof. solve_decision. Defined.
#[global] Instance FirewallClass_eq_dec : EqDecision FirewallClass.
Proof. solve_decision. Defined.

(** ** The tables DEFAULTS and CLASSES *)

Definition IMAGE := "image".
Definition WINDOWS_IMAGE := "windows_image".
Definition MACHINE_TYPE := "machine_type".
Definition ZONE := "zone".

(** [DEFAULTS[cloud]]: a dictionary from the four keys above to a string or
    to Python's [None].  AWS maps both image keys to [None]; DigitalOcean has
    no [WINDOWS_IMAGE] key at all. *)
Definition DEFAULTS (cloud : Cloud) : gmap string (option string) :=
  match cloud with
  | GCP =>
      <[IMAGE := Some "ubuntu-14-04"]>
      (<[WINDOWS_IMAGE := Some "windows-2012-r2"]>
      (<[MACHINE_TYPE := Some "n1-standard-1"]>
      (<[ZONE := Some "us-central1-a"]> ∅)))
  | AZURE =>
      <[IMAGE := Some ("b39f27a8b8c64d52b05eac6a62ebad85__Ubuntu-" +:+
                       "14_04_1-LTS-amd64-server-20150123-en-us-30GB")]>
      (<[WINDOWS_IMAGE := Some ("a699494373c04fc0bc8f2bb1389d6106__Windows-Server" +:+
                                "-2012-R2-201505.01-en.us-127GB.vhd")]>
      (<[MACHINE_TYPE := Some "Small"]>
      (<[ZONE := Some "East US"]> ∅)))
  | AWS =>
      <[IMAGE := None]>
      (<[WINDOWS_IMAGE := None]>
      (<[MACHINE_TYPE := Some "m3.medium"]>
      (<[ZONE := Some "us-east-1a"]> ∅)))
  | DIGITALOCEAN =>
      <[IMAGE := Some "ubuntu-14-04-x64"]>
      (<[MACHINE_TYPE := Some "2gb"]>
      (<[ZONE := Some "sfo1"]> ∅))
  end.

(** [CLASSES[cloud][VIRTUAL_MACHINE]], a dictionary keyed by OS type; the
    lookup is [None] when the key is absent (DigitalOcean has no Windows
    class). *)
Definition CLASSES_VIRTUAL_MACHINE (cloud : Cloud) (os : OsType) : option VmClass :=
  match cloud, os with
  | GCP, DEBIAN => Some DebianBasedGceVirtualMachine
  | GCP, RHEL => Some RhelBasedGceVirtualMachine
  | GCP, WINDOWS => Some WindowsGceVirtualMachine
  | AZURE, DEBIAN => Some DebianBasedAzureVirtualMachine
  | AZURE, RHEL => Some RhelBasedAzureVirtualMachine
  | AZURE, WINDOWS => Some WindowsAzureVirtualMachine
  | AWS, DEBIAN => Some DebianBasedAwsVirtualMachine
  | AWS, RHEL => Some RhelBasedAwsVirtualMachine
  | AWS, WINDOWS => Some WindowsAwsVirtualMachine
  | DIGITALOCEAN, DEBIAN => Some DebianBasedDigitalOceanVirtualMachine
  | DIGITALOCEAN, RHEL => Some RhelBasedDigitalOceanVirtualMachine
  | DIGITALOCEAN, WINDOWS => None
  end.

Definition CLASSES_NETWORK (cloud : Cloud) : NetworkClass :=
  match cloud with
  | GCP => GceNetwork | AZURE => AzureNetwork
  | AWS => AwsNetwork | DIGITALOCEAN => DigitalOceanNetwork
  end.

Definition CLASSES_FIREWALL (cloud : Cloud) : FirewallClass :=
  match cloud with
  | GCP => GceFirewall | AZURE => AzureFirewall
  | AWS => AwsFirewall | DIGITALOCEAN => DigitalOceanFirewall
  end.

(** ** Resource handles *)

(** [network_class(zone)] *)
Record Network := { net_class : NetworkClass; net_zone : string }.

(** [firewall_class(project)] *)
Record Firewall := { fw_class : FirewallClass; fw_project : option string }.

(** [disk.BaseDiskSpec(disk_size, disk_type, mount_point, iops,
    num_striped_disks)] *)
Record BaseDiskSpec := {
  disk_size : Z;
  disk_type : string;
  mount_point : string;
  iops : Z;
  num_striped_disks : Z
}.

(** [virtual_machine.BaseVirtualMachineSpec(project, zone, machine_type,
    image, network)] *)
Record BaseVirtualMachineSpec := {
  spec_project : option string;
  spec_zone : string;
  spec_machine_type : string;
  spec_image : option string;
  spec_network : Network
}.

(** Modelled from the spec: the VM handle of virtual_machine.py and of the
    provider modules, which are not part of the sources at hand.  It keeps
    the attributes benchmark_spec.py reads or writes: the fields copied from
    the [BaseVirtualMachineSpec], [is_static], [install_packages],
    [max_local_disks], the three port attributes and the list [disk_specs]
    (scratch-disk specifications attached before creation). *)
Record VirtualMachine := {
  vm_class : VmClass;
  vm_project : option string;
  vm_zone : string;
  vm_machine_type : string;
  vm_image : option string;
  vm_network : option Network;
  is_static : bool;
  install_packages : bool;
  max_local_disks : Z;
  winrm_port : option Z;
  smb_port : option Z;
  ssh_port : option Z;
  disk_specs : list BaseDiskSpec
}.

#[global] Instance Network_eq_dec : EqDecision Network.
Proof. solve_decision. Defined.
#[global] Instance Firewall_eq_dec : EqDecision Firewall.
Proof. solve_decision. Defined.
#[global] Instance BaseDiskSpec_eq_dec : EqDecision BaseDiskSpec.
Proof. solve_decision. Defined.
#[global] Instance BaseVirtualMachineSpec_eq_dec : EqDecision BaseVirtualMachineSpec.
Proof. solve_decision. Defined.
#[global] Instance VirtualMachine_eq_dec : EqDecision VirtualMachine.
Proof. solve_decision. Defined.

(** [vm.disk_specs.append(disk_spec)] *)
Definition append_disk_spec (vm : VirtualMachine) (d : BaseDiskSpec) : VirtualMachine :=
  {| vm_class := vm_class vm; vm_project := vm_project vm; vm_zone := vm_zone vm;
     vm_machine_type := vm_machine_type vm; vm_image := vm_image vm;
     vm_network := vm_network vm; is_static := is_static vm;
     install_packages := install_packages vm;
     max_local_disks := max_local_disks vm; winrm_port := winrm_port vm;
     smb_port := smb_port vm; ssh_port := ssh_port vm;
     disk_specs := disk_specs vm ++ [d] |}.

(** Truth value of a port attribute: [None] and [0] are false. *)
Definition port_truthy (p : option Z) : bool :=
  match p with
  | Some n => negb (Z.eqb n 0)
  | None => false
  end.

(** ** The BenchmarkSpec object *)

Record BenchmarkSpec := {
  vms : list VirtualMachine;
  vm_dict : gmap string (list VirtualMachine);
  networks : gmap string Network;
  benchmark_name : string;
  cloud : Cloud;
  project : option string;
  zones : list string;
  image : option string;
  machine_type : string;
  num_vms : Z;
  scratch_disk : Z;
  scratch_disk_size : Z;
  scratch_disk_type : string;
  scratch_disk_iops : Z;
  vm_spec : option BaseVirtualMachineSpec;
  firewall : Firewall;
  file_name : string;
  deleted : bool;
  always_call_cleanup : bool
}.

(** [self.deleted = b] *)
Definition set_deleted (b : bool) (s : BenchmarkSpec) : BenchmarkSpec :=
  {| vms := vms s; vm_dict := vm_dict s; networks := networks s;
     benchmark_name := benchmark_name s; cloud := cloud s;
     project := project s; zones := zones s; image := image s;
     machine_type := machine_type s; num_vms := num_vms s;
     scratch_disk := scratch_disk s; scratch_disk_size := scratch_disk_size s;
     scratch_disk_type := scratch_disk_type s;
     scratch_disk_iops := scratch_disk_iops s; vm_spec := vm_spec s;
     firewall := firewall s; file_name := file_name s;
     deleted := b; always_call_cleanup := always_call_cleanup s |}.

(** [self.networks = n], [self.vm_spec = v] and the assignments that end
    the allocation of VMs in [__init__]. *)
Definition set_networks (n : gmap string Network) (s : BenchmarkSpec) : BenchmarkSpec :=
  {| vms := vms s; vm_dict := vm_dict s; networks := n;
     benchmark_name := benchmark_name s; cloud := cloud s;
     project := project s; zones := zones s; image := image s;
     machine_type := machine_type s; num_vms := num_vms s;
     scratch_disk := scratch_disk s; scratch_disk_size := scratch_disk_size s;
     scratch_disk_type := scratch_disk_type s;
     scratch_disk_iops := scratch_disk_iops s; vm_spec := vm_spec s;
     firewall := firewall s; file_name := file_name s;
     deleted := deleted s; always_call_cleanup := always_call_cleanup s |}.

Definition set_vm_spec (v : BaseVirtualMachineSpec) (s : BenchmarkSpec) : BenchmarkSpec :=
  {| vms := vms s; vm_dict := vm_dict s; networks := networks s;
     benchmark_name := benchmark_name s; cloud := cloud s;
     project := project s; zones := zones s; image := image s;
     machine_type := machine_type s; num_vms := num_vms s;
     scratch_disk := scratch_disk s; scratch_disk_size := scratch_disk_size s;
     scratch_disk_type := scratch_disk_type s;
     scratch_disk_iops := scratch_disk_iops s; vm_spec := Some v;
     firewall := firewall s; file_name := file_name s;
     deleted := deleted s; always_call_cleanup := always_call_cleanup s |}.

(** [self.vms = l; self.vm_dict['default'] = self.vms] *)
Definition set_vms (l : list VirtualMachine) (s : BenchmarkSpec) : BenchmarkSpec :=
  {| vms := l; vm_dict := <["default" := l]> (vm_dict s); networks := networks s;
     benchmark_name := benchmark_name s; cloud := cloud s;
     project := project s; zones := zones s; image := image s;
     machine_type := machine_type s; num_vms := num_vms s;
     scratch_disk := scratch_disk s; scratch_disk_size := scratch_disk_size s;
     scratch_disk_type := scratch_disk_type s;
     scratch_disk_iops := scratch_disk_iops s; vm_spec := vm_spec s;
     firewall := firewall s; file_name := file_name s;
     deleted := deleted s; always_call_cleanup := always_call_cleanup s |}.

(** The spec [s] with other values for the two attributes that
    [CreateVirtualMachine] assigns. *)
Definition with_allocation (n : gmap string Network)
    (v : option BaseVirtualMachineSpec) (s : BenchmarkSpec) : BenchmarkSpec :=
  {| vms := vms s; vm_dict := vm_dict s; networks := n;
     benchmark_name := benchmark_name s; cloud := cloud s;
     project := project s; zones := zones s; image := image s;
     machine_type := machine_type s; num_vms := num_vms s;
     scratch_disk := scratch_disk s; scratch_disk_size := scratch_disk_size s;
     scratch_disk_type := scratch_disk_type s;
     scratch_disk_iops := scratch_disk_iops s; vm_spec := v;
     firewall := firewall s; file_name := file_name s;
     deleted := deleted s; always_call_cleanup := always_call_cleanup s |}.

(** ** Python idioms *)

(** [l[i]] for an integer [i]: a negative index counts from the end, and an
    index out of range is an IndexError ([None] here). *)
Definition py_getitem {A} (l : list A) (i : Z) : option A :=
  if bool_decide (0 <= i) then l !! Z.to_nat i
  else if bool_decide (0 <= Z.of_nat (length l) + i)
       then l !! Z.to_nat (Z.of_nat (length l) + i)
       else None.

(** [x or y] for an optional string [x]: [None] and the empty string are
    false. *)
Definition str_or (x : option string) (y : option string) : option string :=
  match x with
  | Some "" => y
  | Some v => Some v
  | None => y
  end.

(** ** Flags and benchmark descriptors *)

(** The flags read by benchmark_spec.py and by RunBenchmark.  List and
    string flags whose default is [None] are options;
    [num_striped_disks_present] is [FLAGS['num_striped_disks'].present]. *)
Record Flags := {
  FLAGS_cloud : Cloud;
  FLAGS_os_type : OsType;
  FLAGS_project : option string;
  FLAGS_zones : option (list string);
  FLAGS_image : option string;
  FLAGS_machine_type : option string;
  FLAGS_num_vms : Z;
  FLAGS_scratch_disk_size : Z;
  FLAGS_scratch_disk_type : string;
  FLAGS_scratch_disk_iops : Z;
  FLAGS_num_striped_disks : Z;
  FLAGS_num_striped_disks_present : bool;
  FLAGS_run_stage : Stage
}.

(** The dictionary returned by a benchmark's [GetInfo()].  ['name'] is a
    string; ['scratch_disk'] and ['num_machines'] may be missing (outer
    [None]); ['num_machines'] may be present with value [None] (inner
    [None]).  [info_str] is the text Python's [%s] gives for the
    dictionary, which shows all of its keys, also those of no concern
    here. *)
Record BenchmarkInfo := {
  info_name : string;
  info_scratch_disk : option Z;
  info_num_machines : option (option Z);
  info_str : string
}.

(** A benchmark module: what [GetInfo()] returns, and whether the module
    defines [CheckPrerequisites]. *)
Record Benchmark := {
  GetInfo : BenchmarkInfo;
  has_CheckPrerequisites : bool
}.

(** ** Calls that leave the module, and exceptions *)

(** One constructor per method called on a handle, on the benchmark module
    or on a collaborator. *)
Inductive Event :=
| VmCreate (vm : VirtualMachine)
| VmWaitForBootCompletion (vm : VirtualMachine)
| VmAddMetadata (vm : VirtualMachine) (benchmark : string)
| VmStartup (vm : VirtualMachine)
| VmSetupLocalDisks (vm : VirtualMachine)
| VmCreateScratchDisk (vm : VirtualMachine) (d : BaseDiskSpec)
| VmPackageCleanup (vm : VirtualMachine)
| VmDelete (vm : VirtualMachine)
| VmDeleteScratchDisks (vm : VirtualMachine)
| FirewallAllowPort (fw : Firewall) (vm : VirtualMachine) (port : option Z)
| FirewallDisallowAllPorts (fw : Firewall)
| NetworkCreate (n : Network)
| NetworkDelete (n : Network)
| GenerateSSHConfig (l : list VirtualMachine)
| CheckPrerequisites (name : string)
| BeforeRunHook (hook : string) (name : string)
| BenchmarkPrepare (name : string)
| BenchmarkRun (name : string)
| BenchmarkCleanup (name : string)
| CollectorAddSamples (what : string) (name : string).

#[global] Instance Event_eq_dec : EqDecision Event.
Proof. solve_decision. Defined.

(** Exceptions (subclasses of Python's [Exception]).  [External] stands for
    whatever a provider, benchmark or collaborator call raises. *)
Inductive Exn :=
| errors_Error (msg : string)
| ThreadException
| KeyError (key : string)
| IOError (path : string)
| UnpicklingError (path : string)
| IndexError
| TypeError
| AttributeError (msg : string)
| External (tag : string).

Inductive Result (A : Type) :=
| Ok (a : A)
| Raise (e : Exn).
Arguments Ok {A} a.
Arguments Raise {A} e.

(** ** A state-and-exception monad

    [ST S A] is a computation over a state [S] that returns an [A] or
    raises; the state survives a raise, as the side effects of a Python
    statement survive the exception that ends it. *)

Definition ST (S A : Type) : Type := S -> Result A * S.

#[global] Instance ST_ret {S} : MRet (ST S) := fun A a w => (Ok a, w).

#[global] Instance ST_bind {S} : MBind (ST S) := fun A B f m w =>
  match m w with
  | (Ok a, w1) => f a w1
  | (Raise e, w1) => (Raise e, w1)
  end.

(** [raise e] *)
Definition raise {S A} (e : Exn) : ST S A := fun w => (Raise e, w).

(** [try: body  except Exception: handler] *)
Definition try_except {S A} (body : ST S A) (handler : Exn -> ST S A) : ST S A :=
  fun w =>
    match body w with
    | (Ok a, w1) => (Ok a, w1)
    | (Raise e, w1) => handler e w1
    end.

(** [try: body  finally: final].  The final block always runs; when it
    raises, its exception replaces whatever the body produced. *)
Definition try_finally {S A} (body : ST S A) (final : ST S unit) : ST S A :=
  fun w =>
    match body w with
    | (r, w1) =>
        match final w1 with
        | (Ok _, w2) => (r, w2)
        | (Raise e, w2) => (Raise e, w2)
        end
    end.

(** [for x in l: body(x)] *)
Fixpoint for_each {S A} (l : list A) (body : A -> ST S unit) : ST S unit :=
  match l with
  | [] => mret ()
  | x :: l' => body x;; for_each l' body
  end.

(** ** The world

    The part of the world the code acts upon: the calls made so far (in
    order), the lines written by [logging.exception] and [logging.error],
    the files of the temporary directory (their contents in some format
    [Blob]), and the pool of static VMs read from the static VM file. *)
Record World (Blob : Type) := {
  trace : list Event;
  log : list string;
  files : gmap string Blob;
  static_vm_pool : list VirtualMachine
}.
Arguments trace {Blob} _.
Arguments log {Blob} _.
Arguments files {Blob} _.
Arguments static_vm_pool {Blob} _.

(** ** Concrete inputs

    Flags, handles, specs and worlds on which the statements below are
    evaluated. *)

Module Ex.

(** GCP, Debian, two zones, five VMs, two local scratch disks per VM. *)
Definition flags (stage : Stage) : Flags :=
  {| FLAGS_cloud := GCP; FLAGS_os_type := DEBIAN;
     FLAGS_project := Some "my-project";
     FLAGS_zones := Some ["a"; "b"];
     FLAGS_image := None; FLAGS_machine_type := None;
     FLAGS_num_vms := 5;
     FLAGS_scratch_disk_size := 500;
     FLAGS_scratch_disk_type := "local";
     FLAGS_scratch_disk_iops := 1500;
     FLAGS_num_striped_disks := 1;
     FLAGS_num_striped_disks_present := false;
     FLAGS_run_stage := stage |}.

(** AWS without [--image]. *)
Definition aws_flags : Flags :=
  {| FLAGS_cloud := AWS; FLAGS_os_type := DEBIAN;
     FLAGS_project := None; FLAGS_zones := None;
     FLAGS_image := None; FLAGS_machine_type := None;
     FLAGS_num_vms := 1;
     FLAGS_scratch_disk_size := 500;
     FLAGS_scratch_disk_type := "standard";
     FLAGS_scratch_disk_iops := 1500;
     FLAGS_num_striped_disks := 1;
     FLAGS_num_striped_disks_present := false;
     FLAGS_run_stage := STAGE_ALL |}.

(** DigitalOcean with Windows, a pair without a VM class, in a 'prepare'
    invocation. *)
Definition digitalocean_windows_flags : Flags :=
  {| FLAGS_cloud := DIGITALOCEAN; FLAGS_os_type := WINDOWS;
     FLAGS_project := None; FLAGS_zones := None;
     FLAGS_image := None; FLAGS_machine_type := None;
     FLAGS_num_vms := 1;
     FLAGS_scratch_disk_size := 500;
     FLAGS_scratch_disk_type := "standard";
     FLAGS_scratch_disk_iops := 1500;
     FLAGS_num_striped_disks := 1;
     FLAGS_num_striped_disks_present := false;
     FLAGS_run_stage := STAGE_PREPARE |}.

(** A benchmark that leaves the number of machines to [--num_vms] and asks
    for two scratch disks. *)
Definition info : BenchmarkInfo :=
  {| info_name := "iperf"; info_scratch_disk := Some 2;
     info_num_machines := Some None;
     info_str := "{'name': 'iperf', 'scratch_disk': 2, 'num_machines': None}" |}.

(** The outside world: no call raises; every call raises; only the [Run]
    hook raises. *)
Definition never_raises : list Event -> Event -> option Exn :=
  fun _ _ => None.

Definition always_raises : list Event -> Event -> option Exn :=
  fun _ _ => Some (External "boom").

Definition Run_raises : list Event -> Event -> option Exn :=
  fun _ e =>
    match e with
    | BenchmarkRun _ => Some (External "run failed")
    | _ => None
    end.

(** Provider attributes: eight local disks, the remote-shell port only. *)
Definition eight_local_disks : VmClass -> string -> Z := fun _ _ => 8.
Definition no_port : VmClass -> option Z := fun _ => None.
Definition port_22 : VmClass -> option Z := fun _ => Some 22.
Definition installs_packages : VmClass -> bool := fun _ => true.

(** An empty world whose files hold specs as they are. *)
Definition world0 : World BenchmarkSpec :=
  {| trace := []; log := []; files := ∅; static_vm_pool := [] |}.

Definition network_a : Network := {| net_class := GceNetwork; net_zone := "a" |}.
Definition network_b : Network := {| net_class := GceNetwork; net_zone := "b" |}.

Definition gce_firewall : Firewall :=
  {| fw_class := GceFirewall; fw_project := Some "my-project" |}.

Definition vm_in (zone : string) (network : Network) : VirtualMachine :=
  {| vm_class := DebianBasedGceVirtualMachine;
     vm_project := Some "my-project"; vm_zone := zone;
     vm_machine_type := "n1-standard-1"; vm_image := Some "ubuntu-14-04";
     vm_network := Some network; is_static := false;
     install_packages := true; max_local_disks := 8;
     winrm_port := None; smb_port := None; ssh_port := Some 22;
     disk_specs := [] |}.

(** A spec with two VMs in two zones. *)
Definition two_vm_spec (is_deleted : bool) : BenchmarkSpec :=
  let l := [vm_in "a" network_a; vm_in "b" network_b] in
  {| vms := l; vm_dict := {["default" := l]};
     networks := <["a" := network_a]> (<["b" := network_b]> ∅);
     benchmark_name := "iperf"; cloud := GCP;
     project := Some "my-project"; zones := ["a"; "b"];
     image := Some "ubuntu-14-04"; machine_type := "n1-standard-1";
     num_vms := 2; scratch_disk := 0; scratch_disk_size := 500;
     scratch_disk_type := "standard"; scratch_disk_iops := 1500;
     vm_spec := None; firewall := gce_firewall;
     file_name := "/tmp/perfkitbenchmarker/run_1234/iperf";
     deleted := is_deleted; always_call_cleanup := false |}.

Definition tmp : string := "/tmp/perfkitbenchmarker/run_1234".

Definition iperf : Benchmark :=
  {| GetInfo := info; has_CheckPrerequisites := false |}.

(** Only the creation of a VM raises. *)
Definition VmCreate_raises : list Event -> Event -> option Exn :=
  fun _ e =>
    match e with
    | VmCreate _ => Some (External "quota exceeded")
    | _ => None
    end.

(** Benchmark information without the key [scratch_disk]. *)
Definition corrupt_info : BenchmarkInfo :=
  {| info_name := "broken"; info_scratch_disk := None;
     info_num_machines := Some None;
     info_str := "{'name': 'broken', 'num_machines': None}" |}.

Definition broken : Benchmark :=
  {| GetInfo := corrupt_info; has_CheckPrerequisites := false |}.

(** [iperf] with a prerequisite check. *)
Definition checked_iperf : Benchmark :=
  {| GetInfo := info; has_CheckPrerequisites := true |}.

(** A static VM with one disk specification of its own, and a world whose
    pool holds it. *)
Definition static_vm : VirtualMachine :=
  {| vm_class := StaticVirtualMachine;
     vm_project := None; vm_zone := "lab";
     vm_machine_type := "bare-metal"; vm_image := None;
     vm_network := None; is_static := true;
     install_packages := true; max_local_disks := 0;
     winrm_port := None; smb_port := None; ssh_port := Some 22;
     disk_specs := [{| disk_size := 100; disk_type := "standard";
                       mount_point := "/data"; iops := 0;
                       num_striped_disks := 1 |}] |}.

Definition world_with_static_vm : World BenchmarkSpec :=
  {| trace := []; log := []; files := ∅; static_vm_pool := [static_vm] |}.

(** One benchmark set, and the names given on the command line. *)
Definition BENCHMARK_SETS : gmap string string :=
  {["standard_set" := "The standard set of benchmarks."]}.

Definition FLAGS_benchmarks : list string :=
  ["zzz"; "iperf"; "abc"; "zzz"; "standard_set"].

(** GCP with an empty name among the zones, and three VMs. *)
Definition empty_zone_flags : Flags :=
  {| FLAGS_cloud := GCP; FLAGS_os_type := DEBIAN;
     FLAGS_project := Some "my-project";
     FLAGS_zones := Some ["a"; ""; "c"];
     FLAGS_image := None; FLAGS_machine_type := None;
     FLAGS_num_vms := 3;
     FLAGS_scratch_disk_size := 500;
     FLAGS_scratch_disk_type := "local";
     FLAGS_scratch_disk_iops := 1500;
     FLAGS_num_striped_disks := 1;
     FLAGS_num_striped_disks_present := false;
     FLAGS_run_stage := STAGE_ALL |}.

End Ex.

(** ** The model, relative to its collaborators

    The section variables stand for what lies outside the two modules:
    the command-line flags, the behaviour of the outside world (which
    calls raise, and what), the pickle library, the per-run temporary
    directory of [vm_util.GetTempDir()] and the provider-specific
    attributes that a VM class gives to a fresh handle. *)

Section Model.

Variable FLAGS : Flags.

(** [raises history e] tells whether the call [e], made after the calls
    in [history], raises, and which exception. *)
Variable raises : list Event -> Event -> option Exn.

(** [pickle.dump] and [pickle.load] over some format of file contents. *)
Variable Blob : Type.
Variable pickle_dumps : BenchmarkSpec -> Blob.
Variable pickle_loads : Blob -> option BenchmarkSpec.

Variable GetTempDir : string.

(** Attributes set by the constructor of a provider's VM class. *)
Variable class_max_local_disks : VmClass -> string -> Z.
Variable class_winrm_port : VmClass -> option Z.
Variable class_smb_port : VmClass -> option Z.
Variable class_ssh_port : VmClass -> option Z.
Variable class_install_packages : VmClass -> bool.

Abbreviation M := (ST (World Blob)).

(** A call that leaves the module: it is recorded, and it raises when the
    outside world says so. *)
Definition call (e : Event) : M unit := fun w =>
  let w1 := {| trace := trace w ++ [e]; log := log w; files := files w;
               static_vm_pool := static_vm_pool w |} in
  match raises (trace w) e with
  | Some x => (Raise x, w1)
  | None => (Ok (), w1)
  end.

(** [logging.exception(msg)], [logging.error(msg)] *)
Definition logging (msg : string) : M unit := fun w =>
  (Ok (), {| trace := trace w; log := log w ++ [msg]; files := files w;
             static_vm_pool := static_vm_pool w |}).

(** Modelled from the spec: [vm_util.RunThreaded(target, thread_params)],
    which is not part of the sources at hand.  Every unit of work runs to
    its own end whether or not another one failed, and a failure in any of
    them propagates out of the fan-out once all are done.  The units run
    here in list order, which is one of the schedules the thread pool
    allows. *)
Fixpoint run_threads {A} (target : A -> M unit) (thread_params : list A)
  : M (list Exn) :=
  match thread_params with
  | [] => mret []
  | p :: ps =>
      e ← try_except (target p;; mret []) (fun x => mret [x]);
      es ← run_threads target ps;
      mret (e ++ es)
  end.

Definition RunThreaded {A} (target : A -> M unit) (thread_params : list A)
  : M unit :=
  exceptions ← run_threads target thread_params;
  match exceptions with
  | [] => mret ()
  | _ :: _ => raise ThreadException
  end.

(** *** BenchmarkSpec.PrepareNetwork, PrepareVm, Prepare *)

(** Modelled from the spec: the constant [disk.LOCAL] of disk.py, which is
    not part of the sources at hand; the spec names the disk type "local". *)
Definition LOCAL := "local".

Definition PrepareNetwork (network : Network) : M unit :=
  call (NetworkCreate network).

Definition PrepareVm (self : BenchmarkSpec) (vm : VirtualMachine)
    (firewall : Firewall) : M unit :=
  call (VmCreate vm);;
  (if port_truthy (winrm_port vm)
   then call (FirewallAllowPort firewall vm (winrm_port vm)) else mret ());;
  (if port_truthy (smb_port vm)
   then call (FirewallAllowPort firewall vm (smb_port vm)) else mret ());;
  (if port_truthy (ssh_port vm)
   then call (FirewallAllowPort firewall vm (ssh_port vm)) else mret ());;
  call (VmAddMetadata vm (benchmark_name self));;
  call (VmWaitForBootCompletion vm);;
  call (VmStartup vm);;
  (if bool_decide (FLAGS_scratch_disk_type FLAGS = LOCAL)
   then call (VmSetupLocalDisks vm) else mret ());;
  for_each (disk_specs vm) (fun disk_spec => call (VmCreateScratchDisk vm disk_spec)).

Definition Prepare (self : BenchmarkSpec) : M unit :=
  (if bool_decide (networks self = ∅) then mret ()
   else RunThreaded PrepareNetwork (snd <$> map_to_list (networks self)));;
  match vms self with
  | [] => mret ()
  | _ :: _ =>
      RunThreaded (fun '(vm, fw) => PrepareVm self vm fw)
                  ((fun vm => (vm, firewall self)) <$> vms self);;
      if bool_decide (FLAGS_os_type FLAGS = WINDOWS) then mret ()
      else call (GenerateSSHConfig (vms self))
  end.

(** *** BenchmarkSpec.DeleteVm and Delete *)

Definition DeleteVm (vm : VirtualMachine) : M unit :=
  (if is_static vm && install_packages vm
   then call (VmPackageCleanup vm) else mret ());;
  call (VmDelete vm);;
  call (VmDeleteScratchDisks vm).

(** The three teardown steps of [Delete], after its guard. *)
Definition delete_vms_step (self : BenchmarkSpec) : M unit :=
  match vms self with
  | [] => mret ()
  | _ :: _ =>
      try_except (RunThreaded DeleteVm (vms self))
        (fun _ => logging ("Got an exception deleting VMs. " +:+
                           "Attempting to continue tearing down."))
  end.

Definition delete_firewall_step (self : BenchmarkSpec) : M unit :=
  try_except (call (FirewallDisallowAllPorts (firewall self)))
    (fun _ => logging ("Got an exception disabling firewalls. " +:+
                       "Attempting to continue tearing down.")).

(** [for zone in self.networks] walks a dictionary, in an order Python
    leaves to the hash table.  The map is walked in its own order here:
    which networks are deleted does not depend on it, the order of their
    [Delete] calls among themselves does, and is not to be read off the
    model. *)
Definition delete_networks_step (self : BenchmarkSpec) : M unit :=
  for_each (map_to_list (networks self)) (fun '(zone, network) =>
    try_except (call (NetworkDelete network))
      (fun _ => logging ("Got an exception deleting networks. " +:+
                         "Attempting to continue tearing down."))).

(** Lines 226 to 242: the calls [Delete] makes once past its guard. *)
Definition teardown (self : BenchmarkSpec) : M unit :=
  delete_vms_step self;;
  delete_firewall_step self;;
  delete_networks_step self.

(** [Delete] returns the object as the method leaves it. *)
Definition Delete (self : BenchmarkSpec) : M BenchmarkSpec :=
  if negb (stage_in (FLAGS_run_stage FLAGS) [STAGE_ALL; STAGE_CLEANUP])
     || deleted self
  then mret self
  else
    teardown self;;
    mret (set_deleted true self).

(** *** BenchmarkSpec.CreateVirtualMachine *)

(** Modelled from the spec: [StaticVirtualMachine.GetStaticVirtualMachine()],
    which is not part of the sources at hand.  A static VM is a
    pre-existing, operator-supplied machine; the call hands out the next one
    of the pool, or [None] when the pool is empty. *)
Definition GetStaticVirtualMachine : M (option VirtualMachine) := fun w =>
  match static_vm_pool w with
  | [] => (Ok None, w)
  | vm :: pool =>
      (Ok (Some vm), {| trace := trace w; log := log w; files := files w;
                        static_vm_pool := pool |})
  end.

(** Modelled from the spec: [vm_class(vm_spec)], the constructor of a
    provider's VM class, which is not part of the sources at hand: a handle
    that is allocated but not provisioned, carrying the fields of its
    [BaseVirtualMachineSpec] and no disk specification yet. *)
Definition new_vm (c : VmClass) (v : BaseVirtualMachineSpec) : VirtualMachine :=
  {| vm_class := c; vm_project := spec_project v; vm_zone := spec_zone v;
     vm_machine_type := spec_machine_type v; vm_image := spec_image v;
     vm_network := Some (spec_network v); is_static := false;
     install_packages := class_install_packages c;
     max_local_disks := class_max_local_disks c (spec_machine_type v);
     winrm_port := class_winrm_port c; smb_port := class_smb_port c;
     ssh_port := class_ssh_port c; disk_specs := [] |}.

(** ['The cloud "%s" does not support VMs of type "%s".' %
    (self.cloud, FLAGS.os_type)] *)
Definition unsupported_os_type (c : Cloud) (o : OsType) : string :=
  "The cloud " +:+ dquote +:+ Cloud_str c +:+ dquote +:+
  " does not support VMs of type " +:+ dquote +:+ OsType_str o +:+ dquote +:+ ".".

(** [CreateVirtualMachine] returns the VM together with the object as the
    method leaves it ([networks] and [vm_spec] may have changed). *)
Definition CreateVirtualMachine (self : BenchmarkSpec) (opt_zone : option string)
  : M (VirtualMachine * BenchmarkSpec) :=
  vm ← GetStaticVirtualMachine;
  match vm with
  | Some vm => mret (vm, self)
  | None =>
      match CLASSES_VIRTUAL_MACHINE (cloud self) (FLAGS_os_type FLAGS) with
      | None =>
          raise (errors_Error
                   (unsupported_os_type (cloud self) (FLAGS_os_type FLAGS)))
      | Some vm_class =>
          zone ← match str_or opt_zone None with
                 | Some z => mret z
                 | None => match py_getitem (zones self) 0 with
                           | Some z => mret z
                           | None => raise IndexError
                           end
                 end;
          let '(network, self1) :=
            match networks self !! zone with
            | Some network => (network, self)
            | None =>
                let network := {| net_class := CLASSES_NETWORK (cloud self);
                                  net_zone := zone |} in
                (network, set_networks (<[zone := network]> (networks self)) self)
            end in
          let v := {| spec_project := project self1; spec_zone := zone;
                      spec_machine_type := machine_type self1;
                      spec_image := image self1;
                      spec_network := network |} in
          mret (new_vm vm_class v, set_vm_spec v self1)
      end
  end.

(** *** BenchmarkSpec.__init__, for a benchmark without a config file

    This is the constructor on the path taken when the benchmark has no
    entry in [FLAGS.benchmark_config_pair] (the other path needs the
    config reader).  The attributes that the source assigns after the VMs
    ([firewall], [file_name], [deleted], [always_call_cleanup]) are part
    of the record from the start; nothing reads them in between. *)

(** [defaults[key]] where the table holds a string. *)
Definition defaults_item (defaults : gmap string (option string)) (key : string)
  : M string :=
  match defaults !! key with
  | Some (Some v) => mret v
  | Some None => raise TypeError
  | None => raise (KeyError key)
  end.

(** [defaults.get(key)] *)
Definition defaults_get (defaults : gmap string (option string)) (key : string)
  : option string :=
  match defaults !! key with
  | Some v => v
  | None => None
  end.

(** [self.image], as lines 168 to 171 compute it. *)
Definition resolve_image (cloud : Cloud) : option string :=
  if bool_decide (FLAGS_os_type FLAGS = WINDOWS)
  then str_or (FLAGS_image FLAGS) (defaults_get (DEFAULTS cloud) WINDOWS_IMAGE)
  else str_or (FLAGS_image FLAGS) (defaults_get (DEFAULTS cloud) IMAGE).

(** The list comprehension of lines 183 to 186, one index at a time. *)
Fixpoint create_vms (self : BenchmarkSpec) (indexes : list Z)
  : M (list VirtualMachine * BenchmarkSpec) :=
  match indexes with
  | [] => mret ([], self)
  | index :: rest =>
      zone ← match py_getitem (zones self)
                     (Z.min index (Z.of_nat (length (zones self)) - 1)) with
             | Some z => mret z
             | None => raise IndexError
             end;
      '(vm, self1) ← CreateVirtualMachine self (Some zone);
      '(l, self2) ← create_vms self1 rest;
      mret (vm :: l, self2)
  end.

(** The striping factor of lines 191 to 197. *)
Definition striping_factor (scratch_disk : Z) (vm : VirtualMachine) : Z :=
  if bool_decide (FLAGS_scratch_disk_type FLAGS = LOCAL)
     && negb (Z.eqb scratch_disk 0)
     && negb (FLAGS_num_striped_disks_present FLAGS)
  then max_local_disks vm / scratch_disk
  else FLAGS_num_striped_disks FLAGS.

(** The body of [for vm in self.vms] (lines 188 to 203). *)
Definition add_scratch_disk_specs (self : BenchmarkSpec) (scratch_disk : Z)
    (vm : VirtualMachine) : VirtualMachine :=
  let num_striped_disks := striping_factor scratch_disk vm in
  foldl (fun vm i =>
           append_disk_spec vm
             {| disk_size := scratch_disk_size self;
                disk_type := scratch_disk_type self;
                mount_point := "/scratch" +:+ pretty i;
                iops := scratch_disk_iops self;
                num_striped_disks := num_striped_disks |})
        vm (seqZ 0 scratch_disk).

(** The object before any VM is allocated: the attributes assigned by
    lines 139 to 181 and by lines 205 to 209. *)
Definition fresh_spec (benchmark_info : BenchmarkInfo) (zones : list string)
    (machine_type : string) (num_vms scratch_disk : Z) : BenchmarkSpec :=
  {| vms := []; vm_dict := {["default" := []]}; networks := ∅;
     benchmark_name := info_name benchmark_info; cloud := FLAGS_cloud FLAGS;
     project := FLAGS_project FLAGS; zones := zones;
     image := resolve_image (FLAGS_cloud FLAGS);
     machine_type := machine_type; num_vms := num_vms;
     scratch_disk := scratch_disk;
     scratch_disk_size := FLAGS_scratch_disk_size FLAGS;
     scratch_disk_type := FLAGS_scratch_disk_type FLAGS;
     scratch_disk_iops := FLAGS_scratch_disk_iops FLAGS;
     vm_spec := None;
     firewall := {| fw_class := CLASSES_FIREWALL (FLAGS_cloud FLAGS);
                    fw_project := FLAGS_project FLAGS |};
     file_name := GetTempDir +:+ "/" +:+ info_name benchmark_info;
     deleted := false; always_call_cleanup := false |}.

Definition BenchmarkSpec_init (benchmark_info : BenchmarkInfo) : M BenchmarkSpec :=
  let cloud := FLAGS_cloud FLAGS in
  let defaults := DEFAULTS cloud in
  zones ← match FLAGS_zones FLAGS with
          | Some (z :: l) => mret (z :: l)
          | _ => z ← defaults_item defaults ZONE; mret [z]
          end;
  machine_type ← match str_or (FLAGS_machine_type FLAGS) None with
                 | Some m => mret m
                 | None => defaults_item defaults MACHINE_TYPE
                 end;
  num_vms ← match info_num_machines benchmark_info with
            | None => raise (KeyError "num_machines")
            | Some None => mret (FLAGS_num_vms FLAGS)
            | Some (Some n) => mret n
            end;
  scratch_disk ← match info_scratch_disk benchmark_info with
                 | None => raise (KeyError "scratch_disk")
                 | Some n => mret n
                 end;
  let self := fresh_spec benchmark_info zones machine_type num_vms scratch_disk in
  '(l, self1) ← create_vms self (seqZ 0 num_vms);
  mret (set_vms (add_scratch_disk_specs self1 scratch_disk <$> l) self1).

(** *** BenchmarkSpec.PickleSpec and GetSpecFromFile *)

(** The temporary directory exists once [vm_util.GenTempDir()] has run, so
    that opening the file for writing succeeds. *)
Definition PickleSpec (self : BenchmarkSpec) : M unit := fun w =>
  (Ok (), {| trace := trace w; log := log w;
             files := <[file_name self := pickle_dumps self]> (files w);
             static_vm_pool := static_vm_pool w |}).

Definition GetSpecFromFile (name : string) : M BenchmarkSpec :=
  let file_name := GetTempDir +:+ "/" +:+ name in
  spec ← try_except
            (fun w =>
               match files w !! file_name with
               | None => (Raise (IOError file_name), w)
               | Some pickle_file =>
                   match pickle_loads pickle_file with
                   | Some spec => (Ok spec, w)
                   | None => (Raise (UnpicklingError file_name), w)
                   end
               end)
            (fun e =>
               logging ("Unable to unpickle spec file for benchmark " +:+ name +:+ ".");;
               raise e);
  mret (set_deleted false spec).

(** *** pkb.py: the phases of one benchmark *)

(** [BEFORE_RUN_HOOKS], by name. *)
Variable BEFORE_RUN_HOOKS : list string.

(** The message of lines 151 to 153.  The three string literals of the
    code are adjacent, so nothing separates 'contain' from 'the' nor
    'benchmark' from 'info'. *)
Definition corrupt_info_message (benchmark_info : BenchmarkInfo)
    (required_key : string) : string :=
  "Benchmark information " +:+ info_str benchmark_info +:+
  " is corrupt. It does not contain" +:+
  "the key " +:+ required_key +:+
  ". Please add the specified key to the benchmark" +:+
  "info. Skipping benchmark.".

(** The loop over [REQUIRED_INFO = ['scratch_disk', 'num_machines']],
    unrolled. *)
Definition ValidateBenchmarkInfo (benchmark_info : BenchmarkInfo) : M bool :=
  match info_scratch_disk benchmark_info with
  | None =>
      logging (corrupt_info_message benchmark_info "scratch_disk");;
      mret false
  | Some _ =>
      match info_num_machines benchmark_info with
      | None =>
          logging (corrupt_info_message benchmark_info "num_machines");;
          mret false
      | Some _ => mret true
      end
  end.

Definition DoPreparePhase (name : string) (spec : BenchmarkSpec) : M unit :=
  Prepare spec;;
  call (BenchmarkPrepare name).

Definition DoRunPhase (name : string) (spec : option BenchmarkSpec) : M unit :=
  for_each BEFORE_RUN_HOOKS (fun before_run_hook =>
    call (BeforeRunHook before_run_hook name));;
  call (BenchmarkRun name);;
  call (CollectorAddSamples "samples" name).

(** [None.Delete()] is an AttributeError. *)
Definition NoneType_has_no (attr : string) : Exn :=
  AttributeError ("'NoneType' object has no attribute '" +:+ attr +:+ "'").

(** [DoCleanupPhase] returns the spec as [spec.Delete()] leaves it. *)
Definition DoCleanupPhase (name : string) (spec : option BenchmarkSpec)
  : M BenchmarkSpec :=
  call (BenchmarkCleanup name);;
  match spec with
  | Some v => Delete v
  | None => raise (NoneType_has_no "Delete")
  end.

(** *** pkb.py: RunBenchmark

    The local variable [spec] of [RunBenchmark] is visible to the
    [finally] clause whatever happened in the [try] block, so it is part of
    the state: a frame holds the variable (and through it the object it
    refers to) next to the world. *)
Record Frame := {
  spec : option BenchmarkSpec;
  world : World Blob
}.

Definition lift {A} (m : M A) : ST Frame A := fun fr =>
  match m (world fr) with
  | (r, w) => (r, {| spec := spec fr; world := w |})
  end.

(** [spec = v], and the effect of a method that changes the object. *)
Definition assign_spec (v : BenchmarkSpec) : ST Frame unit := fun fr =>
  (Ok (), {| spec := Some v; world := world fr |}).

(** Reading the variable [spec]. *)
Definition read_spec : ST Frame (option BenchmarkSpec) := fun fr => (Ok (spec fr), fr).

Definition STAGE_in (l : list Stage) : bool := stage_in (FLAGS_run_stage FLAGS) l.

(** Lines 259 to 277: the block under [end_to_end_timer.Measure]. *)
Definition run_stages (benchmark_name : string) (benchmark_info : BenchmarkInfo)
  : ST Frame unit :=
  (if STAGE_in [STAGE_ALL; STAGE_PREPARE]
   then
     v ← lift (BenchmarkSpec_init benchmark_info);
     assign_spec v;;
     lift (PickleSpec v);;
     lift (DoPreparePhase benchmark_name v)
   else
     v ← lift (GetSpecFromFile benchmark_name);
     assign_spec v);;
  (if STAGE_in [STAGE_ALL; STAGE_RUN]
   then v ← read_spec; lift (DoRunPhase benchmark_name v)
   else mret ());;
  (if STAGE_in [STAGE_ALL; STAGE_CLEANUP]
   then
     v ← read_spec;
     v' ← lift (DoCleanupPhase benchmark_name v);
     assign_spec v'
   else mret ()).

(** Lines 279 to 291: the samples of the timers. *)
Definition add_timer_samples (benchmark_name : string) : ST Frame unit :=
  (if bool_decide (FLAGS_run_stage FLAGS = STAGE_ALL)
   then lift (call (CollectorAddSamples "end_to_end_timer" benchmark_name))
   else mret ());;
  lift (call (CollectorAddSamples "detailed_timer" benchmark_name)).

(** Lines 298 to 303: the [finally] clause. *)
Definition finally_clause : ST Frame unit := fun fr =>
  if STAGE_in [STAGE_ALL; STAGE_CLEANUP]
  then
    match spec fr with
    | Some v => (v' ← lift (Delete v); assign_spec v') fr
    | None => (Ok (), fr)
    end
  else
    match spec fr with
    | Some v => lift (PickleSpec v) fr
    | None => (Raise (NoneType_has_no "PickleSpec"), fr)
    end.

(** Lines 257 to 303: [spec = None] and the [try] statement. *)
Definition try_statement (benchmark_name : string) (benchmark_info : BenchmarkInfo)
  : M unit := fun w =>
  match try_finally
          (try_except
             (run_stages benchmark_name benchmark_info;;
              add_timer_samples benchmark_name)
             (fun e =>
                lift (logging ("Error during benchmark " +:+ benchmark_name));;
                raise e))
          finally_clause
          {| spec := None; world := w |} with
  | (r, fr) => (r, world fr)
  end.

(** Lines 247 to 253: the optional prerequisite check. *)
Definition check_prereqs (benchmark : Benchmark) (benchmark_name : string) : M unit :=
  if has_CheckPrerequisites benchmark
  then
    try_except (call (CheckPrerequisites benchmark_name))
      (fun e =>
         logging ("Prerequisite check failed for " +:+ benchmark_name);;
         raise e)
  else mret ().

Definition RunBenchmark (benchmark : Benchmark) : M unit :=
  let benchmark_info := GetInfo benchmark in
  valid ← ValidateBenchmarkInfo benchmark_info;
  if negb valid then mret ()
  else
    let benchmark_name := info_name benchmark_info in
    check_prereqs benchmark benchmark_name;;
    try_statement benchmark_name benchmark_info.

(** *** pkb.py: ListUnknownBenchmarks *)

(** The order of [sorted] on [str] values: byte by byte, a proper prefix
    first. *)
Definition str_le (a b : string) : Prop := String.leb a b = true.

#[global] Instance str_le_dec : RelDecision str_le :=
  fun a b => decide (String.leb a b = true).

Definition sorted (l : list string) : list string := merge_sort str_le l.

(** The globals [benchmarks.BENCHMARKS], [benchmark_sets.BENCHMARK_SETS]
    (a dictionary, of which only the keys are used) and the flag
    [FLAGS.benchmarks] are arguments. *)
Definition ListUnknownBenchmarks {V} (BENCHMARKS : list Benchmark)
    (BENCHMARK_SETS : gmap string V) (FLAGS_benchmarks : list string) : list string :=
  let valid_benchmark_names : gset string :=
    list_to_set ((fun benchmark => info_name (GetInfo benchmark)) <$> BENCHMARKS) in
  let valid_benchmark_sets : gset string := dom BENCHMARK_SETS in
  let specified_benchmark_names : gset string := list_to_set FLAGS_benchmarks in
  sorted (elements ((specified_benchmark_names ∖ valid_benchmark_names) ∖
                    valid_benchmark_sets)).

(** *** What a computation adds to the trace *)

Class Traced (S : Type) := the_trace : S -> list Event.

#[local] Instance World_traced : Traced (World Blob) := trace.
#[local] Instance Frame_traced : Traced Frame := fun fr => trace (world fr).

(** [emits P m]: whatever the state it starts from, [m] only appends calls
    to the trace, and each of them satisfies [P]. *)
Definition emits {S} `{Traced S} {A} (P : Event -> Prop) (m : ST S A) : Prop :=
  forall w, exists new, the_trace (m w).2 = the_trace w ++ new /\ Forall P new.

(** The calls made since the trace had length [n]. *)
Definition calls_since (n : nat) (w : World Blob) : list Event := drop n (trace w).

(** Calls made by the teardown of a spec. *)
Definition is_teardown_call (e : Event) : Prop :=
  match e with
  | VmPackageCleanup _ | VmDelete _ | VmDeleteScratchDisks _
  | FirewallDisallowAllPorts _ | NetworkDelete _ => True
  | _ => False
  end.

(** Calls other than the [Run] and [Cleanup] hooks of a benchmark module. *)
Definition no_run_or_cleanup_hook (e : Event) : Prop :=
  match e with
  | BenchmarkRun _ | BenchmarkCleanup _ => False
  | _ => True
  end.

(** The calls of one VM's pipeline, in the order in which [PrepareVm]
    makes them when none raises. *)
Definition allow_port_calls (firewall : Firewall) (vm : VirtualMachine) : list Event :=
  (if port_truthy (winrm_port vm)
   then [FirewallAllowPort firewall vm (winrm_port vm)] else []) ++
  (if port_truthy (smb_port vm)
   then [FirewallAllowPort firewall vm (smb_port vm)] else []) ++
  (if port_truthy (ssh_port vm)
   then [FirewallAllowPort firewall vm (ssh_port vm)] else []).

Definition local_disk_calls (vm : VirtualMachine) : list Event :=
  if bool_decide (FLAGS_scratch_disk_type FLAGS = LOCAL)
  then [VmSetupLocalDisks vm] else [].

Definition PrepareVm_calls (self : BenchmarkSpec) (vm : VirtualMachine)
    (firewall : Firewall) : list Event :=
  [VmCreate vm] ++
  allow_port_calls firewall vm ++
  [VmAddMetadata vm (benchmark_name self);
   VmWaitForBootCompletion vm;
   VmStartup vm] ++
  local_disk_calls vm ++
  (VmCreateScratchDisk vm <$> disk_specs vm).

(** The order the specification gives for the same pipeline: create,
    wait for boot completion, open firewall ports, apply metadata tags,
    run startup hooks, set up local disks, create each scratch disk. *)
Definition spec_PrepareVm_calls (self : BenchmarkSpec) (vm : VirtualMachine)
    (firewall : Firewall) : list Event :=
  [VmCreate vm; VmWaitForBootCompletion vm] ++
  allow_port_calls firewall vm ++
  [VmAddMetadata vm (benchmark_name self); VmStartup vm] ++
  local_disk_calls vm ++
  (VmCreateScratchDisk vm <$> disk_specs vm).

(** *** Vocabulary of the further properties *)

(** [keeps f m]: [m] leaves the component [f] of the state as it found
    it, whether it returns or raises. *)
Definition keeps {S A X} (f : S -> X) (m : ST S A) : Prop :=
  forall w, f (m w).2 = f w.

(** A component of the world that does not depend on the trace, on the
    log, or on the pool of static VMs. *)
Definition ignores_trace {X} (f : World Blob -> X) : Prop :=
  forall w t, f {| trace := t; log := log w; files := files w;
                   static_vm_pool := static_vm_pool w |} = f w.

Definition ignores_log {X} (f : World Blob -> X) : Prop :=
  forall w l, f {| trace := trace w; log := l; files := files w;
                   static_vm_pool := static_vm_pool w |} = f w.

Definition ignores_pool {X} (f : World Blob -> X) : Prop :=
  forall w p, f {| trace := trace w; log := log w; files := files w;
                   static_vm_pool := p |} = f w.

Definition is_network_create (e : Event) : Prop :=
  match e with
  | NetworkCreate _ => True
  | _ => False
  end.

(** Calls of the pipeline of one VM. *)
Definition is_vm_pipeline_call (e : Event) : Prop :=
  match e with
  | VmCreate _ | VmWaitForBootCompletion _ | VmAddMetadata _ _ | VmStartup _
  | VmSetupLocalDisks _ | VmCreateScratchDisk _ _ | FirewallAllowPort _ _ _ => True
  | _ => False
  end.

(** Calls made while the resources of a spec are provisioned. *)
Definition is_provisioning_call (e : Event) : Prop :=
  match e with
  | NetworkCreate _ | GenerateSSHConfig _ => True
  | _ => is_vm_pipeline_call e
  end.

(** Calls on the benchmark module, on its hooks and on the collector. *)
Definition is_benchmark_call (e : Event) : Prop :=
  match e with
  | CheckPrerequisites _ | BeforeRunHook _ _ | BenchmarkPrepare _
  | BenchmarkRun _ | BenchmarkCleanup _ | CollectorAddSamples _ _ => True
  | _ => False
  end.

Definition no_teardown_call (e : Event) : Prop := ~ is_teardown_call e.

(** Between the worlds [w] and [w'] the resources of [v] have been torn
    down once: the teardown of [v] ran from some world to some other,
    and no teardown call was made before or after it. *)
Definition torn_down_once (v : BenchmarkSpec) (w w' : World Blob) : Prop :=
  exists before w_a w_b after,
    trace w_a = trace w ++ before /\
    teardown v w_a = (Ok (), w_b) /\
    trace w' = trace w_b ++ after /\
    Forall no_teardown_call before /\ Forall no_teardown_call after.

(** The calls of [DeleteVm], in the order in which it makes them when none
    raises. *)
Definition DeleteVm_calls (vm : VirtualMachine) : list Event :=
  (if is_static vm && install_packages vm then [VmPackageCleanup vm] else []) ++
  [VmDelete vm; VmDeleteScratchDisks vm].

(** ** Properties *)

(** *** The monad *)

Lemma bind_Ok {S A B} (m : ST S A) (f : A -> ST S B) w a w1 :
  m w = (Ok a, w1) -> (m ≫= f) w = f a w1.
Proof. intros E. unfold mbind, ST_bind. by rewrite E. Qed.

Lemma bind_Raise {S A B} (m : ST S A) (f : A -> ST S B) w e w1 :
  m w = (Raise e, w1) -> (m ≫= f) w = (Raise e, w1).
Proof. intros E. unfold mbind, ST_bind. by rewrite E. Qed.

Lemma emits_ret {S} `{Traced S} {A} P (a : A) : emits P (mret a : ST S A).
Proof. intros w. exists []. by rewrite app_nil_r. Qed.

Lemma emits_raise {S} `{Traced S} {A} P e : emits P (raise e : ST S A).
Proof. intros w. exists []. by rewrite app_nil_r. Qed.

Lemma emits_bind {S} `{Traced S} {A B} P (m : ST S A) (f : A -> ST S B) :
  emits P m -> (forall a, emits P (f a)) -> emits P (m ≫= f).
Proof.
  intros Hm Hf w. destruct (Hm w) as (n1 & E1 & F1).
  unfold mbind, ST_bind. destruct (m w) as [[a|e] w1]; simpl in *.
  - destruct (Hf a w1) as (n2 & E2 & F2). exists (n1 ++ n2).
    rewrite E2, E1, app_assoc. split; [done | by apply Forall_app].
  - by exists n1.
Qed.

Lemma emits_try_except {S} `{Traced S} {A} P (m : ST S A) h :
  emits P m -> (forall e, emits P (h e)) -> emits P (try_except m h).
Proof.
  intros Hm Hh w. destruct (Hm w) as (n1 & E1 & F1).
  unfold try_except. destruct (m w) as [[a|e] w1]; simpl in *.
  - by exists n1.
  - destruct (Hh e w1) as (n2 & E2 & F2). exists (n1 ++ n2).
    rewrite E2, E1, app_assoc. split; [done | by apply Forall_app].
Qed.

Lemma emits_try_finally {S} `{Traced S} {A} P (m : ST S A) fin :
  emits P m -> emits P fin -> emits P (try_finally m fin).
Proof.
  intros Hm Hf w. destruct (Hm w) as (n1 & E1 & F1).
  unfold try_finally. destruct (m w) as [r w1]; simpl in *.
  destruct (Hf w1) as (n2 & E2 & F2). exists (n1 ++ n2).
  destruct (fin w1) as [[[]|e] w2]; simpl in *;
    (rewrite E2, E1, app_assoc; split; [done | by apply Forall_app]).
Qed.

Lemma emits_for_each {S} `{Traced S} {A} P (l : list A) (body : A -> ST S unit) :
  (forall x, emits P (body x)) -> emits P (for_each l body).
Proof.
  intros Hb. induction l as [|x l IH]; simpl.
  - apply emits_ret.
  - apply emits_bind; [apply Hb | intros _; apply IH].
Qed.

Lemma emits_mono {S} `{Traced S} {A} (P Q : Event -> Prop) (m : ST S A) :
  (forall e, P e -> Q e) -> emits P m -> emits Q m.
Proof.
  intros HPQ Hm w. destruct (Hm w) as (n & E & F). exists n. split; [done|].
  eapply Forall_impl; eauto.
Qed.

Lemma emits_if {S} `{Traced S} {A} P (b : bool) (m1 m2 : ST S A) :
  emits P m1 -> emits P m2 -> emits P (if b then m1 else m2).
Proof. by destruct b. Qed.

Lemma emits_call P e : P e -> emits P (call e).
Proof.
  intros He w. exists [e]. unfold call.
  destruct (raises (trace w) e); simpl; split; by try constructor.
Qed.

Lemma call_trace e w : trace (call e w).2 = trace w ++ [e].
Proof. unfold call. by destruct (raises (trace w) e). Qed.

Lemma emits_logging P msg : emits P (logging msg).
Proof. intros w. exists []. by rewrite app_nil_r. Qed.

Lemma emits_run_threads {A} P (target : A -> M unit) l :
  (forall x, emits P (target x)) -> emits P (run_threads target l).
Proof.
  intros Ht. induction l as [|x l IH]; simpl.
  - apply emits_ret.
  - apply emits_bind.
    + apply emits_try_except.
      * apply emits_bind; [apply Ht | intros; apply emits_ret].
      * intros; apply emits_ret.
    + intros e. apply emits_bind; [apply IH | intros; apply emits_ret].
Qed.

Lemma emits_RunThreaded {A} P (target : A -> M unit) l :
  (forall x, emits P (target x)) -> emits P (RunThreaded target l).
Proof.
  intros Ht. apply emits_bind; [by apply emits_run_threads|].
  intros [|? ?]; [apply emits_ret | apply emits_raise].
Qed.

Lemma emits_lift {A} P (m : M A) : emits P m -> emits P (lift m).
Proof.
  intros Hm fr. destruct (Hm (world fr)) as (n & E & F). exists n.
  unfold lift. destruct (m (world fr)) as [r w1]. simpl in *. done.
Qed.

(** *** Delete *)

Lemma emits_DeleteVm vm : emits is_teardown_call (DeleteVm vm).
Proof.
  unfold DeleteVm. apply emits_bind.
  - apply emits_if; [by apply emits_call | apply emits_ret].
  - intros _. apply emits_bind; [by apply emits_call|].
    intros _. by apply emits_call.
Qed.

Lemma delete_vms_step_runs self w :
  exists w' vm_calls,
    delete_vms_step self w = (Ok (), w') /\
    trace w' = trace w ++ vm_calls /\ Forall is_teardown_call vm_calls.
Proof.
  unfold delete_vms_step. destruct (vms self) as [|vm l] eqn:E.
  - exists w, []. by rewrite app_nil_r.
  - destruct (emits_RunThreaded is_teardown_call DeleteVm (vm :: l) emits_DeleteVm w)
      as (n & En & Fn).
    unfold try_except.
    destruct (RunThreaded DeleteVm (vm :: l) w) as [[[]|e] w1]; simpl in *.
    + by exists w1, n.
    + eexists _, n. split; [reflexivity|]. done.
Qed.

Lemma guarded_call_runs e msg w :
  exists w',
    try_except (call e) (fun _ => logging msg) w = (Ok (), w') /\
    trace w' = trace w ++ [e].
Proof.
  unfold try_except, call, logging.
  destruct (raises _ _); eexists; split; reflexivity.
Qed.

Lemma delete_firewall_step_runs self w :
  exists w',
    delete_firewall_step self w = (Ok (), w') /\
    trace w' = trace w ++ [FirewallDisallowAllPorts (firewall self)].
Proof. apply guarded_call_runs. Qed.

Lemma delete_networks_runs (l : list (string * Network)) w :
  exists w',
    for_each l (fun '(zone, network) =>
      try_except (call (NetworkDelete network))
        (fun _ => logging ("Got an exception deleting networks. " +:+
                           "Attempting to continue tearing down."))) w = (Ok (), w') /\
    trace w' = trace w ++ ((fun zn => NetworkDelete zn.2) <$> l).
Proof.
  revert w. induction l as [|[zone network] l IH]; intros w.
  - exists w. by rewrite app_nil_r.
  - destruct (guarded_call_runs (NetworkDelete network)
                ("Got an exception deleting networks. " +:+
                 "Attempting to continue tearing down.") w) as (w1 & E1 & T1).
    destruct (IH w1) as (w' & E & T). exists w'.
    cbn [for_each]. rewrite (bind_Ok _ _ _ _ _ E1). split; [done|].
    rewrite T, T1. cbn. by rewrite <- app_assoc.
Qed.

Lemma delete_networks_step_runs self w :
  exists w',
    delete_networks_step self w = (Ok (), w') /\
    trace w' = trace w ++ ((fun zn => NetworkDelete zn.2) <$> map_to_list (networks self)).
Proof. apply delete_networks_runs. Qed.

Lemma Delete_guarded self w :
  negb (stage_in (FLAGS_run_stage FLAGS) [STAGE_ALL; STAGE_CLEANUP]) || deleted self = true ->
  Delete self w = (Ok self, w).
Proof. intros G. unfold Delete. by rewrite G. Qed.

Lemma teardown_runs self w :
  exists w' vm_calls,
    teardown self w = (Ok (), w') /\
    Forall is_teardown_call vm_calls /\
    trace w' = trace w ++ vm_calls ++
                 FirewallDisallowAllPorts (firewall self) ::
                 ((fun zn => NetworkDelete zn.2) <$> map_to_list (networks self)).
Proof.
  unfold teardown.
  destruct (delete_vms_step_runs self w) as (w1 & vm_calls & E1 & T1 & F1).
  destruct (delete_firewall_step_runs self w1) as (w2 & E2 & T2).
  destruct (delete_networks_step_runs self w2) as (w3 & E3 & T3).
  exists w3, vm_calls.
  rewrite (bind_Ok _ _ _ _ _ E1), (bind_Ok _ _ _ _ _ E2), E3.
  split; [done|]. split; [done|].
  rewrite T3, T2, T1. by rewrite <- !app_assoc.
Qed.

Lemma Delete_runs self w :
  negb (stage_in (FLAGS_run_stage FLAGS) [STAGE_ALL; STAGE_CLEANUP]) || deleted self = false ->
  exists w' vm_calls,
    Delete self w = (Ok (set_deleted true self), w') /\
    Forall is_teardown_call vm_calls /\
    trace w' = trace w ++ vm_calls ++
                 FirewallDisallowAllPorts (firewall self) ::
                 ((fun zn => NetworkDelete zn.2) <$> map_to_list (networks self)).
Proof.
  intros G. unfold Delete. rewrite G.
  destruct (teardown_runs self w) as (w' & vm_calls & E & F & T).
  exists w', vm_calls. by rewrite (bind_Ok _ _ _ _ _ E).
Qed.

Lemma Delete_never_raises self w : exists self' w', Delete self w = (Ok self', w').
Proof.
  destruct (negb (stage_in (FLAGS_run_stage FLAGS) [STAGE_ALL; STAGE_CLEANUP])
            || deleted self) eqn:G.
  - exists self, w. by apply Delete_guarded.
  - destruct (Delete_runs self w G) as (w' & ? & E & _). eauto.
Qed.

(** C9.  When [FLAGS.run_stage] is neither 'all' nor 'cleanup', [Delete]
    returns at once: it makes no call on any handle (the world, and with it
    the trace of calls, is unchanged) and leaves every field of the spec as
    it was, so a spec that was not deleted is still not deleted. *)
Theorem Delete_skipped_outside_cleanup_stages self w :
  FLAGS_run_stage FLAGS <> STAGE_ALL ->
  FLAGS_run_stage FLAGS <> STAGE_CLEANUP ->
  Delete self w = (Ok self, w).
Proof.
  intros H1 H2. apply Delete_guarded. unfold stage_in.
  rewrite bool_decide_eq_false_2; [done|].
  rewrite !elem_of_cons, elem_of_nil. by intros [?|[?|?]].
Qed.

(** C1.  Calling [Delete] twice in sequence: the first call returns
    normally, the second one is a no-op that makes no call at all (the
    world it leaves is the world it found) and does not change the spec;
    [deleted] holds afterwards as soon as it held before or the first call
    did the teardown. *)
Theorem Delete_idempotent self w :
  exists self1 w1,
    Delete self w = (Ok self1, w1) /\
    Delete self1 w1 = (Ok self1, w1) /\
    deleted self1 =
      deleted self || stage_in (FLAGS_run_stage FLAGS) [STAGE_ALL; STAGE_CLEANUP].
Proof.
  destruct (negb (stage_in (FLAGS_run_stage FLAGS) [STAGE_ALL; STAGE_CLEANUP])
            || deleted self) eqn:G.
  - exists self, w. rewrite !(Delete_guarded self w G). split; [done|]. split; [done|].
    destruct (deleted self), (stage_in _ _); done.
  - destruct (Delete_runs self w G) as (w1 & ? & E & _).
    exists (set_deleted true self), w1. split; [done|]. split.
    + apply Delete_guarded. simpl. by rewrite orb_true_r.
    + simpl. destruct (deleted self), (stage_in _ _); done.
Qed.

(** C2.  When [Delete] runs its teardown body, whatever the calls on the
    VMs did (raise or return), the firewall's [DisallowAllPorts] and then
    the [Delete] of the network of every zone are still called, whether or
    not an earlier one of them raised; [Delete] returns normally and the
    spec is marked deleted. *)
Theorem Delete_partial_teardown self w :
  FLAGS_run_stage FLAGS ∈ [STAGE_ALL; STAGE_CLEANUP] ->
  deleted self = false ->
  exists self' w' vm_calls,
    Delete self w = (Ok self', w') /\
    deleted self' = true /\
    trace w' = trace w ++ vm_calls ++
                 FirewallDisallowAllPorts (firewall self) ::
                 ((fun zn => NetworkDelete zn.2) <$> map_to_list (networks self)) /\
    (forall zone network,
        networks self !! zone = Some network ->
        NetworkDelete network ∈ calls_since (length (trace w ++ vm_calls)) w').
Proof.
  intros Hs Hd.
  destruct (Delete_runs self w) as (w' & vm_calls & E & F & T).
  { unfold stage_in. by rewrite bool_decide_eq_true_2, Hd. }
  exists (set_deleted true self), w', vm_calls. repeat split; try done.
  intros zone network Hz. unfold calls_since. rewrite T, app_assoc, drop_app_length.
  apply elem_of_cons. right.
  apply list_elem_of_fmap. exists (zone, network). split; [done|].
  by apply elem_of_map_to_list.
Qed.

(** *** PrepareVm *)

Lemma for_each_fmap {S A B} (f : A -> B) (l : list A) (body : B -> ST S unit) :
  for_each (f <$> l) body = for_each l (fun x => body (f x)).
Proof. induction l as [|x l IH]; [done|]. cbn. by rewrite IH. Qed.

Lemma calls_then e (rest : M unit) l :
  (forall w, rest w = for_each l call w) ->
  forall w, (call e;; rest) w = for_each (e :: l) call w.
Proof.
  intros H w. cbn [for_each]. unfold mbind, ST_bind.
  destruct (call e w) as [[[]|x] w1]; [apply H | done].
Qed.

Lemma skip_then (rest : M unit) l :
  (forall w, rest w = for_each l call w) ->
  forall w, (mret ();; rest) w = for_each l call w.
Proof. intros H w. apply H. Qed.

Lemma PrepareVm_is_its_calls self vm firewall w :
  PrepareVm self vm firewall w = for_each (PrepareVm_calls self vm firewall) call w.
Proof.
  revert w. unfold PrepareVm, PrepareVm_calls, allow_port_calls, local_disk_calls.
  destruct (port_truthy (winrm_port vm)), (port_truthy (smb_port vm)),
    (port_truthy (ssh_port vm)), (bool_decide (FLAGS_scratch_disk_type FLAGS = LOCAL));
    cbn [app];
    repeat (apply calls_then || apply skip_then);
    intros w; by rewrite for_each_fmap.
Qed.

Lemma for_each_call_trace (l : list Event) w :
  exists new,
    trace (for_each l call w).2 = trace w ++ new /\
    match (for_each l call w).1 with
    | Ok _ => new = l
    | Raise _ => new `prefix_of` l
    end.
Proof.
  revert w. induction l as [|e l IH]; intros w.
  - exists []. by rewrite app_nil_r.
  - cbn [for_each]. unfold mbind, ST_bind.
    pose proof (call_trace e w) as T.
    destruct (call e w) as [[[]|x] w1]; cbn in T |- *.
    + destruct (IH w1) as (new & T1 & R). exists (e :: new).
      rewrite T1, T, <- app_assoc. split; [done|].
      destruct (for_each l call w1).1; [by subst | by apply prefix_cons].
    + exists [e]. split; [done|]. by apply prefix_cons, prefix_nil.
Qed.

(** C6, as amended.  The calls of one VM's pipeline are made one after
    the other in the order create, open firewall ports (remote management,
    file sharing, remote shell), apply metadata tags, wait for boot
    completion, run startup hooks, set up local disks, create each declared
    scratch disk: a pipeline that returns has made exactly these calls in
    this order, and one that raises has made a prefix of them. *)
Theorem PrepareVm_order self vm firewall w :
  exists new,
    trace (PrepareVm self vm firewall w).2 = trace w ++ new /\
    match (PrepareVm self vm firewall w).1 with
    | Ok _ => new = PrepareVm_calls self vm firewall
    | Raise _ => new `prefix_of` PrepareVm_calls self vm firewall
    end.
Proof. rewrite PrepareVm_is_its_calls. apply for_each_call_trace. Qed.

(** *** Construction *)

Lemma py_getitem_0 {A} (l : list A) : py_getitem l 0 = l !! 0%nat.
Proof. done. Qed.

Lemma py_getitem_min {A} (l : list A) (index : Z) :
  l <> [] -> 0 <= index ->
  py_getitem l (Z.min index (Z.of_nat (length l) - 1)) =
    l !! (Z.to_nat index `min` (length l - 1))%nat /\
  is_Some (l !! (Z.to_nat index `min` (length l - 1))%nat).
Proof.
  intros Hl Hi. destruct l as [|a l]; [done|]. unfold py_getitem.
  rewrite bool_decide_eq_true_2 by (cbn [length]; lia).
  replace (Z.to_nat (Z.min index (Z.of_nat (length (a :: l)) - 1)))
    with (Z.to_nat index `min` (length (a :: l) - 1))%nat by (cbn [length]; lia).
  split; [done|]. apply lookup_lt_is_Some. cbn [length]. lia.
Qed.

Lemma CreateVirtualMachine_Ok self opt_zone w vm self' w' :
  CreateVirtualMachine self opt_zone w = (Ok (vm, self'), w') ->
  trace w' = trace w /\
  (exists n v, self' = with_allocation n v self) /\
  (static_vm_pool w = vm :: static_vm_pool w' \/
   static_vm_pool w = [] /\ static_vm_pool w' = [] /\
   disk_specs vm = [] /\ is_static vm = false /\ vm_image vm = image self /\
   Some (vm_zone vm) = str_or opt_zone (zones self !! 0%nat)).
Proof.
  unfold CreateVirtualMachine, GetStaticVirtualMachine, mbind, ST_bind, mret, ST_ret, raise.
  destruct (static_vm_pool w) as [|vm0 pool] eqn:Ep.
  - destruct (CLASSES_VIRTUAL_MACHINE _ _) as [c|]; [|done].
    rewrite py_getitem_0.
    destruct opt_zone as [[|a z]|]; cbn [str_or];
      try (destruct (zones self !! 0%nat) as [z0|] eqn:E0; [|done]);
      match goal with |- context [networks self !! ?zone] =>
        destruct (networks self !! zone) end;
      cbn; intros [= <- <- <-];
      (split; [done|]; split; [by eexists _, _|]; right; by repeat split).
  - intros [= <- <- <-]. split; [done|]. split.
    + exists (networks self), (vm_spec self). by destruct self.
    + by left.
Qed.

Lemma CreateVirtualMachine_total self opt_zone w c :
  CLASSES_VIRTUAL_MACHINE (cloud self) (FLAGS_os_type FLAGS) = Some c ->
  zones self <> [] ->
  exists vm self' w', CreateVirtualMachine self opt_zone w = (Ok (vm, self'), w').
Proof.
  intros Hc Hz.
  unfold CreateVirtualMachine, GetStaticVirtualMachine, mbind, ST_bind, mret, ST_ret, raise.
  destruct (static_vm_pool w) as [|vm0 pool]; [|by eexists _, _, _].
  rewrite Hc, py_getitem_0. destruct (zones self) as [|z0 zs]; [done|]. cbn [lookup list_lookup].
  destruct opt_zone as [[|a z]|]; cbn [str_or];
    match goal with |- context [networks self !! ?zone] =>
      destruct (networks self !! zone) end; by eexists _, _, _.
Qed.

Lemma create_vms_Ok indexes : forall self w l self' w',
  create_vms self indexes w = (Ok (l, self'), w') ->
  trace w' = trace w /\
  (exists n v, self' = with_allocation n v self) /\
  length l = length indexes /\
  forall (i : nat) vm, l !! i = Some vm ->
    static_vm_pool w !! i = Some vm \/
    (length (static_vm_pool w) <= i)%nat /\
    disk_specs vm = [] /\ is_static vm = false /\ vm_image vm = image self /\
    exists index z,
      indexes !! i = Some index /\
      py_getitem (zones self)
        (Z.min index (Z.of_nat (length (zones self)) - 1)) = Some z /\
      Some (vm_zone vm) = str_or (Some z) (zones self !! 0%nat).
Proof.
  induction indexes as [|index rest IH]; intros self w l self' w'.
  - intros [= <- <- <-]. split; [done|]. split.
    + exists (networks self), (vm_spec self). by destruct self.
    + split; [done|]. intros i vm Hi. by rewrite lookup_nil in Hi.
  - cbn [create_vms]. unfold mbind at 1, ST_bind at 1.
    destruct (py_getitem _ _) as [z|] eqn:Ez; [|done]. cbn.
    unfold mbind at 1, ST_bind at 1.
    destruct (CreateVirtualMachine self (Some z) w) as [[[vm1 self1]|e] w1] eqn:E1; [|done].
    unfold mbind at 1, ST_bind at 1.
    destruct (create_vms self1 rest w1) as [[[l1 self2]|e] w2] eqn:E2; [|done].
    intros [= <- <- <-].
    apply CreateVirtualMachine_Ok in E1 as (T1 & (n1 & v1 & ->) & Hvm1).
    apply IH in E2 as (T2 & (n2 & v2 & ->) & Hlen & Hl1).
    split; [congruence|]. split; [by eexists _, _|]. split; [cbn; by rewrite Hlen|].
    intros [|i] vm.
    + intros [= ->]. destruct Hvm1 as [Hp|(Hp & _ & Hd & Hs & Hi & Hz)].
      * left. by rewrite Hp.
      * right. rewrite Hp. split; [cbn; lia|]. do 3 (split; [done|]).
        by exists index, z.
    + intros Hi. apply Hl1 in Hi. cbn [zones image with_allocation] in Hi.
      destruct Hvm1 as [Hp|(Hp & Hp1 & _)].
      * rewrite Hp. destruct Hi as [Hi|(Hlen1 & Hrest)]; [by left|].
        right. split; [cbn; lia | done].
      * rewrite Hp. rewrite Hp1 in Hi. destruct Hi as [Hi|(_ & Hrest)]; [done|].
        right. split; [cbn; lia | done].
Qed.

Lemma create_vms_total indexes : forall self w c,
  CLASSES_VIRTUAL_MACHINE (cloud self) (FLAGS_os_type FLAGS) = Some c ->
  zones self <> [] ->
  Forall (fun index => 0 <= index) indexes ->
  exists l self' w', create_vms self indexes w = (Ok (l, self'), w').
Proof.
  induction indexes as [|index rest IH]; intros self w c Hc Hz Hi.
  - by eexists _, _, _.
  - apply Forall_cons in Hi as [Hi Hrest].
    destruct (py_getitem_min (zones self) index Hz Hi) as [Eg [z Ez]].
    destruct (CreateVirtualMachine_total self (Some z) w c Hc Hz) as (vm & self1 & w1 & E1).
    pose proof (CreateVirtualMachine_Ok _ _ _ _ _ _ E1) as (_ & (n1 & v1 & ->) & _).
    destruct (IH (with_allocation n1 v1 self) w1 c Hc Hz Hrest) as (l & self2 & w2 & E2).
    exists (vm :: l), self2, w2. cbn [create_vms].
    unfold mbind at 1, ST_bind at 1. rewrite Eg, Ez. cbn.
    unfold mbind at 1, ST_bind at 1. rewrite E1.
    unfold mbind at 1, ST_bind at 1. by rewrite E2.
Qed.

Lemma add_disk_specs_fold (mk : Z -> BaseDiskSpec) (indexes : list Z) : forall vm,
  let vm' := foldl (fun vm i => append_disk_spec vm (mk i)) vm indexes in
  disk_specs vm' = disk_specs vm ++ (mk <$> indexes) /\
  vm_zone vm' = vm_zone vm /\ max_local_disks vm' = max_local_disks vm.
Proof.
  induction indexes as [|i rest IH]; intros vm; cbn.
  - by rewrite app_nil_r.
  - destruct (IH (append_disk_spec vm (mk i))) as (D & Z & L). cbn in *.
    rewrite D, Z, L. by rewrite <- app_assoc.
Qed.

Lemma add_scratch_disk_specs_fields self scratch_disk vm :
  let vm' := add_scratch_disk_specs self scratch_disk vm in
  vm_zone vm' = vm_zone vm /\ max_local_disks vm' = max_local_disks vm /\
  exists new,
    disk_specs vm' = disk_specs vm ++ new /\
    length new = Z.to_nat scratch_disk /\
    Forall (fun d => num_striped_disks d = striping_factor scratch_disk vm) new.
Proof.
  unfold add_scratch_disk_specs.
  match goal with |- context [foldl (fun vm i => append_disk_spec vm (@?mk i)) vm ?l] =>
    destruct (add_disk_specs_fold mk l vm) as (D & Z & L) end.
  cbn zeta. split; [done|]. split; [done|]. eexists. split; [exact D|]. split.
  - by rewrite length_fmap, length_seqZ.
  - apply Forall_fmap, Forall_forall. by intros i _.
Qed.

Lemma BenchmarkSpec_init_Ok info w s w' :
  BenchmarkSpec_init info w = (Ok s, w') ->
  exists zs mt n sd l self1,
    zs <> [] /\ info_scratch_disk info = Some sd /\
    create_vms (fresh_spec info zs mt n sd) (seqZ 0 n) w = (Ok (l, self1), w') /\
    s = set_vms (add_scratch_disk_specs self1 sd <$> l) self1.
Proof.
  unfold BenchmarkSpec_init. cbn zeta.
  set (zs_m := match FLAGS_zones FLAGS with
               | Some (z :: l) => mret (z :: l)
               | _ => z ← defaults_item (DEFAULTS (FLAGS_cloud FLAGS)) ZONE; mret [z]
               end).
  assert (forall zs w1, zs_m w = (Ok zs, w1) -> zs <> [] /\ w1 = w) as Hzs.
  { intros zs w1. unfold zs_m, defaults_item, mbind, ST_bind, mret, ST_ret, raise.
    destruct (FLAGS_zones FLAGS) as [[|z l]|];
      try destruct (DEFAULTS _ !! ZONE) as [[z0|]|]; by intros [= <- <-]. }
  unfold mbind at 1, ST_bind at 1.
  destruct (zs_m w) as [[zs|e] w1] eqn:Ezs; [|done].
  destruct (Hzs _ _ eq_refl) as [Hne ->].
  unfold mbind at 1, ST_bind at 1.
  match goal with |- context [match ?m w with _ => _ end] =>
    assert (forall mt w1, m w = (Ok mt, w1) -> w1 = w) as Hmt;
    [ intros mt w1; unfold defaults_item, mret, ST_ret, raise;
      destruct (str_or _ _); try destruct (DEFAULTS _ !! MACHINE_TYPE) as [[m0|]|];
      by intros [= <- <-]
    | destruct (m w) as [[mt|e] w1] eqn:Emt; [|done] ] end.
  pose proof (Hmt _ _ eq_refl) as ->.
  unfold mbind at 1, ST_bind at 1, mret, ST_ret, raise.
  destruct (info_num_machines info) as [[n|]|]; [| |done];
    (unfold mbind at 1, ST_bind at 1;
     destruct (info_scratch_disk info) as [sd|]; [|done];
     unfold mbind at 1, ST_bind at 1;
     match goal with |- context [create_vms ?self0 ?l0 w] =>
       destruct (create_vms self0 l0 w) as [[[l self1]|e] w2] eqn:Ec; [|done] end;
     intros [= <- <-]; by eexists zs, mt, _, sd, l, self1).
Qed.

Lemma DEFAULTS_zone cloud : exists z, DEFAULTS cloud !! ZONE = Some (Some z).
Proof. destruct cloud; eexists; vm_compute; reflexivity. Qed.

Lemma DEFAULTS_machine_type cloud : exists m, DEFAULTS cloud !! MACHINE_TYPE = Some (Some m).
Proof. destruct cloud; eexists; vm_compute; reflexivity. Qed.

Lemma BenchmarkSpec_init_total info w c sd m :
  CLASSES_VIRTUAL_MACHINE (FLAGS_cloud FLAGS) (FLAGS_os_type FLAGS) = Some c ->
  info_scratch_disk info = Some sd ->
  info_num_machines info = Some m ->
  exists s w', BenchmarkSpec_init info w = (Ok s, w').
Proof.
  intros Hc Hsd Hm. unfold BenchmarkSpec_init. cbn zeta.
  destruct (DEFAULTS_zone (FLAGS_cloud FLAGS)) as [z0 Ez].
  destruct (DEFAULTS_machine_type (FLAGS_cloud FLAGS)) as [m0 Em].
  assert (exists zs, zs <> [] /\
            (match FLAGS_zones FLAGS with
             | Some (z :: l) => mret (z :: l)
             | _ => z ← defaults_item (DEFAULTS (FLAGS_cloud FLAGS)) ZONE; mret [z]
             end : M (list string)) w = (Ok zs, w)) as (zs & Hne & Ezs).
  { unfold defaults_item, mbind, ST_bind, mret, ST_ret. rewrite Ez.
    destruct (FLAGS_zones FLAGS) as [[|z l]|]; eexists; (split; [|reflexivity]); done. }
  rewrite (bind_Ok _ _ _ _ _ Ezs).
  assert (exists mt,
            (match str_or (FLAGS_machine_type FLAGS) None with
             | Some m => mret m
             | None => defaults_item (DEFAULTS (FLAGS_cloud FLAGS)) MACHINE_TYPE
             end : M string) w = (Ok mt, w)) as (mt & Emt).
  { unfold defaults_item, mret, ST_ret. rewrite Em.
    destruct (str_or _ _); by eexists. }
  rewrite (bind_Ok _ _ _ _ _ Emt), Hm, Hsd.
  assert (exists n, (match m with
                     | Some n => mret n
                     | None => mret (FLAGS_num_vms FLAGS)
                     end : M Z) w = (Ok n, w)) as (n & En).
  { destruct m; by eexists. }
  rewrite (bind_Ok _ _ _ _ _ En), (bind_Ok _ _ w sd w) by done.
  destruct (create_vms_total (seqZ 0 n) (fresh_spec info zs mt n sd) w c)
    as (l & self1 & w2 & Ec); [done | done | |].
  - apply Forall_seqZ. lia.
  - rewrite (bind_Ok _ _ _ _ _ Ec). by eexists _, _.
Qed.

Lemma defaults_get_lookup (d : gmap string (option string)) key :
  defaults_get d key = default None (d !! key).
Proof. unfold defaults_get. by destruct (d !! key). Qed.

(** C7.  In a spec built from the flags with local scratch disks, at
    least one scratch disk requested and [num_striped_disks] not given on
    the command line, every VM receives one disk specification per
    requested scratch disk, and the striping factor of each of them is the
    VM's [max_local_disks] divided (integer division) by the number of
    scratch disks. *)
Theorem striping_default info w s w' (n : Z) :
  BenchmarkSpec_init info w = (Ok s, w') ->
  FLAGS_scratch_disk_type FLAGS = LOCAL ->
  FLAGS_num_striped_disks_present FLAGS = false ->
  info_scratch_disk info = Some n ->
  1 <= n ->
  forall vm, vm ∈ vms s ->
    exists old new,
      disk_specs vm = old ++ new /\
      length new = Z.to_nat n /\
      Forall (fun d => num_striped_disks d = max_local_disks vm / n) new.
Proof.
  intros (zs & mt & n0 & sd & l & self1 & _ & Hsd & _ & ->)%BenchmarkSpec_init_Ok
    Hlocal Hpresent Hn Hpos vm Hvm.
  rewrite Hsd in Hn. injection Hn as ->.
  cbn [vms set_vms] in Hvm. apply list_elem_of_fmap in Hvm as (vm0 & -> & _).
  destruct (add_scratch_disk_specs_fields self1 n vm0) as (_ & Hmax & new & D & L & F).
  exists (disk_specs vm0), new. split; [done|]. split; [done|].
  rewrite Hmax. eapply Forall_impl; [exact F|]. intros d ->.
  unfold striping_factor.
  rewrite Hpresent, bool_decide_eq_true_2 by done.
  destruct (Z.eqb_spec n 0); [lia | done].
Qed.

(** C8, as amended.  In a spec built from the flags the image is the
    explicit [--image] value when there is one (and it is not empty), else
    the entry of the provider's default table (for the OS family), else
    [None]; a missing image is no error: construction succeeds whenever the
    benchmark information has its two required keys and the provider has a
    VM class for the OS type. *)
Theorem image_precedence info w c n m :
  CLASSES_VIRTUAL_MACHINE (FLAGS_cloud FLAGS) (FLAGS_os_type FLAGS) = Some c ->
  info_scratch_disk info = Some n ->
  info_num_machines info = Some m ->
  exists s w',
    BenchmarkSpec_init info w = (Ok s, w') /\
    let table_entry :=
      default None (DEFAULTS (FLAGS_cloud FLAGS) !!
                      (if decide (FLAGS_os_type FLAGS = WINDOWS)
                       then WINDOWS_IMAGE else IMAGE)) in
    image s = match FLAGS_image FLAGS with
              | Some v => if decide (v = "") then table_entry else Some v
              | None => table_entry
              end.
Proof.
  intros Hc Hn Hm.
  destruct (BenchmarkSpec_init_total info w c n m Hc Hn Hm) as (s & w' & E).
  exists s, w'. split; [done|].
  apply BenchmarkSpec_init_Ok in E as (zs & mt & n0 & sd & l & self1 & _ & _ & Ec & ->).
  apply create_vms_Ok in Ec as (_ & (nw & v & ->) & _).
  cbn [image set_vms with_allocation fresh_spec]. unfold resolve_image.
  rewrite !defaults_get_lookup.
  destruct (decide (FLAGS_os_type FLAGS = WINDOWS)) as [Hos|Hos];
    [rewrite bool_decide_eq_true_2 by done | rewrite bool_decide_eq_false_2 by done];
    by destruct (FLAGS_image FLAGS) as [[|a v']|].
Qed.

(** *** Pickling *)

(** C5.  Provided that [pickle.load] gives back what [pickle.dump] wrote,
    and that the spec has the file name its constructor gave it: pickling a
    spec and reloading it under its benchmark name succeeds and yields
    the same spec with [deleted] false, whatever [deleted] was before.  So
    the VMs, the networks and the firewall are those of the original, the
    teardown makes the same calls with the same outcome on both, in every
    world, and [Delete] on the reloaded spec is [Delete] on the
    original with its flag cleared: it is [Delete] on the original
    itself when the original was not deleted. *)
Theorem pickle_roundtrip self w :
  (forall s, pickle_loads (pickle_dumps s) = Some s) ->
  file_name self = GetTempDir +:+ "/" +:+ benchmark_name self ->
  exists w1 loaded,
    PickleSpec self w = (Ok (), w1) /\
    GetSpecFromFile (benchmark_name self) w1 = (Ok loaded, w1) /\
    loaded = set_deleted false self /\
    deleted loaded = false /\
    vms loaded = vms self /\
    networks loaded = networks self /\
    firewall loaded = firewall self /\
    (forall w2, teardown loaded w2 = teardown self w2) /\
    (forall w2, Delete loaded w2 = Delete (set_deleted false self) w2) /\
    (deleted self = false -> forall w2, Delete loaded w2 = Delete self w2).
Proof.
  intros Hrt Hname. eexists _, (set_deleted false self).
  split; [reflexivity|]. split.
  - unfold GetSpecFromFile, PickleSpec, try_except, mbind, ST_bind. cbn.
    by rewrite Hname, lookup_insert_eq, Hrt.
  - repeat (split; [done|]). intros Hd w2.
    replace (set_deleted false self) with self; [done|].
    destruct self; cbn in *; by subst.
Qed.

(** *** RunBenchmark *)

Lemma ValidateBenchmarkInfo_valid info w :
  is_Some (info_scratch_disk info) -> is_Some (info_num_machines info) ->
  ValidateBenchmarkInfo info w = (Ok true, w).
Proof. intros [? E1] [? E2]. unfold ValidateBenchmarkInfo. by rewrite E1, E2. Qed.

(** The first statement of the [try] block raises: the variable [spec] is
    still [None] when the block is left. *)
Lemma run_stages_no_spec name info w e w1 :
  (if STAGE_in [STAGE_ALL; STAGE_PREPARE]
   then BenchmarkSpec_init info w
   else GetSpecFromFile name w) = (Raise e, w1) ->
  run_stages name info {| spec := None; world := w |} =
    (Raise e, {| spec := None; world := w1 |}).
Proof.
  intros E. unfold run_stages. apply bind_Raise.
  destruct (STAGE_in [STAGE_ALL; STAGE_PREPARE]);
    apply bind_Raise; unfold lift; cbn; by rewrite E.
Qed.

(** C10.  In a 'prepare' or a 'run' invocation, when the statement that
    should assign [spec] raises (the constructor in 'prepare', the
    unpickling in 'run'), the [finally] clause evaluates
    [spec.PickleSpec()] on [None]: [RunBenchmark] raises the AttributeError
    of that attribute lookup, instead of the exception [e] that was
    raised first. *)
Theorem finally_dereferences_None benchmark w w1 e w2 :
  is_Some (info_scratch_disk (GetInfo benchmark)) ->
  is_Some (info_num_machines (GetInfo benchmark)) ->
  check_prereqs benchmark (info_name (GetInfo benchmark)) w = (Ok (), w1) ->
  FLAGS_run_stage FLAGS = STAGE_PREPARE /\
    BenchmarkSpec_init (GetInfo benchmark) w1 = (Raise e, w2) \/
  FLAGS_run_stage FLAGS = STAGE_RUN /\
    GetSpecFromFile (info_name (GetInfo benchmark)) w1 = (Raise e, w2) ->
  exists w',
    RunBenchmark benchmark w = (Raise (NoneType_has_no "PickleSpec"), w') /\
    trace w' = trace w2.
Proof.
  intros Hsd Hnm Hpre Hraise. unfold RunBenchmark.
  rewrite (bind_Ok _ _ _ _ _ (ValidateBenchmarkInfo_valid _ w Hsd Hnm)). cbn [negb].
  rewrite (bind_Ok _ _ _ _ _ Hpre).
  assert (run_stages (info_name (GetInfo benchmark)) (GetInfo benchmark)
            {| spec := None; world := w1 |} =
          (Raise e, {| spec := None; world := w2 |}) /\
          STAGE_in [STAGE_ALL; STAGE_CLEANUP] = false) as [Hstages Hfin].
  { unfold STAGE_in in *.
    destruct Hraise as [[Hs E]|[Hs E]]; (split; [|by rewrite Hs]);
      apply run_stages_no_spec; unfold STAGE_in; by rewrite Hs. }
  unfold try_statement, try_finally, try_except.
  rewrite (bind_Raise _ _ _ _ _ Hstages).
  unfold finally_clause, lift, logging, raise, mbind, ST_bind. cbn.
  rewrite Hfin. by eexists.
Qed.

Lemma emits_at {S} `{Traced S} {A} P (m : ST S A) w r w1 :
  emits P m -> m w = (r, w1) ->
  exists new, the_trace w1 = the_trace w ++ new /\ Forall P new.
Proof. intros Hm E. specialize (Hm w). by rewrite E in Hm. Qed.

Lemma teardown_call_is_no_hook e : is_teardown_call e -> no_run_or_cleanup_hook e.
Proof. by destruct e. Qed.

Lemma no_hook_not_Run l n : Forall no_run_or_cleanup_hook l -> BenchmarkRun n ∉ l.
Proof. intros F Hin. by apply (proj1 (Forall_forall _ _) F) in Hin. Qed.

Lemma no_hook_not_Cleanup l n : Forall no_run_or_cleanup_hook l -> BenchmarkCleanup n ∉ l.
Proof. intros F Hin. by apply (proj1 (Forall_forall _ _) F) in Hin. Qed.

Lemma emits_Delete self : emits no_run_or_cleanup_hook (Delete self).
Proof.
  intros w.
  destruct (negb (stage_in (FLAGS_run_stage FLAGS) [STAGE_ALL; STAGE_CLEANUP])
            || deleted self) eqn:G.
  - rewrite (Delete_guarded _ _ G). exists []. by rewrite app_nil_r.
  - destruct (Delete_runs self w G) as (w' & vm_calls & -> & F & T).
    eexists. split; [exact T|]. apply Forall_app. split.
    + eapply Forall_impl; [exact F | apply teardown_call_is_no_hook].
    + constructor; [done|]. apply Forall_fmap, Forall_forall. by intros [? ?] _.
Qed.

Lemma emits_PrepareVm self vm fw : emits no_run_or_cleanup_hook (PrepareVm self vm fw).
Proof.
  unfold PrepareVm.
  repeat (apply emits_bind; [first [by apply emits_call
                                   | apply emits_if; [by apply emits_call | apply emits_ret]]
                            | intros _]).
  apply emits_for_each. intros d. by apply emits_call.
Qed.

Lemma emits_Prepare self : emits no_run_or_cleanup_hook (Prepare self).
Proof.
  unfold Prepare. apply emits_bind.
  - apply emits_if; [apply emits_ret|].
    apply emits_RunThreaded. intros n. by apply emits_call.
  - intros _. destruct (vms self) as [|vm l]; [apply emits_ret|].
    apply emits_bind.
    + apply emits_RunThreaded. intros [vm' fw]. apply emits_PrepareVm.
    + intros _. apply emits_if; [apply emits_ret | by apply emits_call].
Qed.

Lemma emits_DoPreparePhase name self :
  emits no_run_or_cleanup_hook (DoPreparePhase name self).
Proof.
  apply emits_bind; [apply emits_Prepare | intros _; by apply emits_call].
Qed.

Lemma emits_check_prereqs benchmark name :
  emits no_run_or_cleanup_hook (check_prereqs benchmark name).
Proof.
  unfold check_prereqs. apply emits_if; [|apply emits_ret].
  apply emits_try_except; [by apply emits_call|].
  intros e. apply emits_bind; [apply emits_logging | intros _; apply emits_raise].
Qed.

Lemma BenchmarkSpec_init_trace info w : trace (BenchmarkSpec_init info w).2 = trace w.
Proof.
  assert (forall d k w, trace (defaults_item d k w).2 = trace w) as Hd.
  { intros d k w0. unfold defaults_item. by destruct (d !! k) as [[|]|]. }
  assert (forall self oz w, trace (CreateVirtualMachine self oz w).2 = trace w) as Hc.
  { intros self oz w0.
    unfold CreateVirtualMachine, GetStaticVirtualMachine, mbind, ST_bind, mret, ST_ret, raise.
    destruct (static_vm_pool w0); [|done].
    destruct (CLASSES_VIRTUAL_MACHINE _ _); [|done].
    destruct (str_or oz None); [|destruct (py_getitem _ _); [|done]];
      match goal with |- context [networks self !! ?zone] =>
        by destruct (networks self !! zone) end. }
  assert (forall l self w, trace (create_vms self l w).2 = trace w) as Hl.
  { induction l as [|index rest IH]; intros self w0; [done|].
    cbn [create_vms]. unfold mbind at 1, ST_bind at 1.
    destruct (py_getitem _ _) as [z|]; [|done]. cbn. unfold mbind at 1, ST_bind at 1.
    specialize (Hc self (Some z) w0).
    destruct (CreateVirtualMachine self (Some z) w0) as [[[vm1 self1]|e] w1]; [|done].
    unfold mbind at 1, ST_bind at 1. specialize (IH self1 w1).
    destruct (create_vms self1 rest w1) as [[[l1 self2]|e] w2]; cbn in *; congruence. }
  unfold BenchmarkSpec_init. cbn zeta.
  unfold mbind at 1, ST_bind at 1.
  match goal with |- context [match ?m w with _ => _ end] =>
    assert (trace (m w).2 = trace w) as Hz;
    [ unfold mbind, ST_bind; destruct (FLAGS_zones FLAGS) as [[|]|]; try done;
      (specialize (Hd (DEFAULTS (FLAGS_cloud FLAGS)) ZONE w);
       by destruct (defaults_item _ _ w) as [[|] ?])
    | destruct (m w) as [[zs|e] w1]; [|done] ] end.
  unfold mbind at 1, ST_bind at 1.
  match goal with |- context [match ?m w1 with _ => _ end] =>
    assert (trace (m w1).2 = trace w1) as Hm;
    [ destruct (str_or _ _); [done | apply Hd]
    | destruct (m w1) as [[mt|e] w2]; [|cbn in *; congruence] ] end.
  unfold mbind at 1, ST_bind at 1, mret, ST_ret, raise.
  destruct (info_num_machines info) as [[n|]|]; [| |cbn in *; congruence];
    (unfold mbind at 1, ST_bind at 1;
     destruct (info_scratch_disk info) as [sd|]; [|cbn in *; congruence];
     unfold mbind at 1, ST_bind at 1;
     match goal with |- context [create_vms ?self0 ?l0 w2] =>
       specialize (Hl l0 self0 w2);
       destruct (create_vms self0 l0 w2) as [[[l self1]|e] w3] end;
     cbn in *; congruence).
Qed.

Lemma BenchmarkSpec_init_deleted info w s w' :
  BenchmarkSpec_init info w = (Ok s, w') -> deleted s = false.
Proof.
  intros (zs & mt & n & sd & l & self1 & _ & _ & Ec & ->)%BenchmarkSpec_init_Ok.
  by apply create_vms_Ok in Ec as (_ & (nw & v & ->) & _).
Qed.

Lemma DoRunPhase_raises name v w x :
  (forall history, raises history (BenchmarkRun name) = Some x) ->
  exists e w3 hook_calls,
    DoRunPhase name v w = (Raise e, w3) /\
    Forall no_run_or_cleanup_hook hook_calls /\
    (trace w3 = trace w ++ hook_calls \/
     e = x /\ trace w3 = trace w ++ hook_calls ++ [BenchmarkRun name]).
Proof.
  intros Hrun. unfold DoRunPhase.
  set (hooks := for_each BEFORE_RUN_HOOKS
                  (fun before_run_hook => call (BeforeRunHook before_run_hook name))).
  assert (emits no_run_or_cleanup_hook hooks) as Hh.
  { apply emits_for_each. intros h. by apply emits_call. }
  destruct (hooks w) as [[[]|e] w1] eqn:E;
    destruct (emits_at _ _ _ _ _ Hh E) as (new & T & F).
  - rewrite (bind_Ok _ _ _ _ _ E).
    eexists x, _, new. split; [|split; [exact F|]].
    + apply bind_Raise. unfold call. by rewrite Hrun.
    + right. split; [done|]. cbn. unfold the_trace, World_traced in T.
      by rewrite T, <- app_assoc.
  - rewrite (bind_Raise _ _ _ _ _ E). exists e, w1, new. by auto.
Qed.

Lemma lift_at {A} (m : M A) fr r w1 :
  m (world fr) = (r, w1) -> lift m fr = (r, {| spec := spec fr; world := w1 |}).
Proof. intros E. unfold lift. by rewrite E. Qed.

(** The 'prepare' block of the [try] statement once the constructor has
    returned [v]. *)
Lemma prepare_block_at name info w v w1 r w2 :
  BenchmarkSpec_init info w = (Ok v, w1) ->
  DoPreparePhase name v (PickleSpec v w1).2 = (r, w2) ->
  (v ← lift (BenchmarkSpec_init info);
   assign_spec v;;
   lift (PickleSpec v);;
   lift (DoPreparePhase name v)) {| spec := None; world := w |} =
    (r, {| spec := Some v; world := w2 |}).
Proof.
  intros Ei Ep.
  rewrite (bind_Ok _ _ _ _ _ (lift_at _ {| spec := None; world := w |} _ _ Ei)).
  unfold mbind at 1, ST_bind at 1, assign_spec. cbn [spec world].
  unfold mbind, ST_bind, lift. cbn [spec world].
  change (PickleSpec v w1) with (@Ok unit (), (PickleSpec v w1).2).
  cbn [spec world]. by rewrite Ep.
Qed.

(** The [try] statement when the block raised [e], leaving [spec] bound to
    [v]: the handler logs, the [finally] clause deletes the spec, and [e]
    is raised again. *)
Lemma try_statement_reraises name info w e v w1 :
  FLAGS_run_stage FLAGS = STAGE_ALL ->
  run_stages name info {| spec := None; world := w |} =
    (Raise e, {| spec := Some v; world := w1 |}) ->
  exists v' w',
    Delete v (logging ("Error during benchmark " +:+ name) w1).2 = (Ok v', w') /\
    try_statement name info w = (Raise e, w').
Proof.
  intros Hs E.
  destruct (Delete_never_raises v (logging ("Error during benchmark " +:+ name) w1).2)
    as (v' & w' & Ed).
  exists v', w'. split; [done|].
  unfold try_statement, try_finally, try_except.
  rewrite (bind_Raise _ _ _ _ _ E).
  unfold finally_clause, STAGE_in, lift, raise, mbind, ST_bind. cbn.
  rewrite Hs. cbn. unfold lift, mbind, ST_bind. cbn in *. by rewrite Ed.
Qed.

Lemma try_statement_when_Run_raises name info w r w' x :
  FLAGS_run_stage FLAGS = STAGE_ALL ->
  (forall history, raises history (BenchmarkRun name) = Some x) ->
  try_statement name info w = (r, w') ->
  exists calls,
    trace w' = trace w ++ calls /\
    (Forall no_run_or_cleanup_hook calls \/
     r = Raise x /\
     (forall n, BenchmarkCleanup n ∉ calls) /\
     exists v wc w1 before,
       BenchmarkSpec_init info w = (Ok v, wc) /\
       trace w1 = trace w ++ before ++ [BenchmarkRun name] /\
       deleted v = false /\
       Delete v w1 = (Ok (set_deleted true v), w')).
Proof.
  intros Hs Hrun Htry.
  assert (STAGE_in [STAGE_ALL; STAGE_PREPARE] = true) as Hprep
    by (unfold STAGE_in; by rewrite Hs).
  assert (STAGE_in [STAGE_ALL; STAGE_RUN] = true) as Hrn
    by (unfold STAGE_in; by rewrite Hs).
  pose proof (BenchmarkSpec_init_trace info w) as Ti.
  destruct (BenchmarkSpec_init info w) as [[v|e] w1] eqn:Ei; cbn in Ti.
  - (* the spec is constructed *)
    pose proof (BenchmarkSpec_init_deleted _ _ _ _ Ei) as Hdel.
    set (w1p := (PickleSpec v w1).2).
    destruct (DoPreparePhase name v w1p) as [[[]|e] w2] eqn:Ep;
      destruct (emits_at _ _ _ _ _ (emits_DoPreparePhase name v) Ep) as (prep & Tp & Fp);
      unfold the_trace, World_traced in Tp; cbn in Tp; rewrite Ti in Tp.
    + (* provisioning succeeds, the Run phase raises *)
      destruct (DoRunPhase_raises name (Some v) w2 x Hrun)
        as (e & w3 & hook_calls & Er & Fh & Tr).
      assert (run_stages name info {| spec := None; world := w |} =
                (Raise e, {| spec := Some v; world := w3 |})) as Hst.
      { unfold run_stages. rewrite Hprep, Hrn.
        rewrite (bind_Ok _ _ _ _ _ (prepare_block_at _ _ _ _ _ _ _ Ei Ep)).
        apply bind_Raise. unfold read_spec, lift, mbind, ST_bind. cbn. by rewrite Er. }
      destruct (try_statement_reraises _ _ _ _ _ _ Hs Hst) as (v' & w'' & Ed & Et).
      rewrite Et in Htry. injection Htry as <- <-.
      destruct (emits_at _ _ _ _ _ (emits_Delete v) Ed) as (td & Td & Fd).
      unfold the_trace, World_traced in Td; cbn in Td.
      destruct Tr as [Tr|[-> Tr]]; rewrite Tr, Tp in Td.
      * exists (prep ++ hook_calls ++ td). split.
        { by rewrite Td, <- !app_assoc. }
        left. by rewrite !Forall_app.
      * exists (prep ++ hook_calls ++ [BenchmarkRun name] ++ td). split.
        { rewrite Td, <- !app_assoc. done. }
        right. split; [done|]. split.
        { intros n. rewrite !elem_of_app, list_elem_of_singleton.
          intros [H|[H|[H|H]]]; [| |done|];
            by eapply no_hook_not_Cleanup in H. }
        exists v, w1, (logging ("Error during benchmark " +:+ name) w3).2,
          (prep ++ hook_calls).
        split; [done|].
        split; [cbn; by rewrite Tr, Tp, <- !app_assoc|]. split; [done|].
        destruct (Delete_runs v (logging ("Error during benchmark " +:+ name) w3).2)
          as (w4 & ? & Ed' & _).
        { unfold stage_in. by rewrite Hs, Hdel. }
        rewrite Ed' in Ed. by injection Ed as <- <-.
    + (* provisioning raises *)
      assert (run_stages name info {| spec := None; world := w |} =
                (Raise e, {| spec := Some v; world := w2 |})) as Hst.
      { unfold run_stages. rewrite Hprep. apply bind_Raise.
        apply (prepare_block_at _ _ _ _ _ _ _ Ei Ep). }
      destruct (try_statement_reraises _ _ _ _ _ _ Hs Hst) as (v' & w'' & Ed & Et).
      rewrite Et in Htry. injection Htry as <- <-.
      destruct (emits_at _ _ _ _ _ (emits_Delete v) Ed) as (td & Td & Fd).
      unfold the_trace, World_traced in Td; cbn in Td. rewrite Tp in Td.
      exists (prep ++ td). split; [by rewrite Td, <- app_assoc|].
      left. by rewrite Forall_app.
  - (* the constructor raises *)
    assert (run_stages name info {| spec := None; world := w |} =
              (Raise e, {| spec := None; world := w1 |})) as Hst.
    { apply run_stages_no_spec. by rewrite Hprep. }
    unfold try_statement, try_finally, try_except in Htry.
    rewrite (bind_Raise _ _ _ _ _ Hst) in Htry.
    unfold finally_clause, STAGE_in, lift, raise, mbind, ST_bind in Htry. cbn in Htry.
    rewrite Hs in Htry. cbn in Htry. injection Htry as <- <-.
    exists []. cbn. rewrite Ti, app_nil_r. split; [done|]. by left.
Qed.

(** C3, as amended.  In an 'all' invocation in which the benchmark's
    [Run] hook raises [x] whenever it is called: if the hook was reached,
    then [RunBenchmark] raises [x], and before it does so the [finally]
    clause has called [spec.Delete()] on the spec [v] that the constructor
    returned in this very invocation (after the prerequisite check), which
    was not yet deleted, after the call of the hook; [Delete] returned
    with that spec marked deleted.  The benchmark module's [Cleanup] hook
    is not called on that path. *)
Theorem cleanup_on_exception benchmark w r w' x :
  FLAGS_run_stage FLAGS = STAGE_ALL ->
  (forall history, raises history (BenchmarkRun (info_name (GetInfo benchmark))) = Some x) ->
  RunBenchmark benchmark w = (r, w') ->
  BenchmarkRun (info_name (GetInfo benchmark)) ∈ calls_since (length (trace w)) w' ->
  r = Raise x /\
  (forall n, BenchmarkCleanup n ∉ calls_since (length (trace w)) w') /\
  exists w0 v wc w1,
    check_prereqs benchmark (info_name (GetInfo benchmark)) w = (Ok (), w0) /\
    BenchmarkSpec_init (GetInfo benchmark) w0 = (Ok v, wc) /\
    BenchmarkRun (info_name (GetInfo benchmark)) ∈ calls_since (length (trace w)) w1 /\
    deleted v = false /\
    Delete v w1 = (Ok (set_deleted true v), w').
Proof.
  intros Hs Hrun Hrb Hin. unfold calls_since in *.
  unfold RunBenchmark in Hrb. unfold mbind at 1, ST_bind at 1 in Hrb.
  assert (exists valid, ValidateBenchmarkInfo (GetInfo benchmark) w =
                          (Ok valid, (ValidateBenchmarkInfo (GetInfo benchmark) w).2) /\
            trace (ValidateBenchmarkInfo (GetInfo benchmark) w).2 = trace w /\
            (valid = true -> (ValidateBenchmarkInfo (GetInfo benchmark) w).2 = w))
    as (valid & Ev & Tv & Hv).
  { unfold ValidateBenchmarkInfo.
    destruct (info_scratch_disk _); [destruct (info_num_machines _)|]; by eexists. }
  rewrite Ev in Hrb. destruct valid; cbn [negb] in Hrb.
  - rewrite Hv in Hrb by done. unfold mbind, ST_bind in Hrb.
    destruct (check_prereqs benchmark (info_name (GetInfo benchmark)) w)
      as [[[]|e] w0] eqn:Ec;
      destruct (emits_at _ _ _ _ _ (emits_check_prereqs _ _) Ec) as (pre & Tc & Fc);
      unfold the_trace, World_traced in Tc.
    + destruct (try_statement_when_Run_raises _ _ _ _ _ _ Hs Hrun Hrb)
        as (calls & Tt & [Fq|(-> & Hnc & v & wc & w1 & before & Ei & T1 & Hd & Ed)]);
        rewrite Tc in Tt; rewrite Tt, <- app_assoc, drop_app_length in Hin |- *.
      * exfalso. apply elem_of_app in Hin as [Hin|Hin];
          by eapply no_hook_not_Run in Hin.
      * split; [done|]. split.
        { intros n [H|H]%elem_of_app; [by eapply no_hook_not_Cleanup in H|].
          by apply Hnc in H. }
        exists w0, v, wc, w1. split; [done|]. split; [done|]. split; [|done].
        rewrite T1, Tc, <- app_assoc, drop_app_length, !elem_of_app, list_elem_of_singleton.
        by auto.
    + injection Hrb as <- <-. rewrite Tc, drop_app_length in Hin.
      by eapply no_hook_not_Run in Hin.
  - injection Hrb as <- <-. rewrite Tv, drop_all in Hin. by apply elem_of_nil in Hin.
Qed.

(** ** Further properties *)

(** *** What a computation leaves alone *)

Lemma keeps_ret {S A X} (f : S -> X) (a : A) : keeps f (mret a : ST S A).
Proof. done. Qed.

Lemma keeps_raise {S A X} (f : S -> X) e : keeps f (raise e : ST S A).
Proof. done. Qed.

Lemma keeps_bind {S A B X} (f : S -> X) (m : ST S A) (k : A -> ST S B) :
  keeps f m -> (forall a, keeps f (k a)) -> keeps f (m ≫= k).
Proof.
  intros Hm Hk w. specialize (Hm w). unfold mbind, ST_bind.
  destruct (m w) as [[a|e] w1]; cbn in *; [|done]. by rewrite Hk.
Qed.

Lemma keeps_try_except {S A X} (f : S -> X) (m : ST S A) h :
  keeps f m -> (forall e, keeps f (h e)) -> keeps f (try_except m h).
Proof.
  intros Hm Hh w. specialize (Hm w). unfold try_except.
  destruct (m w) as [[a|e] w1]; cbn in *; [done|]. by rewrite Hh.
Qed.

Lemma keeps_try_finally {S A X} (f : S -> X) (m : ST S A) fin :
  keeps f m -> keeps f fin -> keeps f (try_finally m fin).
Proof.
  intros Hm Hf w. specialize (Hm w). unfold try_finally.
  destruct (m w) as [r w1]; cbn in *. specialize (Hf w1).
  destruct (fin w1) as [[[]|e] w2]; cbn in *; congruence.
Qed.

Lemma keeps_for_each {S A X} (f : S -> X) (l : list A) (body : A -> ST S unit) :
  (forall x, keeps f (body x)) -> keeps f (for_each l body).
Proof.
  intros Hb. induction l as [|x l IH]; [done|].
  apply keeps_bind; [apply Hb | by intros _].
Qed.

Lemma keeps_if {S A X} (f : S -> X) (b : bool) (m1 m2 : ST S A) :
  keeps f m1 -> keeps f m2 -> keeps f (if b then m1 else m2).
Proof. by destruct b. Qed.

Lemma keeps_call {X} (f : World Blob -> X) e : ignores_trace f -> keeps f (call e).
Proof.
  intros Hf w. unfold call. destruct (raises (trace w) e); cbn; apply Hf.
Qed.

Lemma keeps_logging {X} (f : World Blob -> X) msg : ignores_log f -> keeps f (logging msg).
Proof. intros Hf w. apply Hf. Qed.

Lemma keeps_run_threads {A X} (f : World Blob -> X) (target : A -> M unit) l :
  (forall x, keeps f (target x)) -> keeps f (run_threads target l).
Proof.
  intros Ht. induction l as [|x l IH]; [done|]. cbn [run_threads].
  apply keeps_bind.
  - apply keeps_try_except; [|done]. apply keeps_bind; [apply Ht | done].
  - intros e. apply keeps_bind; [apply IH | done].
Qed.

Lemma keeps_RunThreaded {A X} (f : World Blob -> X) (target : A -> M unit) l :
  (forall x, keeps f (target x)) -> keeps f (RunThreaded target l).
Proof.
  intros Ht. apply keeps_bind; [by apply keeps_run_threads|]. by intros [|? ?].
Qed.

Lemma files_ignores_trace : ignores_trace (@files Blob).
Proof. done. Qed.
Lemma files_ignores_log : ignores_log (@files Blob).
Proof. done. Qed.
Lemma files_ignores_pool : ignores_pool (@files Blob).
Proof. done. Qed.
Lemma pool_ignores_trace : ignores_trace (@static_vm_pool Blob).
Proof. done. Qed.
Lemma pool_ignores_log : ignores_log (@static_vm_pool Blob).
Proof. done. Qed.
Lemma trace_ignores_log : ignores_log (@trace Blob).
Proof. done. Qed.
Lemma trace_ignores_pool : ignores_pool (@trace Blob).
Proof. done. Qed.
Lemma log_ignores_trace : ignores_trace (@log Blob).
Proof. done. Qed.
Lemma log_ignores_pool : ignores_pool (@log Blob).
Proof. done. Qed.

(** *** A sequence of calls stops at the first one that raises *)

Lemma for_each_call_stops (l : list Event) w :
  match for_each l call w with
  | (Ok _, w') => trace w' = trace w ++ l
  | (Raise x, w') =>
      exists made e,
        trace w' = trace w ++ made ++ [e] /\
        (made ++ [e]) `prefix_of` l /\
        raises (trace w ++ made) e = Some x
  end.
Proof.
  revert w. induction l as [|e l IH]; intros w.
  - cbn. by rewrite app_nil_r.
  - cbn [for_each]. unfold mbind, ST_bind, call at 1.
    destruct (raises (trace w) e) as [x|] eqn:Er.
    + exists [], e. rewrite app_nil_r. split; [done|]. split; [|done].
      apply prefix_cons, prefix_nil.
    + match goal with |- context [for_each l call ?w0] =>
        specialize (IH w0); destruct (for_each l call w0) as [[[]|x] w'] end;
        cbn in IH.
      * by rewrite IH, <- app_assoc.
      * destruct IH as (made & e' & T & P & R). exists (e :: made), e'.
        rewrite T, <- !app_assoc. split; [done|]. split.
        -- by apply prefix_cons.
        -- by rewrite <- app_assoc in R.
Qed.

Lemma DeleteVm_is_its_calls vm w : DeleteVm vm w = for_each (DeleteVm_calls vm) call w.
Proof.
  revert w. unfold DeleteVm, DeleteVm_calls.
  destruct (is_static vm && install_packages vm); cbn [app];
    repeat (apply calls_then || apply skip_then);
    intros w; cbn; unfold mbind, ST_bind, call; by destruct (raises _ _).
Qed.

(** X1.  [DeleteVm] cleans up the packages first, and only on a static VM
    that installs packages, then deletes the VM, then its scratch disks.
    It stops at the first call that raises and raises what that call
    raised: when [vm.Delete()] raises, [vm.DeleteScratchDisks()] is not
    called. *)
Theorem DeleteVm_stops_at_first_failure vm w :
  match DeleteVm vm w with
  | (Ok _, w') => trace w' = trace w ++ DeleteVm_calls vm
  | (Raise x, w') =>
      exists made e,
        trace w' = trace w ++ made ++ [e] /\
        (made ++ [e]) `prefix_of` DeleteVm_calls vm /\
        raises (trace w ++ made) e = Some x
  end.
Proof. rewrite DeleteVm_is_its_calls. apply for_each_call_stops. Qed.

(** *** The fan-out and Prepare *)

Lemma run_threads_returns {A} (target : A -> M unit) l w :
  exists es w', run_threads target l w = (Ok es, w').
Proof.
  revert w. induction l as [|x l IH]; intros w; [by eexists _, _|].
  cbn [run_threads]. unfold mbind at 1, ST_bind at 1, try_except.
  unfold mbind at 1, ST_bind at 1.
  destruct (target x w) as [[[]|e] w1]; cbn;
    unfold mbind, ST_bind; destruct (IH w1) as (es & w' & ->); by eexists _, _.
Qed.

(** A fan-out that collected no exception has run every unit to a normal
    return, each of them somewhere between the start and the end. *)
Lemma run_threads_all_returned {A} P (target : A -> M unit) l w w' :
  (forall x, emits P (target x)) ->
  run_threads target l w = (Ok [], w') ->
  forall x, x ∈ l ->
    exists before wa wb after,
      target x wa = (Ok (), wb) /\
      trace wa = trace w ++ before /\ trace w' = trace wb ++ after.
Proof.
  intros Ht. revert w. induction l as [|y l IH]; intros w E x Hx.
  { by apply elem_of_nil in Hx. }
  cbn [run_threads] in E. unfold mbind at 1, ST_bind at 1, try_except in E.
  unfold mbind at 1, ST_bind at 1 in E.
  destruct (target y w) as [[[]|e] w1] eqn:Ey; cbn in E; unfold mbind, ST_bind in E;
    destruct (run_threads target l w1) as [[es|e'] w2] eqn:El; try done.
  injection E as -> <-.
  destruct (emits_at _ _ _ _ _ (Ht y) Ey) as (n1 & T1 & _).
  destruct (emits_at _ _ _ _ _ (emits_run_threads P target l Ht) El) as (n2 & T2 & _).
  unfold the_trace, World_traced in T1, T2.
  apply elem_of_cons in Hx as [->|Hx].
  - exists [], w, w1, n2. by rewrite app_nil_r.
  - destruct (IH _ El _ Hx) as (before & wa & wb & after & Ex & Ta & Tb).
    exists (n1 ++ before), wa, wb, after. split; [done|]. split; [|done].
    by rewrite Ta, T1, <- app_assoc.
Qed.

(** A fan-out with a unit that raises wherever it runs collects an
    exception. *)
Lemma run_threads_collects {A} (target : A -> M unit) l w x es w' :
  x ∈ l ->
  (forall w0, exists e w1, target x w0 = (Raise e, w1)) ->
  run_threads target l w = (Ok es, w') ->
  es <> [].
Proof.
  intros Hx Hr. revert w es. induction l as [|y l IH]; intros w es E.
  { by apply elem_of_nil in Hx. }
  cbn [run_threads] in E. unfold mbind at 1, ST_bind at 1, try_except in E.
  unfold mbind at 1, ST_bind at 1 in E.
  apply elem_of_cons in Hx as [<-|Hx].
  - destruct (Hr w) as (e & w1 & Ex). rewrite Ex in E. cbn in E.
    unfold mbind, ST_bind in E.
    destruct (run_threads target l w1) as [[es1|e'] w2]; [|done].
    by injection E as <- <-.
  - destruct (target y w) as [[[]|e] w1]; cbn in E; unfold mbind, ST_bind in E;
      destruct (run_threads target l w1) as [[es1|e'] w2] eqn:El; try done;
      injection E as <- <-; [|done].
    cbn. by eapply IH.
Qed.

Lemma RunThreaded_raises {A} (target : A -> M unit) l w x :
  x ∈ l ->
  (forall w0, exists e w1, target x w0 = (Raise e, w1)) ->
  exists w', RunThreaded target l w = (Raise ThreadException, w').
Proof.
  intros Hx Hr. unfold RunThreaded.
  destruct (run_threads_returns target l w) as (es & w' & E).
  rewrite (bind_Ok _ _ _ _ _ E).
  destruct es; [|by eexists]. by eapply run_threads_collects in E.
Qed.

Lemma RunThreaded_Ok {A} (target : A -> M unit) l w w' :
  RunThreaded target l w = (Ok (), w') -> run_threads target l w = (Ok [], w').
Proof.
  unfold RunThreaded. destruct (run_threads_returns target l w) as (es & w1 & E).
  rewrite (bind_Ok _ _ _ _ _ E). by destruct es; intros [= <-].
Qed.

Lemma PrepareNetwork_fan_out (l : list Network) w :
  trace (RunThreaded PrepareNetwork l w).2 = trace w ++ (NetworkCreate <$> l).
Proof.
  unfold RunThreaded.
  assert (forall w0, trace (run_threads PrepareNetwork l w0).2 =
                       trace w0 ++ (NetworkCreate <$> l)) as H.
  { induction l as [|n l IH]; intros w0; [cbn; by rewrite app_nil_r|].
    cbn [run_threads]. unfold mbind at 1, ST_bind at 1, try_except.
    unfold mbind at 1, ST_bind at 1.
    pose proof (call_trace (NetworkCreate n) w0) as T.
    unfold PrepareNetwork at 1.
    destruct (call (NetworkCreate n) w0) as [[[]|e] w1]; cbn in T |- *;
      unfold mbind, ST_bind; specialize (IH w1);
      destruct (run_threads PrepareNetwork l w1) as [[es|e'] w2]; cbn in *;
      rewrite IH, T, <- app_assoc; done. }
  specialize (H w). unfold mbind, ST_bind.
  destruct (run_threads PrepareNetwork l w) as [[[|? ?]|e] w1]; done.
Qed.

Lemma emits_PrepareVm_pipeline self vm fw : emits is_vm_pipeline_call (PrepareVm self vm fw).
Proof.
  unfold PrepareVm.
  repeat (apply emits_bind; [first [by apply emits_call
                                   | apply emits_if; [by apply emits_call | apply emits_ret]]
                            | intros _]).
  apply emits_for_each. intros d. by apply emits_call.
Qed.

(** X2.  [Prepare] creates the networks before it touches any VM: the
    calls it makes are a [Create] on every network of the spec, then calls
    of the VM pipelines only, then at most one [GenerateSSHConfig], which is
    never made for Windows.  When [Prepare] returns normally, every call of
    every VM's pipeline has been made. *)
Theorem Prepare_networks_before_vms self w :
  exists network_calls vm_calls ssh_calls,
    trace (Prepare self w).2 = trace w ++ network_calls ++ vm_calls ++ ssh_calls /\
    network_calls ≡ₚ NetworkCreate <$> (map_to_list (networks self)).*2 /\
    Forall is_vm_pipeline_call vm_calls /\
    (ssh_calls = [] \/
     ssh_calls = [GenerateSSHConfig (vms self)] /\ FLAGS_os_type FLAGS <> WINDOWS) /\
    match (Prepare self w).1 with
    | Ok _ =>
        forall vm e,
          vm ∈ vms self -> e ∈ PrepareVm_calls self vm (firewall self) -> e ∈ vm_calls
    | Raise _ => True
    end.
Proof.
  destruct (Prepare self w) as [r w'] eqn:E. cbn [fst snd].
  unfold Prepare in E.
  set (nets := (map_to_list (networks self)).*2) in *.
  set (net_step := if bool_decide (networks self = ∅) then mret ()
                   else RunThreaded PrepareNetwork nets) in *.
  assert (trace (net_step w).2 = trace w ++ (NetworkCreate <$> nets)) as Tn.
  { unfold net_step. destruct (decide (networks self = ∅)) as [Hn|Hn].
    - rewrite bool_decide_eq_true_2 by done.
      unfold nets. rewrite Hn, map_to_list_empty. cbn. by rewrite app_nil_r.
    - rewrite bool_decide_eq_false_2 by done. apply PrepareNetwork_fan_out. }
  unfold mbind at 1, ST_bind at 1 in E.
  destruct (net_step w) as [[[]|e] w1]; cbn in Tn.
  2:{ injection E as <- <-.
      exists (NetworkCreate <$> nets), [], []. rewrite !app_nil_r. split_and!; auto using Forall_nil. }
  destruct (vms self) as [|vm0 l] eqn:Ev.
  { injection E as <- <-.
    exists (NetworkCreate <$> nets), [], []. rewrite !app_nil_r.
    split_and!; auto using Forall_nil. intros vm e Hvm. by apply elem_of_nil in Hvm. }
  set (target := fun '(vm, fw) => PrepareVm self vm fw) in *.
  set (params := (fun vm => (vm, firewall self)) <$> vm0 :: l) in *.
  assert (forall x, emits is_vm_pipeline_call (target x)) as Ht.
  { intros [vm fw]. apply emits_PrepareVm_pipeline. }
  unfold mbind at 1, ST_bind at 1 in E.
  destruct (RunThreaded target params w1) as [[[]|e] w2] eqn:Er;
    destruct (emits_at _ _ _ _ _ (emits_RunThreaded _ target params Ht) Er)
      as (vm_calls & Tv & Fv); unfold the_trace, World_traced in Tv.
  2:{ injection E as <- <-. exists (NetworkCreate <$> nets), vm_calls, [].
      rewrite app_nil_r, Tv, Tn, <- app_assoc. split_and!; auto. }
  assert (forall vm e, vm ∈ vm0 :: l ->
            e ∈ PrepareVm_calls self vm (firewall self) -> e ∈ vm_calls) as Hall.
  { intros vm e Hvm He.
    destruct (run_threads_all_returned _ target params w1 w2 Ht (RunThreaded_Ok _ _ _ _ Er)
                (vm, firewall self)) as (before & wa & wb & after & Ex & Ta & Tb).
    { apply list_elem_of_fmap. by exists vm. }
    cbn in Ex. pose proof (PrepareVm_is_its_calls self vm (firewall self) wa) as Hc.
    pose proof (for_each_call_stops (PrepareVm_calls self vm (firewall self)) wa) as Hs.
    rewrite <- Hc, Ex in Hs.
    rewrite Tv, Hs, Ta, <- !app_assoc in Tb.
    apply app_inv_head in Tb. rewrite Tb, !elem_of_app. by auto. }
  destruct (decide (FLAGS_os_type FLAGS = WINDOWS)) as [Hos|Hos];
    [rewrite bool_decide_eq_true_2 in E by done
    |rewrite bool_decide_eq_false_2 in E by done].
  - injection E as <- <-. exists (NetworkCreate <$> nets), vm_calls, [].
    rewrite app_nil_r, Tv, Tn, <- app_assoc. split_and!; auto.
  - pose proof (call_trace (GenerateSSHConfig (vm0 :: l)) w2) as Ts.
    rewrite E in Ts. cbn in Ts.
    exists (NetworkCreate <$> nets), vm_calls, [GenerateSSHConfig (vm0 :: l)].
    rewrite Ts, Tv, Tn, <- !app_assoc.
    split_and!; auto. by destruct r.
Qed.

(** X3.  [Prepare] does not tolerate a partial failure.  When the
    [Create] of one of the networks raises (wherever it is called),
    [Prepare] raises and has called nothing but [Create] on networks: no
    VM is created. *)
Theorem Prepare_network_failure self w zone network :
  networks self !! zone = Some network ->
  (forall history, is_Some (raises history (NetworkCreate network))) ->
  exists e,
    (Prepare self w).1 = Raise e /\
    exists network_calls,
      trace (Prepare self w).2 = trace w ++ network_calls /\
      Forall is_network_create network_calls.
Proof.
  intros Hn Hr. unfold Prepare.
  assert (networks self <> ∅) as Hne.
  { intros He. by rewrite He, lookup_empty in Hn. }
  rewrite (bool_decide_eq_false_2 _ Hne).
  destruct (RunThreaded_raises PrepareNetwork (map_to_list (networks self)).*2 w network)
    as (w' & E).
  { apply list_elem_of_fmap. exists (zone, network). split; [done|].
    by apply elem_of_map_to_list. }
  { intros w0. unfold PrepareNetwork, call.
    destruct (Hr (trace w0)) as [x ->]. by eexists _, _. }
  pose proof (PrepareNetwork_fan_out (map_to_list (networks self)).*2 w) as T.
  rewrite E in T. rewrite (bind_Raise _ _ _ _ _ E). cbn in *.
  exists ThreadException. split; [done|]. eexists. split; [exact T|].
  apply Forall_fmap, Forall_forall. by intros ? _.
Qed.

(** X4.  When the [Create] of one of the VMs raises (wherever it is
    called), [Prepare] raises and [GenerateSSHConfig] is not called. *)
Theorem Prepare_vm_failure self w vm :
  vm ∈ vms self ->
  (forall history, is_Some (raises history (VmCreate vm))) ->
  exists e,
    (Prepare self w).1 = Raise e /\
    forall l, GenerateSSHConfig l ∉ drop (length (trace w)) (trace (Prepare self w).2).
Proof.
  intros Hvm Hr. unfold Prepare.
  set (net_step := if bool_decide (networks self = ∅) then mret ()
                   else RunThreaded PrepareNetwork (map_to_list (networks self)).*2).
  assert (emits is_network_create net_step) as Hn.
  { apply emits_if; [apply emits_ret|]. apply emits_RunThreaded.
    intros n. by apply emits_call. }
  destruct (net_step w) as [[[]|e0] w1] eqn:En;
    destruct (emits_at _ _ _ _ _ Hn En) as (ncs & Tn & Fn);
    unfold the_trace, World_traced in Tn.
  - rewrite (bind_Ok _ _ _ _ _ En).
    destruct (vms self) as [|vm0 l0] eqn:Ev; [by apply elem_of_nil in Hvm|].
    set (target := fun '(vm, fw) => PrepareVm self vm fw).
    assert (forall x, emits is_vm_pipeline_call (target x)) as Ht.
    { intros [vm1 fw]. apply emits_PrepareVm_pipeline. }
    destruct (RunThreaded_raises target
                ((fun vm => (vm, firewall self)) <$> vm0 :: l0) w1 (vm, firewall self))
      as (w' & E).
    { apply list_elem_of_fmap. by exists vm. }
    { intros w0. unfold target, PrepareVm. unfold mbind at 1, ST_bind at 1, call at 1.
      destruct (Hr (trace w0)) as [x ->]. by eexists _, _. }
    destruct (emits_at _ _ _ _ _ (emits_RunThreaded _ target _ Ht) E) as (vcs & Tv & Fv).
    unfold the_trace, World_traced in Tv.
    rewrite (bind_Raise _ _ _ _ _ E). cbn. exists ThreadException. split; [done|].
    intros l. rewrite Tv, Tn, <- app_assoc, drop_app_length.
    intros [H|H]%elem_of_app.
    + by apply (proj1 (Forall_forall _ _) Fn) in H.
    + by apply (proj1 (Forall_forall _ _) Fv) in H.
  - rewrite (bind_Raise _ _ _ _ _ En). cbn. exists e0. split; [done|].
    intros l. rewrite Tn, drop_app_length. intros H.
    by apply (proj1 (Forall_forall _ _) Fn) in H.
Qed.

(** *** More on construction *)

Lemma keeps_CreateVirtualMachine {X} (f : World Blob -> X) self opt_zone :
  ignores_pool f -> keeps f (CreateVirtualMachine self opt_zone).
Proof.
  intros Hf w.
  unfold CreateVirtualMachine, GetStaticVirtualMachine, mbind, ST_bind, mret, ST_ret, raise.
  destruct (static_vm_pool w); [|cbn; apply Hf].
  destruct (CLASSES_VIRTUAL_MACHINE _ _); [|done].
  destruct (str_or opt_zone None); [|destruct (py_getitem _ _); [|done]];
    match goal with |- context [networks self !! ?zone] =>
      by destruct (networks self !! zone) end.
Qed.

Lemma keeps_create_vms {X} (f : World Blob -> X) indexes : forall self,
  ignores_pool f -> keeps f (create_vms self indexes).
Proof.
  induction indexes as [|index rest IH]; intros self Hf; [done|].
  cbn [create_vms]. apply keeps_bind; [by destruct (py_getitem _ _)|].
  intros z. apply keeps_bind; [by apply keeps_CreateVirtualMachine|].
  intros [vm1 self1]. apply keeps_bind; [by apply IH|]. by intros [l1 self2].
Qed.

Lemma keeps_defaults_item {X} (f : World Blob -> X) d k : keeps f (defaults_item d k).
Proof. intros w. unfold defaults_item. by destruct (d !! k) as [[|]|]. Qed.

Lemma keeps_BenchmarkSpec_init {X} (f : World Blob -> X) info :
  ignores_pool f -> keeps f (BenchmarkSpec_init info).
Proof.
  intros Hf. unfold BenchmarkSpec_init. cbn zeta. apply keeps_bind.
  { destruct (FLAGS_zones FLAGS) as [[|z l]|]; try done;
      (apply keeps_bind; [apply keeps_defaults_item | done]). }
  intros zs. apply keeps_bind.
  { destruct (str_or _ _); [done | apply keeps_defaults_item]. }
  intros mt. apply keeps_bind; [by destruct (info_num_machines info) as [[|]|]|].
  intros n. apply keeps_bind; [by destruct (info_scratch_disk info)|].
  intros sd. apply keeps_bind; [by apply keeps_create_vms|]. by intros [l self1].
Qed.

Lemma CreateVirtualMachine_networks self opt_zone w vm self' w' :
  CreateVirtualMachine self opt_zone w = (Ok (vm, self'), w') ->
  static_vm_pool w = vm :: static_vm_pool w' /\ self' = self \/
  static_vm_pool w = [] /\ static_vm_pool w' = [] /\
  networks self' =
    match networks self !! vm_zone vm with
    | Some _ => networks self
    | None => <[vm_zone vm := {| net_class := CLASSES_NETWORK (cloud self);
                                 net_zone := vm_zone vm |}]> (networks self)
    end /\
  vm_network vm = networks self' !! vm_zone vm /\
  is_Some (vm_network vm).
Proof.
  unfold CreateVirtualMachine, GetStaticVirtualMachine, mbind, ST_bind, mret, ST_ret, raise.
  destruct (static_vm_pool w) as [|vm0 pool] eqn:Ep.
  - destruct (CLASSES_VIRTUAL_MACHINE _ _) as [c|]; [|done].
    destruct (str_or opt_zone None) as [zone|];
      [|destruct (py_getitem _ _) as [zone|]; [|done]];
      destruct (networks self !! zone) as [n|] eqn:En;
      cbn; intros [= <- <- <-]; right; cbn; rewrite ?En, ?lookup_insert_eq; by eauto.
  - intros [= <- <- <-]. by left.
Qed.

Lemma create_vms_networks indexes : forall self w l self' w',
  create_vms self indexes w = (Ok (l, self'), w') ->
  networks self ⊆ networks self' /\
  (forall z n, networks self' !! z = Some n ->
     networks self !! z = Some n \/
     n = {| net_class := CLASSES_NETWORK (cloud self); net_zone := z |} /\
     exists (i : nat) vm,
       l !! i = Some vm /\ (length (static_vm_pool w) <= i)%nat /\ vm_zone vm = z) /\
  (forall (i : nat) vm,
     l !! i = Some vm -> (length (static_vm_pool w) <= i)%nat ->
     vm_network vm = networks self' !! vm_zone vm /\ is_Some (vm_network vm)).
Proof.
  induction indexes as [|index rest IH]; intros self w l self' w'.
  - intros [= <- <- <-]. split; [done|]. split; [by auto|].
    intros i vm Hi. by rewrite lookup_nil in Hi.
  - cbn [create_vms]. unfold mbind at 1, ST_bind at 1.
    destruct (py_getitem _ _) as [z0|] eqn:Ez; [|done]. cbn.
    unfold mbind at 1, ST_bind at 1.
    destruct (CreateVirtualMachine self (Some z0) w) as [[[vm1 self1]|e] w1] eqn:E1; [|done].
    unfold mbind at 1, ST_bind at 1.
    destruct (create_vms self1 rest w1) as [[[l1 self2]|e] w2] eqn:E2; [|done].
    intros [= <- <- <-].
    pose proof (CreateVirtualMachine_Ok _ _ _ _ _ _ E1) as (_ & (n1 & v1 & Hs1) & _).
    assert (cloud self1 = cloud self) as Hcloud by (by rewrite Hs1).
    apply CreateVirtualMachine_networks in E1.
    apply IH in E2 as (Hsub & Hdom & Hnet). rewrite Hcloud in Hdom.
    destruct E1 as [[Hp ->]|(Hp & Hp1 & Hn1 & Hvn & Hsome)].
    + (* a static VM: the spec is unchanged *)
      split; [done|]. rewrite Hp. split.
      * intros z n Hz. destruct (Hdom z n Hz) as [?|(-> & i & vm & Hi & Hlen & Hzone)];
          [by left|]. right. split; [done|]. exists (S i), vm. cbn. split_and!; [done|lia|done].
      * intros [|i] vm Hi Hlen; [cbn in Hlen; lia|]. cbn in Hi, Hlen.
        apply (Hnet i vm Hi). lia.
    + (* a VM of the provider: its network is registered under its zone *)
      assert (networks self ⊆ networks self1) as Hsub1.
      { rewrite Hn1. destruct (networks self !! vm_zone vm1) eqn:En; [done|].
        by apply insert_subseteq. }
      rewrite Hp, Hp1 in *. split; [by etrans|]. split.
      * intros z n Hz. destruct (Hdom z n Hz) as [Hz1|(-> & i & vm & Hi & Hlen & Hzone)].
        -- rewrite Hn1 in Hz1. destruct (networks self !! vm_zone vm1) eqn:En; [by left|].
           apply lookup_insert_Some in Hz1 as [[<- <-]|[_ ?]]; [|by left].
           right. split; [done|]. exists 0%nat, vm1. cbn. split_and!; [done|lia|done].
        -- right. split; [done|]. exists (S i), vm. cbn. split_and!; [done|lia|done].
      * intros [|i] vm Hi Hlen.
        -- injection Hi as <-. split; [|done]. destruct Hsome as [n Hn].
           rewrite Hn. rewrite Hn in Hvn. symmetry. by eapply lookup_weaken.
        -- cbn in Hi. apply (Hnet i vm Hi). cbn. lia.
Qed.

Lemma add_disk_specs_keep_network (mk : Z -> BaseDiskSpec) (indexes : list Z) : forall vm,
  vm_network (foldl (fun vm i => append_disk_spec vm (mk i)) vm indexes) = vm_network vm.
Proof.
  induction indexes as [|i rest IH]; intros vm; [done|]. cbn. by rewrite IH.
Qed.

(** X6.  In a spec built from the flags, a zone has a network handle
    exactly when a VM allocated by the provider class is in that zone: the
    handle under a zone is a handle of the provider's network class for
    that zone, some such VM is in that zone, and every such VM has the
    handle of its own zone as its network. *)
Theorem constructed_networks info w s w' :
  BenchmarkSpec_init info w = (Ok s, w') ->
  (forall zone network,
     networks s !! zone = Some network ->
     network = {| net_class := CLASSES_NETWORK (cloud s); net_zone := zone |} /\
     exists (i : nat) vm,
       vms s !! i = Some vm /\ (length (static_vm_pool w) <= i)%nat /\
       vm_zone vm = zone) /\
  (forall (i : nat) vm,
     vms s !! i = Some vm -> (length (static_vm_pool w) <= i)%nat ->
     is_Some (vm_network vm) /\ vm_network vm = networks s !! vm_zone vm).
Proof.
  intros (zs & mt & n & sd & l & self1 & _ & _ & Ec & ->)%BenchmarkSpec_init_Ok.
  pose proof (create_vms_Ok _ _ _ _ _ _ Ec) as (_ & (nw & v & Hs1) & _).
  apply create_vms_networks in Ec as (_ & Hdom & Hnet).
  assert (forall vm0, vm_zone (add_scratch_disk_specs self1 sd vm0) = vm_zone vm0 /\
                      vm_network (add_scratch_disk_specs self1 sd vm0) = vm_network vm0)
    as Hadd.
  { intros vm0. split.
    - by destruct (add_scratch_disk_specs_fields self1 sd vm0) as (-> & _).
    - apply add_disk_specs_keep_network. }
  cbn [vms networks cloud set_vms]. split.
  - intros zone network Hz.
    destruct (Hdom _ _ Hz) as [He|(-> & i & vm & Hi & Hlen & Hzone)].
    { cbn in He. by rewrite lookup_empty in He. }
    split; [by rewrite Hs1|]. exists i, (add_scratch_disk_specs self1 sd vm).
    rewrite list_lookup_fmap, Hi. split_and!; [done|done|]. by rewrite (proj1 (Hadd vm)).
  - intros i vm Hi Hlen. rewrite list_lookup_fmap in Hi.
    destruct (l !! i) as [vm0|] eqn:E0; [|done]. injection Hi as <-.
    destruct (Hnet i vm0 E0 Hlen) as [Hn Hsome].
    destruct (Hadd vm0) as [-> ->]. by rewrite <- Hn.
Qed.

Lemma add_scratch_disk_specs_disks self scratch_disk vm :
  disk_specs (add_scratch_disk_specs self scratch_disk vm) =
    disk_specs vm ++
    ((fun i => {| disk_size := scratch_disk_size self;
                  disk_type := scratch_disk_type self;
                  mount_point := "/scratch" +:+ pretty i;
                  iops := scratch_disk_iops self;
                  num_striped_disks := striping_factor scratch_disk vm |})
       <$> seqZ 0 scratch_disk).
Proof.
  unfold add_scratch_disk_specs.
  match goal with |- context [foldl (fun vm i => append_disk_spec vm (@?mk i)) vm ?l] =>
    by destruct (add_disk_specs_fold mk l vm) as (-> & _) end.
Qed.

(** The shape of a constructed spec: the VMs are those that
    [create_vms] allocated, each with its scratch disk specifications
    added, and the other attributes are those of the fresh object. *)
Lemma BenchmarkSpec_init_shape info w s w' :
  BenchmarkSpec_init info w = (Ok s, w') ->
  exists zs mt n sd l nw v,
    zs <> [] /\
    info_scratch_disk info = Some sd /\
    n = match info_num_machines info with
        | Some (Some n) => n
        | _ => FLAGS_num_vms FLAGS
        end /\
    match FLAGS_zones FLAGS with
    | Some (z :: zl) => zs = z :: zl
    | _ => DEFAULTS (FLAGS_cloud FLAGS) !! ZONE = Some (Some (default "" (head zs))) /\
           length zs = 1%nat
    end /\
    match str_or (FLAGS_machine_type FLAGS) None with
    | Some m => mt = m
    | None => DEFAULTS (FLAGS_cloud FLAGS) !! MACHINE_TYPE = Some (Some mt)
    end /\
    create_vms (fresh_spec info zs mt n sd) (seqZ 0 n) w =
      (Ok (l, with_allocation nw v (fresh_spec info zs mt n sd)), w') /\
    s = set_vms (add_scratch_disk_specs
                   (with_allocation nw v (fresh_spec info zs mt n sd)) sd <$> l)
          (with_allocation nw v (fresh_spec info zs mt n sd)).
Proof.
  unfold BenchmarkSpec_init. cbn zeta.
  unfold mbind at 1, ST_bind at 1.
  assert (forall zs w1,
            (match FLAGS_zones FLAGS with
             | Some (z :: l) => mret (z :: l)
             | _ => z ← defaults_item (DEFAULTS (FLAGS_cloud FLAGS)) ZONE; mret [z]
             end : M (list string)) w = (Ok zs, w1) ->
            w1 = w /\ zs <> [] /\
            match FLAGS_zones FLAGS with
            | Some (z :: zl) => zs = z :: zl
            | _ => DEFAULTS (FLAGS_cloud FLAGS) !! ZONE = Some (Some (default "" (head zs))) /\
                   length zs = 1%nat
            end) as Hzs.
  { intros zs w1. unfold defaults_item, mbind, ST_bind, mret, ST_ret, raise.
    destruct (FLAGS_zones FLAGS) as [[|z l]|];
      try destruct (DEFAULTS _ !! ZONE) as [[z0|]|]; by intros [= <- <-]. }
  match goal with |- context [match ?m w with _ => _ end] =>
    destruct (m w) as [[zs|e] w1] eqn:Ezs; [|done] end.
  destruct (Hzs _ _ eq_refl) as (-> & Hne & Hz). clear Hzs Ezs.
  unfold mbind at 1, ST_bind at 1.
  assert (forall mt w1,
            (match str_or (FLAGS_machine_type FLAGS) None with
             | Some m => mret m
             | None => defaults_item (DEFAULTS (FLAGS_cloud FLAGS)) MACHINE_TYPE
             end : M string) w = (Ok mt, w1) ->
            w1 = w /\
            match str_or (FLAGS_machine_type FLAGS) None with
            | Some m => mt = m
            | None => DEFAULTS (FLAGS_cloud FLAGS) !! MACHINE_TYPE = Some (Some mt)
            end) as Hmt.
  { intros mt w1. unfold defaults_item, mret, ST_ret, raise.
    destruct (str_or _ _); try destruct (DEFAULTS _ !! MACHINE_TYPE) as [[m0|]|];
      by intros [= <- <-]. }
  match goal with |- context [match ?m w with _ => _ end] =>
    destruct (m w) as [[mt|e] w1] eqn:Emt; [|done] end.
  destruct (Hmt _ _ eq_refl) as (-> & Hm). clear Hmt Emt.
  unfold mbind at 1, ST_bind at 1, mret, ST_ret, raise.
  destruct (info_num_machines info) as [[n|]|]; [| |done];
    (unfold mbind at 1, ST_bind at 1;
     destruct (info_scratch_disk info) as [sd|]; [|done];
     unfold mbind at 1, ST_bind at 1;
     match goal with |- context [create_vms ?self0 ?l0 w] =>
       destruct (create_vms self0 l0 w) as [[[l self1]|e] w2] eqn:Ec; [|done] end;
     intros [= <- <-];
     pose proof (create_vms_Ok _ _ _ _ _ _ Ec) as (_ & (nw & v & ->) & _);
     by eexists zs, mt, _, sd, l, nw, v).
Qed.

(** C4, as amended.  In a spec built from the flags there are as many VMs
    as were requested ([num_machines] of the benchmark, [--num_vms] when
    that is [None]), and the zones are [--zones] when given and not empty,
    else the one default zone of the cloud.  For every index [i] below the
    requested number: when the pool of static VMs had a VM at index [i],
    the VM at index [i] is in the zone of that static VM, whatever the
    zones are; otherwise it is in the zone [zones[min(i, Z-1)]] where [Z]
    is the number of zones, unless that name is empty, in which
    case it is in [zones[0]] (the [opt_zone or self.zones[0]] of
    [CreateVirtualMachine]). *)
Theorem zone_assignment info w s w' :
  BenchmarkSpec_init info w = (Ok s, w') ->
  exists zs,
    match FLAGS_zones FLAGS with
    | Some (z :: zl) => zs = z :: zl
    | _ => exists z0, DEFAULTS (FLAGS_cloud FLAGS) !! ZONE = Some (Some z0) /\ zs = [z0]
    end /\
    zones s = zs /\
    length (vms s) = Z.to_nat (match info_num_machines info with
                               | Some (Some n) => n
                               | _ => FLAGS_num_vms FLAGS
                               end) /\
    forall i : nat, (i < length (vms s))%nat ->
      exists vm z,
        vms s !! i = Some vm /\
        zs !! (i `min` (length zs - 1))%nat = Some z /\
        match static_vm_pool w !! i with
        | Some static_vm => vm_zone vm = vm_zone static_vm
        | None => Some (vm_zone vm) = str_or (Some z) (zs !! 0%nat)
        end.
Proof.
  intros (zs & mt & n & sd & l & nw & v & Hne & _ & Hn & Hz & _ & Ec & ->)%BenchmarkSpec_init_shape.
  apply create_vms_Ok in Ec as (_ & _ & Hlen & Hl).
  cbn [vms zones set_vms with_allocation fresh_spec] in *.
  rewrite length_seqZ in Hlen. rewrite length_fmap, Hlen, <-Hn.
  exists zs. split_and!; try done.
  { destruct (FLAGS_zones FLAGS) as [[|z zl]|]; [|done|];
      (destruct Hz as [Hz Hl1]; destruct zs as [|z0 [|? ?]]; try done; by exists z0). }
  intros i Hi.
  destruct (lookup_lt_is_Some_2 l i) as [vm0 Hvm0]; [lia|].
  destruct (py_getitem_min zs (Z.of_nat i) Hne) as [Eg [z Ez]]; [lia|].
  rewrite Nat2Z.id in Eg, Ez.
  exists (add_scratch_disk_specs
            (with_allocation nw v (fresh_spec info zs mt n sd)) sd vm0), z.
  rewrite list_lookup_fmap, Hvm0. split; [done|]. split; [done|].
  destruct (add_scratch_disk_specs_fields
              (with_allocation nw v (fresh_spec info zs mt n sd)) sd vm0) as (-> & _).
  destruct (Hl _ _ Hvm0) as [Hs|(Hge & _ & _ & _ & index & z' & Hidx & Hz' & Hzone)].
  - by rewrite Hs.
  - rewrite (lookup_ge_None_2 _ _ Hge).
    apply lookup_seqZ in Hidx as [-> _]. rewrite Z.add_0_l, Eg, Ez in Hz'.
    by injection Hz' as <-.
Qed.

(** X7.  In a spec built from the flags every VM has received one disk
    specification per requested scratch disk, after those it may have had
    (a VM allocated by the provider class had none): they are mounted at
    [/scratch0], [/scratch1], ... in this order, no two at the same mount
    point, with the size, type and IOPS of the flags. *)
Theorem constructed_disk_specs info w s w' :
  BenchmarkSpec_init info w = (Ok s, w') ->
  info_scratch_disk info = Some (scratch_disk s) /\
  forall (i : nat) vm, vms s !! i = Some vm ->
    exists old new,
      disk_specs vm = old ++ new /\
      ((length (static_vm_pool w) <= i)%nat -> old = []) /\
      mount_point <$> new =
        (fun k => "/scratch" +:+ pretty k) <$> seqZ 0 (scratch_disk s) /\
      NoDup (mount_point <$> new) /\
      Forall (fun d => disk_size d = FLAGS_scratch_disk_size FLAGS /\
                       disk_type d = FLAGS_scratch_disk_type FLAGS /\
                       iops d = FLAGS_scratch_disk_iops FLAGS) new.
Proof.
  intros (zs & mt & n & sd & l & nw & v & _ & Hsd & _ & _ & _ & Ec & ->)%BenchmarkSpec_init_shape.
  cbn [scratch_disk vms set_vms with_allocation fresh_spec]. split; [done|].
  intros i vm Hi. rewrite list_lookup_fmap in Hi.
  destruct (l !! i) as [vm0|] eqn:E0; [|done]. injection Hi as <-.
  rewrite add_scratch_disk_specs_disks. eexists (disk_specs vm0), _.
  split; [reflexivity|]. split_and!.
  - intros Hlen. apply create_vms_Ok in Ec as (_ & _ & _ & Hl).
    destruct (Hl _ _ E0) as [Hs|(_ & Hd & _)]; [|done].
    apply lookup_lt_Some in Hs. lia.
  - by rewrite <- list_fmap_compose.
  - rewrite <- list_fmap_compose. apply NoDup_fmap_2; [|apply NoDup_seqZ].
    intros k1 k2 H. cbn in H. by apply (inj (String.app "/scratch")), (inj pretty) in H.
  - apply Forall_fmap, Forall_forall. by intros k _.
Qed.

(** X8.  An explicit striping factor is honoured: when the scratch disk
    type is not local, or [--num_striped_disks] was given, every disk
    specification the constructor adds carries [FLAGS.num_striped_disks]. *)
Theorem explicit_striping info w s w' :
  BenchmarkSpec_init info w = (Ok s, w') ->
  FLAGS_scratch_disk_type FLAGS <> LOCAL \/ FLAGS_num_striped_disks_present FLAGS = true ->
  forall vm, vm ∈ vms s ->
    exists old new,
      disk_specs vm = old ++ new /\
      length new = Z.to_nat (scratch_disk s) /\
      Forall (fun d => num_striped_disks d = FLAGS_num_striped_disks FLAGS) new.
Proof.
  intros (zs & mt & n & sd & l & nw & v & _ & _ & _ & _ & _ & _ & ->)%BenchmarkSpec_init_shape
    Hexp vm Hvm.
  cbn [scratch_disk vms set_vms with_allocation fresh_spec] in *.
  apply list_elem_of_fmap in Hvm as (vm0 & -> & _).
  rewrite add_scratch_disk_specs_disks. eexists (disk_specs vm0), _.
  split; [reflexivity|]. split.
  - by rewrite length_fmap, length_seqZ.
  - apply Forall_fmap, Forall_forall. intros k _. cbn. unfold striping_factor.
    destruct Hexp as [Ht| ->].
    + by rewrite bool_decide_eq_false_2.
    + by rewrite andb_false_r.
Qed.





(** X12.  A spec that the constructor returned can be pickled and
    unpickled under the name of its benchmark, and comes back as it was:
    the constructor gives it the file name that [GetSpecFromFile] computes
    from the name, and leaves [deleted] false, which is what unpickling
    resets. *)
Theorem constructed_spec_round_trip info w s w1 :
  (forall v, pickle_loads (pickle_dumps v) = Some v) ->
  BenchmarkSpec_init info w = (Ok s, w1) ->
  exists w2,
    PickleSpec s w1 = (Ok (), w2) /\
    GetSpecFromFile (info_name info) w2 = (Ok s, w2).
Proof.
  intros Hrt (zs & mt & n & sd & l & nw & v & _ & _ & _ & _ & _ & _ & ->)%BenchmarkSpec_init_shape.
  eexists. split; [reflexivity|].
  unfold GetSpecFromFile, PickleSpec, try_except, mbind, ST_bind. cbn.
  by rewrite lookup_insert_eq, Hrt.
Qed.

(** *** Pickle files *)

(** X13.  The pickle file of a benchmark holds the spec that was pickled
    last under its name, and pickling the spec of another benchmark does
    not disturb it. *)
Theorem pickle_files_per_benchmark s1 s2 w :
  (forall v, pickle_loads (pickle_dumps v) = Some v) ->
  file_name s1 = GetTempDir +:+ "/" +:+ benchmark_name s1 ->
  file_name s2 = GetTempDir +:+ "/" +:+ benchmark_name s2 ->
  (GetSpecFromFile (benchmark_name s2) (PickleSpec s2 (PickleSpec s1 w).2).2).1 =
    Ok (set_deleted false s2) /\
  (benchmark_name s1 <> benchmark_name s2 ->
   (GetSpecFromFile (benchmark_name s1) (PickleSpec s2 (PickleSpec s1 w).2).2).1 =
     Ok (set_deleted false s1)).
Proof.
  intros Hrt H1 H2.
  unfold GetSpecFromFile, PickleSpec, try_except, mbind, ST_bind. cbn. split.
  - by rewrite H2, lookup_insert_eq, Hrt.
  - intros Hne. rewrite H2, H1, lookup_insert_ne, lookup_insert_eq, Hrt; [done|].
    intros H. apply Hne. symmetry.
    by apply (inj (String.app GetTempDir)), (inj (String.app "/")) in H.
Qed.

(** *** The paths of RunBenchmark *)

Lemma emits_Prepare_provisioning self : emits is_provisioning_call (Prepare self).
Proof.
  unfold Prepare. apply emits_bind.
  - apply emits_if; [apply emits_ret|].
    apply emits_RunThreaded. intros n. by apply emits_call.
  - intros _. destruct (vms self) as [|vm l]; [apply emits_ret|].
    apply emits_bind.
    + apply emits_RunThreaded. intros [vm' fw].
      eapply emits_mono; [|apply emits_PrepareVm_pipeline]. intros e He. by destruct e.
    + intros _. apply emits_if; [apply emits_ret | by apply emits_call].
Qed.

Lemma provisioning_is_no_teardown e : is_provisioning_call e -> no_teardown_call e.
Proof. intros H1 H2. by destruct e. Qed.

Lemma benchmark_call_is_no_teardown e : is_benchmark_call e -> no_teardown_call e.
Proof. intros H1 H2. by destruct e. Qed.

Lemma emits_DoPreparePhase_no_teardown name v :
  emits no_teardown_call (DoPreparePhase name v).
Proof.
  apply emits_bind.
  - eapply emits_mono; [apply provisioning_is_no_teardown | apply emits_Prepare_provisioning].
  - intros _. apply emits_call. by intros [].
Qed.

Lemma emits_DoRunPhase_no_teardown name v : emits no_teardown_call (DoRunPhase name v).
Proof.
  unfold DoRunPhase. apply emits_bind.
  - apply emits_for_each. intros h. apply emits_call. by intros [].
  - intros _. apply emits_bind; [|intros _]; apply emits_call; by intros [].
Qed.

Lemma emits_check_prereqs_no_teardown benchmark name :
  emits no_teardown_call (check_prereqs benchmark name).
Proof.
  unfold check_prereqs. apply emits_if; [|apply emits_ret].
  apply emits_try_except; [apply emits_call; by intros []|].
  intros e. apply emits_bind; [apply emits_logging | intros _; apply emits_raise].
Qed.

Lemma emits_add_timer_samples_no_teardown name :
  emits no_teardown_call (add_timer_samples name).
Proof.
  unfold add_timer_samples. apply emits_bind.
  - apply emits_if; [|apply emits_ret]. apply emits_lift, emits_call. by intros [].
  - intros _. apply emits_lift, emits_call. by intros [].
Qed.

Lemma keeps_lift_spec {A} (m : M A) : keeps spec (lift m).
Proof. intros fr. unfold lift. by destruct (m (world fr)). Qed.

Lemma keeps_add_timer_samples_spec name : keeps spec (add_timer_samples name).
Proof.
  unfold add_timer_samples. apply keeps_bind.
  - apply keeps_if; [apply keeps_lift_spec | done].
  - intros _. apply keeps_lift_spec.
Qed.

Lemma Delete_is_teardown self w w' :
  negb (stage_in (FLAGS_run_stage FLAGS) [STAGE_ALL; STAGE_CLEANUP]) || deleted self = false ->
  teardown self w = (Ok (), w') ->
  Delete self w = (Ok (set_deleted true self), w').
Proof. intros G E. unfold Delete. by rewrite G, (bind_Ok _ _ _ _ _ E). Qed.

Lemma teardown_returns self w : exists w', teardown self w = (Ok (), w').
Proof. destruct (teardown_runs self w) as (w' & ? & E & _). eauto. Qed.

Lemma GetSpecFromFile_Ok name w v w1 :
  GetSpecFromFile name w = (Ok v, w1) -> w1 = w /\ deleted v = false.
Proof.
  unfold GetSpecFromFile, try_except, mbind, ST_bind, logging, raise.
  destruct (files w !! _) as [b|]; [|done].
  destruct (pickle_loads b); [|done]. by intros [= <- <-].
Qed.

(** X14.  A benchmark whose information lacks one of the required keys
    is skipped: [RunBenchmark] returns normally after logging one error,
    without a call on the benchmark module or on any handle, without
    taking a static VM and without touching any file. *)
Theorem invalid_benchmark_is_skipped benchmark w :
  info_scratch_disk (GetInfo benchmark) = None \/
  info_num_machines (GetInfo benchmark) = None ->
  exists w',
    RunBenchmark benchmark w = (Ok (), w') /\
    trace w' = trace w /\ files w' = files w /\
    static_vm_pool w' = static_vm_pool w /\
    length (log w') = S (length (log w)).
Proof.
  intros Hmiss. unfold RunBenchmark, ValidateBenchmarkInfo, mbind, ST_bind, logging.
  destruct (info_scratch_disk (GetInfo benchmark)) as [sd|];
    [destruct (info_num_machines (GetInfo benchmark)) as [m|]; [by destruct Hmiss|]|];
    cbn; eexists; (split; [reflexivity|]); cbn; rewrite length_app; cbn;
    split_and!; try done; lia.
Qed.

(** X15.  A prerequisite check that raises aborts the benchmark before any
    resource is touched: [RunBenchmark] raises what the check raised, the
    check is the only call made, no spec is pickled and no static VM is
    taken. *)
Theorem prerequisite_failure_aborts benchmark w x :
  is_Some (info_scratch_disk (GetInfo benchmark)) ->
  is_Some (info_num_machines (GetInfo benchmark)) ->
  has_CheckPrerequisites benchmark = true ->
  raises (trace w) (CheckPrerequisites (info_name (GetInfo benchmark))) = Some x ->
  exists w',
    RunBenchmark benchmark w = (Raise x, w') /\
    trace w' = trace w ++ [CheckPrerequisites (info_name (GetInfo benchmark))] /\
    files w' = files w /\
    static_vm_pool w' = static_vm_pool w.
Proof.
  intros Hsd Hnm Hhas Hr. unfold RunBenchmark.
  rewrite (bind_Ok _ _ _ _ _ (ValidateBenchmarkInfo_valid _ w Hsd Hnm)). cbn [negb].
  unfold check_prereqs. rewrite Hhas.
  unfold try_except, call, logging, raise, mbind, ST_bind. rewrite Hr. cbn.
  by eexists.
Qed.

Lemma first_statement_trace name info w r w1 :
  (if STAGE_in [STAGE_ALL; STAGE_PREPARE]
   then BenchmarkSpec_init info w
   else GetSpecFromFile name w) = (r, w1) ->
  trace w1 = trace w.
Proof.
  intros E. destruct (STAGE_in _).
  - pose proof (BenchmarkSpec_init_trace info w) as T. by rewrite E in T.
  - revert E. unfold GetSpecFromFile, try_except, mbind, ST_bind, logging, raise.
    destruct (files w !! _) as [b|]; [destruct (pickle_loads b)|]; by intros [= <- <-].
Qed.

Lemma first_statement_not_deleted name info w v w1 :
  (if STAGE_in [STAGE_ALL; STAGE_PREPARE]
   then BenchmarkSpec_init info w
   else GetSpecFromFile name w) = (Ok v, w1) ->
  deleted v = false.
Proof.
  destruct (STAGE_in _); intros E.
  - by eapply BenchmarkSpec_init_deleted.
  - by apply GetSpecFromFile_Ok in E as [_ ?].
Qed.

(** The first block of the [try] statement once its first statement has
    returned [v]: the variable [spec] holds [v] from then on, and the
    block makes no teardown call. *)
Lemma first_block_at name info w v w1 :
  (if STAGE_in [STAGE_ALL; STAGE_PREPARE]
   then BenchmarkSpec_init info w
   else GetSpecFromFile name w) = (Ok v, w1) ->
  exists r w2 calls,
    (if STAGE_in [STAGE_ALL; STAGE_PREPARE]
     then
       v ← lift (BenchmarkSpec_init info);
       assign_spec v;;
       lift (PickleSpec v);;
       lift (DoPreparePhase name v)
     else
       v ← lift (GetSpecFromFile name);
       assign_spec v) {| spec := None; world := w |} =
      (r, {| spec := Some v; world := w2 |}) /\
    trace w2 = trace w ++ calls /\ Forall no_teardown_call calls /\
    files w2 = (if STAGE_in [STAGE_ALL; STAGE_PREPARE]
                then <[file_name v := pickle_dumps v]> (files w)
                else files w) /\
    (STAGE_in [STAGE_ALL; STAGE_PREPARE] = false -> r = Ok () /\ calls = []).
Proof.
  intros E. pose proof (first_statement_trace name info w _ _ E) as T.
  destruct (STAGE_in [STAGE_ALL; STAGE_PREPARE]) eqn:Hst.
  - destruct (DoPreparePhase name v (PickleSpec v w1).2) as [r w2] eqn:Ep.
    destruct (emits_at _ _ _ _ _ (emits_DoPreparePhase_no_teardown name v) Ep)
      as (calls & Tp & Fp). unfold the_trace, World_traced in Tp. cbn in Tp.
    exists r, w2, calls. split; [by apply (prepare_block_at _ _ _ _ w1)|].
    rewrite Tp, T. split_and!; [done|done| |done].
    assert (keeps files (DoPreparePhase name v)) as Hk.
    { apply keeps_bind; [|intros _; by apply keeps_call].
      unfold Prepare. apply keeps_bind.
      - apply keeps_if; [done|]. apply keeps_RunThreaded. intros n. by apply keeps_call.
      - intros _. destruct (vms v); [done|]. apply keeps_bind.
        + apply keeps_RunThreaded. intros [vm fw]. unfold PrepareVm.
          repeat (apply keeps_bind;
                  [first [by apply keeps_call
                         | apply keeps_if; [by apply keeps_call | done]]
                  | intros _]).
          apply keeps_for_each. intros d. by apply keeps_call.
        + intros _. apply keeps_if; [done | by apply keeps_call]. }
    specialize (Hk (PickleSpec v w1).2). rewrite Ep in Hk. cbn in Hk. rewrite Hk.
    f_equal. pose proof (keeps_BenchmarkSpec_init files info files_ignores_pool w) as Hf.
    by rewrite E in Hf.
  - apply GetSpecFromFile_Ok in E as Hw. destruct Hw as [-> _].
    exists (Ok ()), w, []. rewrite app_nil_r. split_and!; try done.
    rewrite (bind_Ok _ _ _ _ _ (lift_at _ {| spec := None; world := w |} _ _ E)). done.
Qed.

Lemma bind_inv {S A B} (m : ST S A) (f : A -> ST S B) w r w' :
  (m ≫= f) w = (r, w') ->
  (exists e, m w = (Raise e, w') /\ r = Raise e) \/
  (exists a w1, m w = (Ok a, w1) /\ f a w1 = (r, w')).
Proof.
  unfold mbind, ST_bind. destruct (m w) as [[a|e] w1]; intros E.
  - right. eauto.
  - left. exists e. by injection E as <- <-.
Qed.

(** The 'run' block of the [try] statement when [spec] holds [v]. *)
Lemma run_block_at name v w2 :
  exists r w3 calls,
    (if STAGE_in [STAGE_ALL; STAGE_RUN]
     then v ← read_spec; lift (DoRunPhase name v)
     else mret ()) {| spec := Some v; world := w2 |} =
      (r, {| spec := Some v; world := w3 |}) /\
    trace w3 = trace w2 ++ calls /\ Forall is_benchmark_call calls /\
    files w3 = files w2.
Proof.
  destruct (STAGE_in [STAGE_ALL; STAGE_RUN]).
  - destruct (DoRunPhase name (Some v) w2) as [r w3] eqn:Er.
    assert (emits is_benchmark_call (DoRunPhase name (Some v))) as Hm.
    { unfold DoRunPhase. apply emits_bind.
      - apply emits_for_each. intros h. by apply emits_call.
      - intros _. apply emits_bind; [|intros _]; by apply emits_call. }
    destruct (emits_at _ _ _ _ _ Hm Er) as (calls & T & F).
    assert (keeps files (DoRunPhase name (Some v))) as Hk.
    { unfold DoRunPhase. apply keeps_bind.
      - apply keeps_for_each. intros h. by apply keeps_call.
      - intros _. apply keeps_bind; [|intros _]; by apply keeps_call. }
    specialize (Hk w2). rewrite Er in Hk.
    exists r, w3, calls. split_and!; try done.
    unfold read_spec, lift, mbind, ST_bind. cbn. by rewrite Er.
  - exists (Ok ()), w2, []. by rewrite app_nil_r.
Qed.

(** The 'cleanup' block of the [try] statement when [spec] holds a spec
    [v] that is not deleted: either the [Cleanup] hook raises and nothing
    is torn down, or the teardown of [v] runs right after it and [spec]
    holds the deleted [v]. *)
Lemma cleanup_block_at name v w3 :
  STAGE_in [STAGE_ALL; STAGE_CLEANUP] = true -> deleted v = false ->
  let block :=
    (v ← read_spec;
     v' ← lift (DoCleanupPhase name v);
     assign_spec v') {| spec := Some v; world := w3 |} in
  let w4 := (call (BenchmarkCleanup name) w3).2 in
  (exists e, block = (Raise e, {| spec := Some v; world := w4 |})) \/
  (exists w5, block = (Ok (), {| spec := Some (set_deleted true v); world := w5 |}) /\
              teardown v w4 = (Ok (), w5)).
Proof.
  intros Hc Hd. cbn zeta.
  unfold read_spec, lift, DoCleanupPhase, assign_spec, mbind, ST_bind. cbn [spec world].
  destruct (call (BenchmarkCleanup name) w3) as [[[]|e] w4]; cbn [snd]; [|left; eauto].
  right. destruct (teardown_returns v w4) as (w5 & Et). exists w5. split; [|done].
  rewrite (Delete_is_teardown v w4 w5); [done| |done].
  unfold STAGE_in in Hc. by rewrite Hc, Hd.
Qed.

(** What the body of the [try] statement leaves behind in an
    'all' or 'cleanup' invocation whose first statement returned [v]:
    either it raised before any teardown call and [spec] holds [v], or the
    teardown of [v] ran once and [spec] holds the deleted [v]. *)
Lemma cleanup_body_post name info w v w1 rb frb :
  STAGE_in [STAGE_ALL; STAGE_CLEANUP] = true ->
  (if STAGE_in [STAGE_ALL; STAGE_PREPARE]
   then BenchmarkSpec_init info w
   else GetSpecFromFile name w) = (Ok v, w1) ->
  (run_stages name info;; add_timer_samples name) {| spec := None; world := w |} =
    (rb, frb) ->
  (exists e calls,
     rb = Raise e /\ spec frb = Some v /\
     trace (world frb) = trace w ++ calls /\ Forall no_teardown_call calls) \/
  (spec frb = Some (set_deleted true v) /\ torn_down_once v w (world frb)).
Proof.
  intros Hc E Eb.
  pose proof (first_statement_not_deleted _ _ _ _ _ E) as Hd.
  destruct (first_block_at name info w v w1 E) as (r1 & w2 & calls1 & E1 & T1 & F1 & _).
  destruct (run_block_at name v w2) as (r2 & w3 & calls2 & E2 & T2 & F2 & _).
  assert (Forall no_teardown_call calls2) as F2'.
  { eapply Forall_impl; [exact F2 | apply benchmark_call_is_no_teardown]. }
  pose proof (cleanup_block_at name v w3 Hc Hd) as E3. cbn zeta in E3.
  pose proof (call_trace (BenchmarkCleanup name) w3) as T3.
  set (w4 := (call (BenchmarkCleanup name) w3).2) in *.
  assert (Forall no_teardown_call (calls1 ++ calls2 ++ [BenchmarkCleanup name])) as F3.
  { rewrite !Forall_app. split_and!; try done. apply Forall_singleton. by intros []. }
  unfold run_stages in Eb. rewrite Hc in Eb.
  apply bind_inv in Eb as [(e & Eb & ->) | ([] & fr5 & Eb & Ea)].
  - (* one of the stages raised *)
    left. exists e.
    apply bind_inv in Eb as [(e1 & Eb & [= <-]) | ([] & fr1 & Eb1 & Eb)].
    { rewrite E1 in Eb. injection Eb as -> <-. exists calls1. by split_and!. }
    rewrite E1 in Eb1. injection Eb1 as -> <-.
    apply bind_inv in Eb as [(e2 & Eb & [= <-]) | ([] & fr2 & Eb2 & Eb)].
    { rewrite E2 in Eb. injection Eb as -> <-. exists (calls1 ++ calls2).
      cbn [spec world]. rewrite T2, T1, Forall_app, <-(assoc_L (++)). by split_and!. }
    rewrite E2 in Eb2. injection Eb2 as -> <-.
    destruct E3 as [(e3 & E3) | (w5 & E3 & _)]; rewrite E3 in Eb; [|done].
    injection Eb as -> <-. exists (calls1 ++ calls2 ++ [BenchmarkCleanup name]).
    cbn [spec world]. rewrite T3, T2, T1, <-!(assoc_L (++)). by split_and!.
  - (* the stages returned: the teardown has run *)
    right.
    apply bind_inv in Eb as [(e1 & _ & [=]) | ([] & fr1 & Eb1 & Eb)].
    rewrite E1 in Eb1. injection Eb1 as -> <-.
    apply bind_inv in Eb as [(e2 & _ & [=]) | ([] & fr2 & Eb2 & Eb)].
    rewrite E2 in Eb2. injection Eb2 as -> <-.
    destruct E3 as [(e3 & E3) | (w5 & E3 & Et)]; rewrite E3 in Eb; [done|].
    injection Eb as <-.
    pose proof (keeps_add_timer_samples_spec name
                  {| spec := Some (set_deleted true v); world := w5 |}) as Hs.
    destruct (emits_at _ _ _ _ _ (emits_add_timer_samples_no_teardown name) Ea)
      as (after & Ta & Fa).
    rewrite Ea in Hs. split; [done|].
    exists (calls1 ++ calls2 ++ [BenchmarkCleanup name]), w4, w5, after.
    split_and!; try done. by rewrite T3, T2, T1, <-!(assoc_L (++)).
Qed.

(** The [try] statement of an 'all' or 'cleanup' invocation tears the
    resources of the spec down exactly once. *)
Lemma try_statement_tears_down name info w v w1 r w' :
  STAGE_in [STAGE_ALL; STAGE_CLEANUP] = true ->
  (if STAGE_in [STAGE_ALL; STAGE_PREPARE]
   then BenchmarkSpec_init info w
   else GetSpecFromFile name w) = (Ok v, w1) ->
  try_statement name info w = (r, w') ->
  torn_down_once v w w'.
Proof.
  intros Hc E.
  pose proof (first_statement_not_deleted _ _ _ _ _ E) as Hd.
  unfold try_statement, try_finally, try_except.
  destruct ((run_stages _ _;; add_timer_samples _) {| spec := None; world := w |})
    as [rb frb] eqn:Eb.
  destruct (cleanup_body_post _ _ _ _ _ _ _ Hc E Eb)
    as [(e & calls & -> & Hs & T & F) | (Hs & before & w_a & w_b & after & Ta & Et & Tb & Fb & Fa)].
  - (* nothing torn down yet: the [finally] clause does it *)
    destruct frb as [s wb]. cbn in Hs, T. subst s.
    unfold lift, logging, raise, mbind, ST_bind, finally_clause. cbn [spec world].
    rewrite Hc. unfold lift, assign_spec, mbind, ST_bind. cbn [spec world].
    match goal with |- context [Delete v ?wl] =>
      destruct (teardown_returns v wl) as (w5 & Et);
      rewrite (Delete_is_teardown v wl w5); [| unfold STAGE_in in Hc; by rewrite Hc, Hd | done];
      pose (w_a := wl) end.
    intros [= _ <-]. exists calls, w_a, w5, [].
    rewrite app_nil_r. split_and!; try done.
  - (* already torn down: the [finally] clause leaves it alone *)
    destruct frb as [s wb]. cbn in Hs, Tb. subst s.
    assert (forall wl, finally_clause {| spec := Some (set_deleted true v); world := wl |} =
                       (Ok (), {| spec := Some (set_deleted true v); world := wl |})) as Hf.
    { intros wl. unfold finally_clause. rewrite Hc. cbn [spec].
      unfold lift, assign_spec, mbind, ST_bind. cbn [spec world].
      rewrite Delete_guarded; [done|]. cbn. by rewrite orb_true_r. }
    destruct rb as [[]|e].
    + rewrite Hf. intros [= _ <-]. by exists before, w_a, w_b, after.
    + unfold lift, logging, raise, mbind, ST_bind. cbn [spec world]. rewrite Hf.
      intros [= _ <-]. by exists before, w_a, w_b, after.
Qed.

Lemma torn_down_once_after v w w0 w' pre :
  trace w0 = trace w ++ pre -> Forall no_teardown_call pre ->
  torn_down_once v w0 w' -> torn_down_once v w w'.
Proof.
  intros T F (before & w_a & w_b & after & Ta & Et & Tb & Fb & Fa).
  exists (pre ++ before), w_a, w_b, after. rewrite Forall_app.
  split_and!; try done. by rewrite Ta, T, <-(assoc_L (++)).
Qed.

(** [RunBenchmark] on valid benchmark information whose prerequisite
    check returned. *)
Lemma RunBenchmark_at benchmark w w0 :
  is_Some (info_scratch_disk (GetInfo benchmark)) ->
  is_Some (info_num_machines (GetInfo benchmark)) ->
  check_prereqs benchmark (info_name (GetInfo benchmark)) w = (Ok (), w0) ->
  RunBenchmark benchmark w =
    try_statement (info_name (GetInfo benchmark)) (GetInfo benchmark) w0 /\
  files w0 = files w /\
  exists pre, trace w0 = trace w ++ pre /\ Forall is_benchmark_call pre.
Proof.
  intros Hsd Hnm Ec. split_and!.
  - unfold RunBenchmark.
    rewrite (bind_Ok _ _ _ _ _ (ValidateBenchmarkInfo_valid _ w Hsd Hnm)). cbn [negb].
    by rewrite (bind_Ok _ _ _ _ _ Ec).
  - assert (keeps files (check_prereqs benchmark (info_name (GetInfo benchmark)))) as Hk.
    { unfold check_prereqs. apply keeps_if; [|done].
      apply keeps_try_except; [by apply keeps_call|].
      intros e. apply keeps_bind; [by apply keeps_logging | done]. }
    specialize (Hk w). by rewrite Ec in Hk.
  - assert (emits is_benchmark_call
              (check_prereqs benchmark (info_name (GetInfo benchmark)))) as Hm.
    { unfold check_prereqs. apply emits_if; [|apply emits_ret].
      apply emits_try_except; [by apply emits_call|].
      intros e. apply emits_bind; [apply emits_logging | intros _; apply emits_raise]. }
    apply (emits_at _ _ _ _ _ Hm Ec).
Qed.

(** X16.  In an 'all' or 'cleanup' invocation, once the first statement
    of the [try] block (the constructor, or in 'cleanup' the unpickling)
    has returned a spec, the resources of that spec are torn down exactly
    once, wherever in [Prepare], [Run], [Cleanup] or the timer samples
    the benchmark fails or whether it fails at all: either the cleanup
    phase tears them down and the [finally] clause finds the spec deleted,
    or the [finally] clause does it.  No resource is leaked and none is
    deleted twice. *)
Theorem resources_torn_down_once benchmark w w0 v w1 r w' :
  FLAGS_run_stage FLAGS ∈ [STAGE_ALL; STAGE_CLEANUP] ->
  is_Some (info_scratch_disk (GetInfo benchmark)) ->
  is_Some (info_num_machines (GetInfo benchmark)) ->
  check_prereqs benchmark (info_name (GetInfo benchmark)) w = (Ok (), w0) ->
  (if STAGE_in [STAGE_ALL; STAGE_PREPARE]
   then BenchmarkSpec_init (GetInfo benchmark) w0
   else GetSpecFromFile (info_name (GetInfo benchmark)) w0) = (Ok v, w1) ->
  RunBenchmark benchmark w = (r, w') ->
  torn_down_once v w w'.
Proof.
  intros Hst Hsd Hnm Ec E Er.
  assert (STAGE_in [STAGE_ALL; STAGE_CLEANUP] = true) as Hc.
  { unfold STAGE_in. by apply elem_of_cons in Hst as [->| ->%list_elem_of_singleton]. }
  destruct (RunBenchmark_at _ _ _ Hsd Hnm Ec) as (Eq & _ & pre & Tc & Fc).
  rewrite Eq in Er.
  eapply torn_down_once_after; [exact Tc | | by eapply try_statement_tears_down].
  eapply Forall_impl; [exact Fc | apply benchmark_call_is_no_teardown].
Qed.

(** The [try] statement of a 'prepare' or 'run' invocation: nothing is
    torn down, and the spec is pickled at the end whatever happened. *)
Lemma try_statement_persists name info w v w1 r w' :
  STAGE_in [STAGE_ALL; STAGE_CLEANUP] = false ->
  (if STAGE_in [STAGE_ALL; STAGE_PREPARE]
   then BenchmarkSpec_init info w
   else GetSpecFromFile name w) = (Ok v, w1) ->
  try_statement name info w = (r, w') ->
  files w' = <[file_name v := pickle_dumps v]> (files w) /\
  exists provisioning calls,
    trace w' = trace w ++ provisioning ++ calls /\
    Forall no_teardown_call provisioning /\
    Forall is_benchmark_call calls /\
    (STAGE_in [STAGE_ALL; STAGE_PREPARE] = false -> provisioning = []).
Proof.
  intros Hc E.
  destruct (first_block_at name info w v w1 E)
    as (r1 & w2 & calls1 & E1 & T1 & F1 & Hf1 & Hl).
  destruct (run_block_at name v w2) as (r2 & w3 & calls2 & E2 & T2 & F2 & Hf2).
  assert (files w2 = files w \/ files w2 = <[file_name v := pickle_dumps v]> (files w))
    as Hf1' by (destruct (STAGE_in [STAGE_ALL; STAGE_PREPARE]); auto).
  unfold try_statement, try_finally, try_except.
  destruct ((run_stages _ _;; add_timer_samples _) {| spec := None; world := w |})
    as [rb frb] eqn:Eb.
  assert (spec frb = Some v /\ files (world frb) = files w2 /\
          exists calls3, trace (world frb) = trace w2 ++ calls3 /\
                         Forall is_benchmark_call calls3) as (Hs & Hfb & calls3 & T3 & F3).
  { unfold run_stages in Eb. rewrite Hc in Eb.
    apply bind_inv in Eb as [(e & Eb & ->) | ([] & fr5 & Eb & Ea)].
    - apply bind_inv in Eb as [(e1 & Eb & [= <-]) | ([] & fr1 & Eb1 & Eb)].
      { rewrite E1 in Eb. injection Eb as -> <-. split_and!; try done.
        exists []. by rewrite app_nil_r. }
      rewrite E1 in Eb1. injection Eb1 as -> <-.
      apply bind_inv in Eb as [(e2 & Eb & [= <-]) | ([] & fr2 & Eb2 & Eb)]; [|done].
      rewrite E2 in Eb. injection Eb as -> <-. split_and!; try done. by exists calls2.
    - apply bind_inv in Eb as [(e1 & _ & [=]) | ([] & fr1 & Eb1 & Eb)].
      rewrite E1 in Eb1. injection Eb1 as -> <-.
      apply bind_inv in Eb as [(e2 & _ & [=]) | ([] & fr2 & Eb2 & Eb)].
      rewrite E2 in Eb2. injection Eb2 as -> <-. injection Eb as <-.
      pose proof (keeps_add_timer_samples_spec name {| spec := Some v; world := w3 |}) as Hs.
      assert (emits is_benchmark_call (add_timer_samples name)) as Hm.
      { unfold add_timer_samples. apply emits_bind.
        - apply emits_if; [|apply emits_ret]. by apply emits_lift, emits_call.
        - intros _. by apply emits_lift, emits_call. }
      assert (keeps (fun fr => files (world fr)) (add_timer_samples name)) as Hk.
      { assert (forall e, keeps (fun fr => files (world fr)) (lift (call e))) as Hl'.
        { intros e fr. unfold lift, call. by destruct (raises _ _). }
        unfold add_timer_samples. apply keeps_bind.
        - apply keeps_if; [apply Hl' | done].
        - intros _. apply Hl'. }
      specialize (Hk {| spec := Some v; world := w3 |}).
      destruct (emits_at _ _ _ _ _ Hm Ea) as (after & Ta & Fa).
      unfold the_trace, Frame_traced in Ta. cbn [world] in Ta.
      rewrite Ea in Hs, Hk. cbn in Hs, Hk. split_and!; [done|by rewrite Hk|].
      exists (calls2 ++ after). rewrite Forall_app, Ta, T2, <-(assoc_L (++)). by split_and!. }
  destruct frb as [s wb]. cbn in Hs, Hfb, T3. subst s.
  assert (forall wl, finally_clause {| spec := Some v; world := wl |} =
                     (Ok (), {| spec := Some v; world := (PickleSpec v wl).2 |})) as Hf.
  { intros wl. unfold finally_clause. rewrite Hc. done. }
  assert (<[file_name v := pickle_dumps v]> (files wb) =
          <[file_name v := pickle_dumps v]> (files w)) as Hins.
  { rewrite Hfb. destruct Hf1' as [-> | ->]; [done|]. by rewrite insert_insert_eq. }
  assert (trace wb = trace w ++ calls1 ++ calls3) as Tb.
  { by rewrite T3, T1, <-(assoc_L (++)). }
  destruct rb as [[]|e].
  - rewrite Hf. intros [= _ <-]. cbn. split; [done|].
    exists calls1, calls3. split_and!; try done. intros H. by apply Hl.
  - unfold lift, logging, raise, mbind, ST_bind. cbn [spec world]. rewrite Hf.
    intros [= _ <-]. cbn. split; [done|].
    exists calls1, calls3. split_and!; try done. intros H. by apply Hl.
Qed.

(** X17.  In a 'prepare' or 'run' invocation, once the first statement of
    the [try] block has returned a spec, nothing is torn down and the
    spec is pickled to its file when [RunBenchmark] ends, whether the
    benchmark failed or not, so that a later invocation finds it; of
    the other files none is touched.  A 'run' invocation makes calls
    on the benchmark module, its hooks and the collector only: it does
    not provision. *)
Theorem spec_persisted_outside_cleanup benchmark w w0 v w1 r w' :
  FLAGS_run_stage FLAGS ∈ [STAGE_PREPARE; STAGE_RUN] ->
  is_Some (info_scratch_disk (GetInfo benchmark)) ->
  is_Some (info_num_machines (GetInfo benchmark)) ->
  check_prereqs benchmark (info_name (GetInfo benchmark)) w = (Ok (), w0) ->
  (if STAGE_in [STAGE_ALL; STAGE_PREPARE]
   then BenchmarkSpec_init (GetInfo benchmark) w0
   else GetSpecFromFile (info_name (GetInfo benchmark)) w0) = (Ok v, w1) ->
  RunBenchmark benchmark w = (r, w') ->
  files w' = <[file_name v := pickle_dumps v]> (files w) /\
  Forall no_teardown_call (calls_since (length (trace w)) w') /\
  (FLAGS_run_stage FLAGS = STAGE_RUN ->
   Forall is_benchmark_call (calls_since (length (trace w)) w')).
Proof.
  intros Hst Hsd Hnm Ec E Er.
  assert (STAGE_in [STAGE_ALL; STAGE_CLEANUP] = false) as Hc.
  { unfold STAGE_in. by apply elem_of_cons in Hst as [->| ->%list_elem_of_singleton]. }
  destruct (RunBenchmark_at _ _ _ Hsd Hnm Ec) as (Eq & Hfc & pre & Tc & Fc).
  rewrite Eq in Er.
  destruct (try_statement_persists _ _ _ _ _ _ _ Hc E Er)
    as (Hf & prov & calls & T & Fp & Fb & Hp).
  split; [by rewrite Hf, Hfc|].
  unfold calls_since. rewrite T, Tc, <-(assoc_L (++)), drop_app_length.
  split.
  - rewrite !Forall_app. split_and!; try done;
      (eapply Forall_impl; [eassumption | apply benchmark_call_is_no_teardown]).
  - intros Hr. rewrite Hp; [by rewrite Forall_app|]. unfold STAGE_in. by rewrite Hr.
Qed.

(** X18.  In an 'all' or 'cleanup' invocation whose first statement
    raises (the constructor, or in 'cleanup' the unpickling), the variable
    [spec] is still [None] in the [finally] clause, which then does
    nothing: [RunBenchmark] raises that very exception after logging it,
    no handle is called, and no file is written. *)
Theorem first_failure_propagates benchmark w w0 e w1 :
  FLAGS_run_stage FLAGS ∈ [STAGE_ALL; STAGE_CLEANUP] ->
  is_Some (info_scratch_disk (GetInfo benchmark)) ->
  is_Some (info_num_machines (GetInfo benchmark)) ->
  check_prereqs benchmark (info_name (GetInfo benchmark)) w = (Ok (), w0) ->
  (if STAGE_in [STAGE_ALL; STAGE_PREPARE]
   then BenchmarkSpec_init (GetInfo benchmark) w0
   else GetSpecFromFile (info_name (GetInfo benchmark)) w0) = (Raise e, w1) ->
  exists w',
    RunBenchmark benchmark w = (Raise e, w') /\
    trace w' = trace w0 /\ files w' = files w /\
    log w' = log w1 ++ ["Error during benchmark " +:+ info_name (GetInfo benchmark)].
Proof.
  intros Hst Hsd Hnm Ec E.
  assert (STAGE_in [STAGE_ALL; STAGE_CLEANUP] = true) as Hc.
  { unfold STAGE_in. by apply elem_of_cons in Hst as [->| ->%list_elem_of_singleton]. }
  destruct (RunBenchmark_at _ _ _ Hsd Hnm Ec) as (-> & Hfc & _).
  pose proof (first_statement_trace _ _ _ _ _ E) as T.
  assert (files w1 = files w0) as Hf.
  { destruct (STAGE_in [STAGE_ALL; STAGE_PREPARE]).
    - pose proof (keeps_BenchmarkSpec_init files (GetInfo benchmark) files_ignores_pool w0) as H.
      by rewrite E in H.
    - revert E. unfold GetSpecFromFile, try_except, mbind, ST_bind, logging, raise.
      destruct (files w0 !! _) as [b|]; [destruct (pickle_loads b)|]; by intros [= _ <-]. }
  assert (run_stages (info_name (GetInfo benchmark)) (GetInfo benchmark)
            {| spec := None; world := w0 |} =
          (Raise e, {| spec := None; world := w1 |})) as Eb.
  { unfold run_stages. apply bind_Raise.
    destruct (STAGE_in [STAGE_ALL; STAGE_PREPARE]); apply bind_Raise;
      by apply (lift_at _ {| spec := None; world := w0 |}). }
  unfold try_statement, try_finally, try_except.
  rewrite (bind_Raise _ _ _ _ _ Eb).
  unfold lift, logging, raise, mbind, ST_bind, finally_clause. cbn [spec world].
  rewrite Hc. eexists. split; [reflexivity|]. cbn. by rewrite T, Hf, Hfc.
Qed.

(** *** A run in which nothing raises *)

Lemma call_quiet e w :
  (forall history e, raises history e = None) ->
  call e w = (Ok (), {| trace := trace w ++ [e]; log := log w; files := files w;
                        static_vm_pool := static_vm_pool w |}).
Proof. intros Hq. unfold call. by rewrite Hq. Qed.

Lemma for_each_call_quiet (l : list Event) w :
  (forall history e, raises history e = None) ->
  exists w', for_each l call w = (Ok (), w') /\ trace w' = trace w ++ l.
Proof.
  intros Hq. pose proof (for_each_call_stops l w) as H.
  destruct (for_each l call w) as [[[]|x] w']; [by exists w'|].
  destruct H as (made & e & _ & _ & Hr). by rewrite Hq in Hr.
Qed.

Lemma RunThreaded_quiet {A} (target : A -> M unit) l w :
  (forall x w0, exists w1, target x w0 = (Ok (), w1)) ->
  exists w', RunThreaded target l w = (Ok (), w').
Proof.
  intros Ht. unfold RunThreaded.
  assert (forall w0, exists w1, run_threads target l w0 = (Ok [], w1)) as H.
  { induction l as [|x l IH]; intros w0; [by eexists|].
    cbn [run_threads]. unfold mbind at 1, ST_bind at 1, try_except.
    unfold mbind at 1, ST_bind at 1.
    destruct (Ht x w0) as (w1 & ->). cbn. unfold mbind, ST_bind.
    destruct (IH w1) as (w2 & ->). by eexists. }
  destruct (H w) as (w' & E). rewrite (bind_Ok _ _ _ _ _ E). by eexists.
Qed.

Lemma Prepare_quiet self w :
  (forall history e, raises history e = None) ->
  exists w', Prepare self w = (Ok (), w').
Proof.
  intros Hq. unfold Prepare.
  assert (exists w1, (if bool_decide (networks self = ∅) then mret ()
                      else RunThreaded PrepareNetwork (snd <$> map_to_list (networks self))) w =
                     (Ok (), w1)) as (w1 & E1).
  { destruct (bool_decide (networks self = ∅)); [by eexists|].
    apply RunThreaded_quiet. intros n w0. unfold PrepareNetwork.
    rewrite call_quiet by done. by eexists. }
  rewrite (bind_Ok _ _ _ _ _ E1).
  destruct (vms self) as [|vm0 l]; [by eexists|].
  destruct (RunThreaded_quiet (fun '(vm, fw) => PrepareVm self vm fw)
              ((fun vm => (vm, firewall self)) <$> vm0 :: l) w1) as (w2 & E2).
  { intros [vm fw] w0. rewrite PrepareVm_is_its_calls.
    destruct (for_each_call_quiet (PrepareVm_calls self vm fw) w0 Hq) as (w3 & E & _).
    by exists w3. }
  rewrite (bind_Ok _ _ _ _ _ E2).
  destruct (bool_decide (FLAGS_os_type FLAGS = WINDOWS)); [by eexists|].
  rewrite call_quiet by done. by eexists.
Qed.

(** X19.  The order of the phases of an 'all' invocation in which no call
    raises: the optional prerequisite check, the provisioning calls of
    [Prepare], the [Prepare] hook of the benchmark, the before-run hooks in
    the order of [BEFORE_RUN_HOOKS], the [Run] hook, the samples, the
    [Cleanup] hook, the teardown calls, and last the samples of the two
    timers.  [RunBenchmark] returns normally. *)
Theorem all_stages_in_order benchmark w v w1 :
  let name := info_name (GetInfo benchmark) in
  FLAGS_run_stage FLAGS = STAGE_ALL ->
  (forall history e, raises history e = None) ->
  is_Some (info_scratch_disk (GetInfo benchmark)) ->
  is_Some (info_num_machines (GetInfo benchmark)) ->
  BenchmarkSpec_init (GetInfo benchmark) (check_prereqs benchmark name w).2 = (Ok v, w1) ->
  exists w' provisioning teardown_calls,
    RunBenchmark benchmark w = (Ok (), w') /\
    trace w' =
      trace w ++
      (if has_CheckPrerequisites benchmark then [CheckPrerequisites name] else []) ++
      provisioning ++
      [BenchmarkPrepare name] ++
      ((fun hook => BeforeRunHook hook name) <$> BEFORE_RUN_HOOKS) ++
      [BenchmarkRun name; CollectorAddSamples "samples" name; BenchmarkCleanup name] ++
      teardown_calls ++
      [CollectorAddSamples "end_to_end_timer" name;
       CollectorAddSamples "detailed_timer" name] /\
    Forall is_provisioning_call provisioning /\
    Forall is_teardown_call teardown_calls.
Proof.
  intros name Hs Hq Hsd Hnm Ei.
  assert (STAGE_in [STAGE_ALL; STAGE_PREPARE] = true /\
          STAGE_in [STAGE_ALL; STAGE_RUN] = true /\
          STAGE_in [STAGE_ALL; STAGE_CLEANUP] = true) as (Hp & Hr & Hc).
  { unfold STAGE_in. by rewrite Hs. }
  pose proof (BenchmarkSpec_init_deleted _ _ _ _ Ei) as Hd.
  pose proof (BenchmarkSpec_init_trace (GetInfo benchmark) (check_prereqs benchmark name w).2) as Ti.
  rewrite Ei in Ti. cbn [snd] in Ti.
  set (pre := if has_CheckPrerequisites benchmark then [CheckPrerequisites name] else []).
  assert (exists w0, check_prereqs benchmark name w = (Ok (), w0) /\
                     trace w0 = trace w ++ pre) as (w0 & Ec & Tc).
  { unfold check_prereqs, pre. destruct (has_CheckPrerequisites benchmark).
    - unfold try_except. rewrite call_quiet by done. by eexists.
    - eexists. split; [done|]. cbn. by rewrite app_nil_r. }
  rewrite Ec in Ei, Ti. cbn [snd] in Ei, Ti.
  destruct (RunBenchmark_at _ _ _ Hsd Hnm Ec) as (-> & _). fold name.
  (* the 'prepare' block *)
  destruct (Prepare_quiet v (PickleSpec v w1).2 Hq) as (wq & Eq).
  destruct (emits_at _ _ _ _ _ (emits_Prepare_provisioning v) Eq) as (prov & Tq & Fq).
  unfold the_trace, World_traced in Tq. cbn in Tq.
  assert (DoPreparePhase name v (PickleSpec v w1).2 =
          call (BenchmarkPrepare name) wq) as Edp.
  { unfold DoPreparePhase. by rewrite (bind_Ok _ _ _ _ _ Eq). }
  rewrite call_quiet in Edp by done.
  pose proof (prepare_block_at name _ _ _ _ _ _ Ei Edp) as E1.
  (* the 'run' block *)
  set (hooks := (fun hook => BeforeRunHook hook name) <$> BEFORE_RUN_HOOKS).
  match type of E1 with _ = (_, {| spec := _; world := ?w2' |}) => set (w2 := w2') in * end.
  assert (exists w3, DoRunPhase name (Some v) w2 = (Ok (), w3) /\
                     trace w3 = trace w2 ++ hooks ++
                                [BenchmarkRun name; CollectorAddSamples "samples" name])
    as (w3 & E2 & T2).
  { unfold DoRunPhase.
    destruct (for_each_call_quiet hooks w2 Hq) as (wh & Eh & Th).
    unfold hooks in Eh. rewrite for_each_fmap in Eh.
    rewrite (bind_Ok _ _ _ _ _ Eh). unfold mbind, ST_bind.
    rewrite !call_quiet by done. eexists. split; [done|]. cbn [trace].
    by rewrite Th, <-!(assoc_L (++)). }
  (* the 'cleanup' block *)
  pose proof (cleanup_block_at name v w3 Hc Hd) as E3. cbn zeta in E3.
  rewrite call_quiet in E3 by done. cbn [snd] in E3.
  destruct E3 as [(e & E3) | (w5 & E3 & Et)].
  { exfalso. revert E3.
    unfold read_spec, lift, DoCleanupPhase, assign_spec, mbind, ST_bind. cbn [spec world].
    rewrite call_quiet by done.
    destruct (Delete_never_raises v
                {| trace := trace w3 ++ [BenchmarkCleanup name]; log := log w3;
                   files := files w3; static_vm_pool := static_vm_pool w3 |})
      as (v' & w5 & ->). done. }
  destruct (teardown_runs v {| trace := trace w3 ++ [BenchmarkCleanup name]; log := log w3;
                               files := files w3; static_vm_pool := static_vm_pool w3 |})
    as (w5' & vm_calls & Et' & Fv & T5).
  rewrite Et in Et'. injection Et' as <-. cbn [trace] in T5.
  set (td := vm_calls ++ FirewallDisallowAllPorts (firewall v) ::
               ((fun zn => NetworkDelete zn.2) <$> map_to_list (networks v))) in *.
  assert (Forall is_teardown_call td) as Ftd.
  { unfold td. rewrite Forall_app, Forall_cons, Forall_fmap. split_and!; try done.
    by apply Forall_true. }
  (* the whole body *)
  assert (run_stages name (GetInfo benchmark) {| spec := None; world := w0 |} =
          (Ok (), {| spec := Some (set_deleted true v); world := w5 |})) as Erun.
  { unfold run_stages. rewrite Hp, Hr, Hc.
    rewrite (bind_Ok _ _ _ _ _ E1).
    assert ((v ← read_spec; lift (DoRunPhase name v)) {| spec := Some v; world := w2 |} =
            (Ok (), {| spec := Some v; world := w3 |})) as E2'.
    { unfold read_spec, lift, mbind, ST_bind. cbn. by rewrite E2. }
    by rewrite (bind_Ok _ _ _ _ _ E2'). }
  assert (add_timer_samples name {| spec := Some (set_deleted true v); world := w5 |} =
          (Ok (), {| spec := Some (set_deleted true v);
                     world := {| trace := (trace w5 ++ [CollectorAddSamples "end_to_end_timer" name])
                                          ++ [CollectorAddSamples "detailed_timer" name];
                                 log := log w5; files := files w5;
                                 static_vm_pool := static_vm_pool w5 |} |})) as Ea.
  { unfold add_timer_samples. rewrite Hs, bool_decide_eq_true_2 by done.
    unfold lift, mbind, ST_bind. cbn [spec world]. by rewrite !call_quiet. }
  unfold try_statement, try_finally, try_except.
  rewrite (bind_Ok _ _ _ _ _ Erun), Ea.
  unfold finally_clause. rewrite Hc. cbn [spec].
  unfold lift, assign_spec, mbind, ST_bind. cbn [spec world].
  rewrite Delete_guarded; [|cbn; by rewrite orb_true_r].
  eexists _, prov, td. split; [reflexivity|]. split; [|done].
  cbn [world trace]. rewrite T5, T2. unfold w2. cbn [trace].
  rewrite Tq. cbn [trace]. rewrite Ti, Tc. fold pre hooks.
  by rewrite <-!(assoc_L (++)).
Qed.

(** A spec that the constructor returned is found by [GetSpecFromFile]
    in any world whose file of that name holds its pickle. *)
Lemma constructed_spec_found info w s w1 wx :
  pickle_loads (pickle_dumps s) = Some s ->
  BenchmarkSpec_init info w = (Ok s, w1) ->
  files wx !! file_name s = Some (pickle_dumps s) ->
  GetSpecFromFile (info_name info) wx = (Ok s, wx).
Proof.
  intros Hrt (zs & mt & n & sd & l & nw & v & _ & _ & _ & _ & _ & _ & ->)%BenchmarkSpec_init_shape.
  cbn [file_name set_vms with_allocation fresh_spec]. intros Hf.
  unfold GetSpecFromFile, try_except, mbind, ST_bind. by rewrite Hf, Hrt.
Qed.

(** *** Static VMs *)

Lemma create_vms_pool indexes : forall self w l self' w',
  create_vms self indexes w = (Ok (l, self'), w') ->
  static_vm_pool w' = drop (length indexes) (static_vm_pool w).
Proof.
  induction indexes as [|index rest IH]; intros self w l self' w'.
  - by intros [= _ _ <-].
  - cbn [create_vms]. unfold mbind at 1, ST_bind at 1.
    destruct (py_getitem _ _) as [z0|]; [|done]. cbn.
    unfold mbind at 1, ST_bind at 1.
    destruct (CreateVirtualMachine self (Some z0) w) as [[[vm1 self1]|e] w1] eqn:E1; [|done].
    unfold mbind at 1, ST_bind at 1.
    destruct (create_vms self1 rest w1) as [[[l1 self2]|e] w2] eqn:E2; [|done].
    intros [= _ _ <-]. apply IH in E2.
    apply CreateVirtualMachine_Ok in E1 as (_ & _ & [Hp | (Hp & Hp1 & _)]).
    + by rewrite Hp, E2.
    + by rewrite E2, Hp, Hp1, !drop_nil.
Qed.

(** X23.  Static VMs are used before any VM is allocated from the
    provider: the VMs of a constructed spec begin with the static VMs of
    the pool, in the order of the pool and as many as are needed, each
    with its scratch disk specifications added, and exactly those have
    left the pool. *)
Theorem static_vms_first info w s w' :
  BenchmarkSpec_init info w = (Ok s, w') ->
  static_vm_pool w' = drop (Z.to_nat (num_vms s)) (static_vm_pool w) /\
  forall (i : nat) vm,
    static_vm_pool w !! i = Some vm -> (i < Z.to_nat (num_vms s))%nat ->
    vms s !! i = Some (add_scratch_disk_specs s (scratch_disk s) vm).
Proof.
  intros (zs & mt & n & sd & l & nw & v & _ & _ & _ & _ & _ & Ec & ->)%BenchmarkSpec_init_shape.
  pose proof (create_vms_pool _ _ _ _ _ _ Ec) as Hp.
  apply create_vms_Ok in Ec as (_ & _ & Hlen & Hl).
  rewrite length_seqZ in Hp, Hlen. cbn [num_vms set_vms with_allocation fresh_spec].
  split; [done|]. intros i vm Hi Hlt.
  cbn [vms set_vms scratch_disk with_allocation fresh_spec]. rewrite list_lookup_fmap.
  destruct (lookup_lt_is_Some_2 l i) as [vm' Hvm']; [lia|].
  rewrite Hvm'. cbn. f_equal.
  destruct (Hl i vm' Hvm') as [Hs | [Hge _]].
  - rewrite Hi in Hs. by injection Hs as ->.
  - apply lookup_lt_Some in Hi. lia.
Qed.

(** *** The run phase *)

Lemma for_each_call_app (l1 l2 : list Event) w :
  (for_each l1 call;; for_each l2 call) w = for_each (l1 ++ l2) call w.
Proof.
  revert w. induction l1 as [|e l1 IH]; intros w; [done|].
  cbn [for_each app]. specialize (IH (call e w).2). revert IH. unfold mbind, ST_bind.
  by destruct (call e w) as [[[]|x] w1].
Qed.

(** X24.  [DoRunPhase] calls the before-run hooks in the order of
    [BEFORE_RUN_HOOKS], then the [Run] hook of the benchmark, then adds
    the samples, and stops at the first call that raises: a hook that
    raises keeps the benchmark from running, and the samples of a
    benchmark whose [Run] raised are not added. *)
Theorem DoRunPhase_stops_at_first_failure name v w :
  let calls := ((fun hook => BeforeRunHook hook name) <$> BEFORE_RUN_HOOKS) ++
               [BenchmarkRun name; CollectorAddSamples "samples" name] in
  match DoRunPhase name v w with
  | (Ok _, w') => trace w' = trace w ++ calls
  | (Raise x, w') =>
      exists made e,
        trace w' = trace w ++ made ++ [e] /\
        (made ++ [e]) `prefix_of` calls /\
        raises (trace w ++ made) e = Some x
  end.
Proof.
  cbn zeta.
  assert (forall w0, DoRunPhase name v w0 =
            for_each (((fun hook => BeforeRunHook hook name) <$> BEFORE_RUN_HOOKS) ++
                      [BenchmarkRun name; CollectorAddSamples "samples" name]) call w0) as ->.
  { intros w0. rewrite <-for_each_call_app, for_each_fmap.
    unfold DoRunPhase, mbind, ST_bind.
    destruct (for_each _ _ w0) as [[[]|x] w1]; [|done]. cbn. unfold mbind, ST_bind.
    destruct (call (BenchmarkRun name) w1) as [[[]|x] w2]; [|done].
    by destruct (call _ w2) as [[[]|x] w3]. }
  apply for_each_call_stops.
Qed.

(** *** ListUnknownBenchmarks *)

Lemma str_le_trans a b c : str_le a b -> str_le b c -> str_le a c.
Proof.
  unfold str_le, String.leb. revert b c.
  induction a as [|x a IH]; intros [|y b] [|z c]; cbn; try done.
  unfold Ascii.compare.
  destruct (N.compare_spec (Ascii.N_of_ascii x) (Ascii.N_of_ascii y)) as [Hxy|Hxy|Hxy];
    destruct (N.compare_spec (Ascii.N_of_ascii y) (Ascii.N_of_ascii z)) as [Hyz|Hyz|Hyz];
    try done; intros H1 H2.
  - rewrite Hxy, Hyz, N.compare_refl. by eapply IH.
  - rewrite Hxy. by apply N.compare_lt_iff in Hyz as ->.
  - rewrite <-Hyz. by apply N.compare_lt_iff in Hxy as ->.
  - assert (Ascii.N_of_ascii x < Ascii.N_of_ascii z)%N as ->%N.compare_lt_iff; [|done].
    by etrans.
Qed.

#[local] Instance str_le_transitive : Transitive str_le.
Proof. intros a b c. apply str_le_trans. Qed.

#[local] Instance str_le_total : Total str_le.
Proof. intros a b. apply String.leb_total. Qed.

#[local] Instance str_le_antisymm : AntiSymm (=) str_le.
Proof. intros a b. apply String.leb_antisym. Qed.

(** X21.  [ListUnknownBenchmarks] returns, in increasing order and each
    once, exactly the names given in [FLAGS.benchmarks] that are neither
    the name of a benchmark nor the name of a benchmark set. *)
Theorem ListUnknownBenchmarks_lists_the_unknown {V} (BENCHMARKS : list Benchmark)
    (BENCHMARK_SETS : gmap string V) (FLAGS_benchmarks : list string) :
  let unknown := ListUnknownBenchmarks BENCHMARKS BENCHMARK_SETS FLAGS_benchmarks in
  (forall name,
     name ∈ unknown <->
     name ∈ FLAGS_benchmarks /\
     (forall benchmark, benchmark ∈ BENCHMARKS -> info_name (GetInfo benchmark) <> name) /\
     BENCHMARK_SETS !! name = None) /\
  NoDup unknown /\
  StronglySorted str_le unknown.
Proof.
  cbn zeta. unfold ListUnknownBenchmarks, sorted. split_and!.
  - intros name. rewrite merge_sort_Permutation, elem_of_elements, !elem_of_difference,
      !elem_of_list_to_set, list_elem_of_fmap, not_elem_of_dom.
    split.
    + intros [[H1 H2] H3]. split_and!; try done. intros b Hb Hn. apply H2. by exists b.
    + intros (H1 & H2 & H3). split_and!; try done. intros (b & -> & Hb). by apply (H2 b).
  - rewrite merge_sort_Permutation. apply NoDup_elements.
  - apply StronglySorted_merge_sort; apply _.
Qed.

(** X22.  The list is determined by its members: whatever the order in
    which the sets of names are traversed, a duplicate-free sorted list
    of the unknown names is the list [ListUnknownBenchmarks] returns. *)
Theorem ListUnknownBenchmarks_unique {V} (BENCHMARKS : list Benchmark)
    (BENCHMARK_SETS : gmap string V) (FLAGS_benchmarks l : list string) :
  NoDup l -> Sorted str_le l ->
  (forall name,
     name ∈ l <->
     name ∈ FLAGS_benchmarks /\
     (forall benchmark, benchmark ∈ BENCHMARKS -> info_name (GetInfo benchmark) <> name) /\
     BENCHMARK_SETS !! name = None) ->
  ListUnknownBenchmarks BENCHMARKS BENCHMARK_SETS FLAGS_benchmarks = l.
Proof.
  intros Hnd Hs Hl. unfold ListUnknownBenchmarks, sorted.
  apply (Sorted_unique str_le); [apply Sorted_merge_sort; apply _ | done |].
  rewrite merge_sort_Permutation. apply NoDup_Permutation; [apply NoDup_elements | done |].
  intros name. rewrite Hl, elem_of_elements, !elem_of_difference, !elem_of_list_to_set,
    list_elem_of_fmap, not_elem_of_dom.
  split.
  - intros [[H1 H2] H3]. split_and!; try done. intros b Hb Hn. apply H2. by exists b.
  - intros (H1 & H2 & H3). split_and!; try done. intros (b & -> & Hb). by apply (H2 b).
Qed.

End Model.

(** ** Two invocations *)

(** X20.  What a 'prepare' invocation provisions, a later 'cleanup'
    invocation tears down.  The two invocations have their own flags and
    share the temporary directory; the second one finds the files as the
    first one left them.  Whether the 'prepare' invocation failed after
    constructing its spec or not, and whatever the 'cleanup' invocation
    raises, the teardown of that very spec runs exactly once in the
    second invocation. *)
Theorem prepare_then_cleanup (flags_prepare flags_cleanup : Flags)
    (raises : list Event -> Event -> option Exn) (Blob : Type)
    (pickle_dumps : BenchmarkSpec -> Blob) (pickle_loads : Blob -> option BenchmarkSpec)
    (GetTempDir : string) (class_max_local_disks : VmClass -> string -> Z)
    (class_winrm_port class_smb_port class_ssh_port : VmClass -> option Z)
    (class_install_packages : VmClass -> bool) (BEFORE_RUN_HOOKS : list string)
    (benchmark : Benchmark) (w w0 w1 w2 w3 w4 w5 : World Blob)
    (v : BenchmarkSpec) (r r' : Result ()) :
  let name := info_name (GetInfo benchmark) in
  FLAGS_run_stage flags_prepare = STAGE_PREPARE ->
  FLAGS_run_stage flags_cleanup = STAGE_CLEANUP ->
  (forall s, pickle_loads (pickle_dumps s) = Some s) ->
  is_Some (info_scratch_disk (GetInfo benchmark)) ->
  is_Some (info_num_machines (GetInfo benchmark)) ->
  check_prereqs raises Blob benchmark name w = (Ok (), w0) ->
  BenchmarkSpec_init flags_prepare Blob GetTempDir class_max_local_disks
    class_winrm_port class_smb_port class_ssh_port class_install_packages
    (GetInfo benchmark) w0 = (Ok v, w1) ->
  RunBenchmark flags_prepare raises Blob pickle_dumps pickle_loads GetTempDir
    class_max_local_disks class_winrm_port class_smb_port class_ssh_port
    class_install_packages BEFORE_RUN_HOOKS benchmark w = (r, w2) ->
  files w3 = files w2 ->
  check_prereqs raises Blob benchmark name w3 = (Ok (), w4) ->
  RunBenchmark flags_cleanup raises Blob pickle_dumps pickle_loads GetTempDir
    class_max_local_disks class_winrm_port class_smb_port class_ssh_port
    class_install_packages BEFORE_RUN_HOOKS benchmark w3 = (r', w5) ->
  Forall no_teardown_call (calls_since Blob (length (trace w)) w2) /\
  torn_down_once raises Blob v w3 w5.
Proof.
  intros name Hp Hc Hrt Hsd Hnm Ec1 Ei Er1 Hfiles Ec2 Er2.
  assert (STAGE_in flags_prepare [STAGE_ALL; STAGE_CLEANUP] = false /\
          STAGE_in flags_prepare [STAGE_ALL; STAGE_PREPARE] = true) as [Hpc Hpp].
  { unfold STAGE_in. by rewrite Hp. }
  assert (STAGE_in flags_cleanup [STAGE_ALL; STAGE_CLEANUP] = true /\
          STAGE_in flags_cleanup [STAGE_ALL; STAGE_PREPARE] = false) as [Hcc Hcp].
  { unfold STAGE_in. by rewrite Hc. }
  (* the 'prepare' invocation *)
  destruct (RunBenchmark_at flags_prepare raises Blob pickle_dumps pickle_loads GetTempDir
              class_max_local_disks class_winrm_port class_smb_port class_ssh_port
              class_install_packages BEFORE_RUN_HOOKS benchmark w w0 Hsd Hnm Ec1)
    as (Eq1 & _ & pre1 & T1 & F1).
  rewrite Eq1 in Er1.
  destruct (try_statement_persists flags_prepare raises Blob pickle_dumps pickle_loads
              GetTempDir class_max_local_disks class_winrm_port class_smb_port
              class_ssh_port class_install_packages BEFORE_RUN_HOOKS
              name (GetInfo benchmark) w0 v w1 r w2 Hpc)
    as (Hf2 & prov & calls & T2 & Fp & Fb & _);
    [by rewrite Hpp | done |].
  split.
  { unfold calls_since. rewrite T2, T1, <-(assoc_L (++)), drop_app_length, !Forall_app.
    split_and!; try done;
      (eapply Forall_impl; [eassumption | apply benchmark_call_is_no_teardown]). }
  (* the 'cleanup' invocation *)
  destruct (RunBenchmark_at flags_cleanup raises Blob pickle_dumps pickle_loads GetTempDir
              class_max_local_disks class_winrm_port class_smb_port class_ssh_port
              class_install_packages BEFORE_RUN_HOOKS benchmark w3 w4 Hsd Hnm Ec2)
    as (Eq2 & Hf4 & pre2 & T4 & F4).
  rewrite Eq2 in Er2.
  assert (GetSpecFromFile Blob pickle_loads GetTempDir name w4 = (Ok v, w4)) as Eg.
  { eapply constructed_spec_found; [apply Hrt | exact Ei |].
    by rewrite Hf4, Hfiles, Hf2, lookup_insert_eq. }
  eapply torn_down_once_after; [exact T4 | |].
  { eapply Forall_impl; [exact F4 | apply benchmark_call_is_no_teardown]. }
  eapply (try_statement_tears_down flags_cleanup); [exact Hcc | | exact Er2].
  rewrite Hcp. exact Eg.
Qed.

(** ** The statements on concrete inputs *)

(** A run of the constructor on the example flags: five VMs over the zones
    [a] and [b] are placed in [a, b, b, b, b], each VM gets two disk
    specifications, and with eight local disks the striping factor of each
    is four. *)
Example construction_example :
  exists s w',
    BenchmarkSpec_init (Ex.flags STAGE_ALL) BenchmarkSpec Ex.tmp
      Ex.eight_local_disks Ex.no_port Ex.no_port Ex.port_22
      Ex.installs_packages Ex.info Ex.world0 = (Ok s, w') /\
    vm_zone <$> vms s = ["a"; "b"; "b"; "b"; "b"] /\
    dom (networks s) = {["a"; "b"]} /\
    Forall (fun vm => num_striped_disks <$> disk_specs vm = [4; 4]) (vms s).
Proof.
  eexists _, _. split; [vm_compute; reflexivity|].
  split; [reflexivity|]. split; [by vm_compute|].
  repeat constructor.
Qed.

(** Witness of C2: every call raises, and the teardown still goes through
    the firewall and both networks. *)
Lemma Delete_partial_teardown_witness :
  FLAGS_run_stage (Ex.flags STAGE_ALL) ∈ [STAGE_ALL; STAGE_CLEANUP] /\
  deleted (Ex.two_vm_spec false) = false /\
  exists self' w' vm_calls,
    Delete (Ex.flags STAGE_ALL) Ex.always_raises BenchmarkSpec
      (Ex.two_vm_spec false) Ex.world0 = (Ok self', w') /\
    deleted self' = true /\
    trace w' =
      trace Ex.world0 ++ vm_calls ++
        FirewallDisallowAllPorts (firewall (Ex.two_vm_spec false)) ::
        ((fun zn : string * Network => NetworkDelete zn.2) <$>
           map_to_list (networks (Ex.two_vm_spec false))) /\
    (forall zone network,
        networks (Ex.two_vm_spec false) !! zone = Some network ->
        NetworkDelete network ∈
          calls_since BenchmarkSpec (length (trace Ex.world0 ++ vm_calls)) w').
Proof.
  split; [apply list_elem_of_here|]. split; [reflexivity|].
  apply (Delete_partial_teardown (Ex.flags STAGE_ALL) Ex.always_raises
           BenchmarkSpec (Ex.two_vm_spec false) Ex.world0).
  - apply list_elem_of_here.
  - reflexivity.
Defined.

(** Witness of C9: a 'prepare' invocation. *)
Lemma Delete_skipped_witness :
  Delete (Ex.flags STAGE_PREPARE) Ex.never_raises BenchmarkSpec
    (Ex.two_vm_spec false) Ex.world0 = (Ok (Ex.two_vm_spec false), Ex.world0).
Proof.
  apply (Delete_skipped_outside_cleanup_stages (Ex.flags STAGE_PREPARE)
           Ex.never_raises BenchmarkSpec (Ex.two_vm_spec false) Ex.world0);
    discriminate.
Defined.

(** Counterexample to C6: with the remote-shell port set, the firewall
    port is opened and the metadata applied before the wait for boot
    completion, not after it. *)
Lemma PrepareVm_opens_ports_before_waiting :
  let vm := Ex.vm_in "a" Ex.network_a in
  let run := PrepareVm (Ex.flags STAGE_ALL) Ex.never_raises BenchmarkSpec
               (Ex.two_vm_spec false) vm Ex.gce_firewall Ex.world0 in
  run.1 = Ok () /\
  trace run.2 =
    [VmCreate vm; FirewallAllowPort Ex.gce_firewall vm (Some 22);
     VmAddMetadata vm "iperf"; VmWaitForBootCompletion vm; VmStartup vm;
     VmSetupLocalDisks vm] /\
  trace run.2 <>
    spec_PrepareVm_calls (Ex.flags STAGE_ALL) (Ex.two_vm_spec false) vm
      Ex.gce_firewall.
Proof. split; [reflexivity|]. split; [reflexivity|]. discriminate. Qed.

(** Counterexample to C4.  With a static VM in the pool, the zones [a, b]
    and five VMs give the assignment [lab, b, b, b, b], not the
    [a, b, b, b, b] of the claim: the first VM is the static one and is
    where it is.  With the zones [a, '', c] and three VMs the second VM
    is in zone [a], not in the zone of index 1. *)
Lemma zone_of_a_static_vm_or_of_an_empty_name :
  (exists s w',
     BenchmarkSpec_init (Ex.flags STAGE_ALL) BenchmarkSpec Ex.tmp
       Ex.eight_local_disks Ex.no_port Ex.no_port Ex.port_22
       Ex.installs_packages Ex.info Ex.world_with_static_vm = (Ok s, w') /\
     zones s = ["a"; "b"] /\
     vm_zone <$> vms s = ["lab"; "b"; "b"; "b"; "b"] /\
     vm_zone <$> vms s <> ["a"; "b"; "b"; "b"; "b"]) /\
  (exists s w' vm,
     BenchmarkSpec_init Ex.empty_zone_flags BenchmarkSpec Ex.tmp
       Ex.eight_local_disks Ex.no_port Ex.no_port Ex.port_22
       Ex.installs_packages Ex.info Ex.world0 = (Ok s, w') /\
     zones s = ["a"; ""; "c"] /\
     vm_zone <$> vms s = ["a"; "a"; "c"] /\
     vms s !! 1%nat = Some vm /\
     zones s !! (1 `min` (length (zones s) - 1))%nat <> Some (vm_zone vm)).
Proof.
  split.
  - eexists _, _. split; [vm_compute; reflexivity|].
    split; [reflexivity|]. split; [reflexivity|]. discriminate.
  - eexists _, _, _. split; [vm_compute; reflexivity|].
    split; [reflexivity|]. split; [reflexivity|]. split; [reflexivity|]. discriminate.
Qed.

(** Witness of C4 as amended: one static VM in the pool, the zones
    [a, b] and five VMs. *)
Lemma zone_assignment_witness :
  exists s w',
    BenchmarkSpec_init (Ex.flags STAGE_ALL) BenchmarkSpec Ex.tmp
      Ex.eight_local_disks Ex.no_port Ex.no_port Ex.port_22
      Ex.installs_packages Ex.info Ex.world_with_static_vm = (Ok s, w') /\
    exists zs,
      zs = ["a"; "b"] /\
      zones s = zs /\
      length (vms s) = Z.to_nat 5 /\
      forall i : nat, (i < length (vms s))%nat ->
        exists vm z,
          vms s !! i = Some vm /\
          zs !! (i `min` (length zs - 1))%nat = Some z /\
          match static_vm_pool Ex.world_with_static_vm !! i with
          | Some static_vm => vm_zone vm = vm_zone static_vm
          | None => Some (vm_zone vm) = str_or (Some z) (zs !! 0%nat)
          end.
Proof.
  eexists _, _. split; [vm_compute; reflexivity|].
  eapply (zone_assignment (Ex.flags STAGE_ALL) BenchmarkSpec Ex.tmp
           Ex.eight_local_disks Ex.no_port Ex.no_port Ex.port_22
           Ex.installs_packages Ex.info Ex.world_with_static_vm).
  vm_compute; reflexivity.
Defined.

(** Witness of C7: two scratch disks and eight local disks. *)
Lemma striping_default_witness :
  exists s w',
    BenchmarkSpec_init (Ex.flags STAGE_ALL) BenchmarkSpec Ex.tmp
      Ex.eight_local_disks Ex.no_port Ex.no_port Ex.port_22
      Ex.installs_packages Ex.info Ex.world0 = (Ok s, w') /\
    forall vm, vm ∈ vms s ->
      exists old new,
        disk_specs vm = old ++ new /\
        length new = Z.to_nat 2 /\
        Forall (fun d => num_striped_disks d = max_local_disks vm / 2) new.
Proof.
  eexists _, _. split; [vm_compute; reflexivity|].
  eapply (striping_default (Ex.flags STAGE_ALL) BenchmarkSpec Ex.tmp
           Ex.eight_local_disks Ex.no_port Ex.no_port Ex.port_22
           Ex.installs_packages Ex.info Ex.world0 _ _ 2).
  - vm_compute; reflexivity.
  - reflexivity.
  - reflexivity.
  - reflexivity.
  - lia.
Defined.

(** Counterexample to C8: on AWS, whose table has no default image, and
    without [--image], the constructor returns a spec (whose image is
    [None]); it does not raise. *)
Lemma aws_without_image_is_constructed :
  (exists s w',
     BenchmarkSpec_init Ex.aws_flags BenchmarkSpec Ex.tmp
       Ex.eight_local_disks Ex.no_port Ex.no_port Ex.port_22
       Ex.installs_packages Ex.info Ex.world0 = (Ok s, w') /\
     image s = None) /\
  ~ (exists e w',
       BenchmarkSpec_init Ex.aws_flags BenchmarkSpec Ex.tmp
         Ex.eight_local_disks Ex.no_port Ex.no_port Ex.port_22
         Ex.installs_packages Ex.info Ex.world0 = (Raise e, w')).
Proof.
  split.
  - eexists _, _. split; [vm_compute; reflexivity | reflexivity].
  - intros (e & w' & H). vm_compute in H. discriminate H.
Qed.

(** Witness of C8 as amended, on the same input. *)
Lemma image_precedence_witness :
  exists s w',
    BenchmarkSpec_init Ex.aws_flags BenchmarkSpec Ex.tmp
      Ex.eight_local_disks Ex.no_port Ex.no_port Ex.port_22
      Ex.installs_packages Ex.info Ex.world0 = (Ok s, w') /\
    image s = None.
Proof.
  apply (image_precedence Ex.aws_flags BenchmarkSpec Ex.tmp
           Ex.eight_local_disks Ex.no_port Ex.no_port Ex.port_22
           Ex.installs_packages Ex.info Ex.world0
           DebianBasedAwsVirtualMachine 2 None); reflexivity.
Defined.

(** Witness of C5: a spec that was already deleted, with [pickle] the
    identity on specs. *)
Lemma pickle_roundtrip_witness :
  exists w1 loaded,
    PickleSpec BenchmarkSpec id (Ex.two_vm_spec true) Ex.world0 = (Ok (), w1) /\
    GetSpecFromFile BenchmarkSpec Some Ex.tmp "iperf" w1 = (Ok loaded, w1) /\
    deleted loaded = false /\
    vms loaded = vms (Ex.two_vm_spec true) /\
    networks loaded = networks (Ex.two_vm_spec true) /\
    firewall loaded = firewall (Ex.two_vm_spec true).
Proof.
  destruct (pickle_roundtrip (Ex.flags STAGE_ALL) Ex.never_raises BenchmarkSpec
              id Some Ex.tmp (Ex.two_vm_spec true) Ex.world0)
    as (w1 & loaded & Hp & Hg & _ & Hd & Hv & Hn & Hf & _ & _ & _).
  - intros s. reflexivity.
  - reflexivity.
  - exists w1, loaded. repeat split; assumption.
Defined.

(** Witness of C10: a 'prepare' invocation for Windows on DigitalOcean,
    where the constructor raises [errors.Error]; what [RunBenchmark] raises
    is the AttributeError. *)
Lemma finally_dereferences_None_witness :
  exists w',
    RunBenchmark Ex.digitalocean_windows_flags Ex.never_raises BenchmarkSpec
      id Some Ex.tmp Ex.eight_local_disks Ex.no_port Ex.no_port Ex.port_22
      Ex.installs_packages [] Ex.iperf Ex.world0 =
      (Raise (NoneType_has_no "PickleSpec"), w') /\
    trace w' = trace Ex.world0.
Proof.
  apply (finally_dereferences_None Ex.digitalocean_windows_flags Ex.never_raises
           BenchmarkSpec id Some Ex.tmp Ex.eight_local_disks Ex.no_port
           Ex.no_port Ex.port_22 Ex.installs_packages [] Ex.iperf
           Ex.world0 Ex.world0
           (errors_Error (unsupported_os_type DIGITALOCEAN WINDOWS))
           Ex.world0).
  - by eexists.
  - by eexists.
  - reflexivity.
  - left. split; [reflexivity | vm_compute; reflexivity].
Defined.

(** Counterexample to C3: an 'all' invocation in which the [Run] hook
    raises.  [RunBenchmark] raises that exception and the firewall of the
    spec has been torn down after the hook was called, but the benchmark's
    [Cleanup] hook has not been called. *)
Lemma Cleanup_hook_skipped_when_Run_raises :
  let run := RunBenchmark (Ex.flags STAGE_ALL) Ex.Run_raises BenchmarkSpec
               id Some Ex.tmp Ex.eight_local_disks Ex.no_port Ex.no_port
               Ex.port_22 Ex.installs_packages [] Ex.iperf Ex.world0 in
  run.1 = Raise (External "run failed") /\
  BenchmarkRun "iperf" ∈ trace run.2 /\
  FirewallDisallowAllPorts Ex.gce_firewall ∈ trace run.2 /\
  BenchmarkCleanup "iperf" ∉ trace run.2.
Proof.
  split; [vm_compute; reflexivity|].
  repeat split; apply (bool_decide_unpack _); vm_compute; exact I.
Qed.

(** Witness of C3 as amended, on the same run. *)
Lemma cleanup_on_exception_witness :
  let run := RunBenchmark (Ex.flags STAGE_ALL) Ex.Run_raises BenchmarkSpec
               id Some Ex.tmp Ex.eight_local_disks Ex.no_port Ex.no_port
               Ex.port_22 Ex.installs_packages [] Ex.iperf Ex.world0 in
  run.1 = Raise (External "run failed") /\
  (forall n, BenchmarkCleanup n ∉ calls_since BenchmarkSpec 0 run.2) /\
  exists w0 v wc w1,
    check_prereqs Ex.Run_raises BenchmarkSpec Ex.iperf "iperf" Ex.world0 = (Ok (), w0) /\
    BenchmarkSpec_init (Ex.flags STAGE_ALL) BenchmarkSpec Ex.tmp
      Ex.eight_local_disks Ex.no_port Ex.no_port Ex.port_22
      Ex.installs_packages Ex.info w0 = (Ok v, wc) /\
    BenchmarkRun "iperf" ∈ calls_since BenchmarkSpec 0 w1 /\
    deleted v = false /\
    Delete (Ex.flags STAGE_ALL) Ex.Run_raises BenchmarkSpec v w1 =
      (Ok (set_deleted true v), run.2).
Proof.
  apply (cleanup_on_exception (Ex.flags STAGE_ALL) Ex.Run_raises BenchmarkSpec
           id Some Ex.tmp Ex.eight_local_disks Ex.no_port Ex.no_port
           Ex.port_22 Ex.installs_packages [] Ex.iperf Ex.world0).
  - reflexivity.
  - intros history. reflexivity.
  - apply surjective_pairing.
  - apply (bool_decide_unpack _). vm_compute. exact I.
Defined.

(** Two calls of [Delete] in a row in an 'all' invocation where every call
    on a handle raises: the first call tries every handle (the VMs, then
    the firewall, then the networks), the second adds nothing. *)
Example Delete_twice_example :
  let first := Delete (Ex.flags STAGE_ALL) Ex.always_raises BenchmarkSpec
                 (Ex.two_vm_spec false) Ex.world0 in
  let second := Delete (Ex.flags STAGE_ALL) Ex.always_raises BenchmarkSpec
                  (Ex.two_vm_spec true) first.2 in
  first.1 = Ok (Ex.two_vm_spec true) /\
  (exists vm_calls network_calls,
     trace first.2 =
       vm_calls ++ [FirewallDisallowAllPorts Ex.gce_firewall] ++ network_calls /\
     vm_calls ≡ₚ [VmDelete (Ex.vm_in "a" Ex.network_a);
                  VmDelete (Ex.vm_in "b" Ex.network_b)] /\
     network_calls ≡ₚ [NetworkDelete Ex.network_a; NetworkDelete Ex.network_b]) /\
  second = (Ok (Ex.two_vm_spec true), first.2).
Proof.
  split; [by vm_compute|]. split; [|by vm_compute].
  exists [VmDelete (Ex.vm_in "a" Ex.network_a); VmDelete (Ex.vm_in "b" Ex.network_b)],
         [NetworkDelete Ex.network_a; NetworkDelete Ex.network_b].
  split; [by vm_compute | done].
Qed.

(** A 'run' invocation without a pickled spec: unpickling raises an
    IOError, and [RunBenchmark] raises the AttributeError of the [finally]
    clause. *)
Example run_without_pickled_spec :
  (RunBenchmark (Ex.flags STAGE_RUN) Ex.never_raises BenchmarkSpec
     id Some Ex.tmp Ex.eight_local_disks Ex.no_port Ex.no_port Ex.port_22
     Ex.installs_packages [] Ex.iperf Ex.world0).1 =
    Raise (NoneType_has_no "PickleSpec") /\
  (GetSpecFromFile BenchmarkSpec Some Ex.tmp "iperf" Ex.world0).1 =
    Raise (IOError "/tmp/perfkitbenchmarker/run_1234/iperf").
Proof. by vm_compute. Qed.

(** ** The further properties on concrete inputs *)

(** Witness of X3: every call raises, so the network of zone [a] does. *)
Lemma Prepare_network_failure_witness :
  exists e,
    (Prepare (Ex.flags STAGE_ALL) Ex.always_raises BenchmarkSpec
       (Ex.two_vm_spec false) Ex.world0).1 = Raise e /\
    exists network_calls,
      trace (Prepare (Ex.flags STAGE_ALL) Ex.always_raises BenchmarkSpec
               (Ex.two_vm_spec false) Ex.world0).2 =
        trace Ex.world0 ++ network_calls /\
      Forall is_network_create network_calls.
Proof.
  apply (Prepare_network_failure (Ex.flags STAGE_ALL) Ex.always_raises BenchmarkSpec
           (Ex.two_vm_spec false) Ex.world0 "a" Ex.network_a).
  - vm_compute; reflexivity.
  - intros history. by eexists.
Defined.

(** Witness of X4: the networks are created, the creation of a VM raises. *)
Lemma Prepare_vm_failure_witness :
  exists e,
    (Prepare (Ex.flags STAGE_ALL) Ex.VmCreate_raises BenchmarkSpec
       (Ex.two_vm_spec false) Ex.world0).1 = Raise e /\
    forall l,
      GenerateSSHConfig l ∉
        drop (length (trace Ex.world0))
          (trace (Prepare (Ex.flags STAGE_ALL) Ex.VmCreate_raises BenchmarkSpec
                    (Ex.two_vm_spec false) Ex.world0).2).
Proof.
  apply (Prepare_vm_failure (Ex.flags STAGE_ALL) Ex.VmCreate_raises BenchmarkSpec
           (Ex.two_vm_spec false) Ex.world0 (Ex.vm_in "a" Ex.network_a)).
  - apply list_elem_of_here.
  - intros history. by eexists.
Defined.

(** Witness of X6, on the constructor run of [construction_example]. *)
Lemma constructed_networks_witness :
  exists s w',
    BenchmarkSpec_init (Ex.flags STAGE_ALL) BenchmarkSpec Ex.tmp
      Ex.eight_local_disks Ex.no_port Ex.no_port Ex.port_22
      Ex.installs_packages Ex.info Ex.world0 = (Ok s, w') /\
    (forall zone network,
       networks s !! zone = Some network ->
       network = {| net_class := CLASSES_NETWORK (cloud s); net_zone := zone |} /\
       exists (i : nat) vm,
         vms s !! i = Some vm /\ (length (static_vm_pool Ex.world0) <= i)%nat /\
         vm_zone vm = zone) /\
    (forall (i : nat) vm,
       vms s !! i = Some vm -> (length (static_vm_pool Ex.world0) <= i)%nat ->
       is_Some (vm_network vm) /\ vm_network vm = networks s !! vm_zone vm).
Proof.
  eexists _, _. split; [vm_compute; reflexivity|].
  eapply (constructed_networks (Ex.flags STAGE_ALL) BenchmarkSpec Ex.tmp
            Ex.eight_local_disks Ex.no_port Ex.no_port Ex.port_22
            Ex.installs_packages Ex.info Ex.world0).
  vm_compute; reflexivity.
Defined.

(** Witness of X7. *)
Lemma constructed_disk_specs_witness :
  exists s w',
    BenchmarkSpec_init (Ex.flags STAGE_ALL) BenchmarkSpec Ex.tmp
      Ex.eight_local_disks Ex.no_port Ex.no_port Ex.port_22
      Ex.installs_packages Ex.info Ex.world0 = (Ok s, w') /\
    info_scratch_disk Ex.info = Some (scratch_disk s) /\
    forall (i : nat) vm, vms s !! i = Some vm ->
      exists old new,
        disk_specs vm = old ++ new /\
        ((length (static_vm_pool Ex.world0) <= i)%nat -> old = []) /\
        mount_point <$> new =
          (fun k => "/scratch" +:+ pretty k) <$> seqZ 0 (scratch_disk s) /\
        NoDup (mount_point <$> new) /\
        Forall (fun d => disk_size d = FLAGS_scratch_disk_size (Ex.flags STAGE_ALL) /\
                         disk_type d = FLAGS_scratch_disk_type (Ex.flags STAGE_ALL) /\
                         iops d = FLAGS_scratch_disk_iops (Ex.flags STAGE_ALL)) new.
Proof.
  eexists _, _. split; [vm_compute; reflexivity|].
  eapply (constructed_disk_specs (Ex.flags STAGE_ALL) BenchmarkSpec Ex.tmp
            Ex.eight_local_disks Ex.no_port Ex.no_port Ex.port_22
            Ex.installs_packages Ex.info Ex.world0).
  vm_compute; reflexivity.
Defined.

(** Witness of X8: on AWS the scratch disks are of type 'standard', not
    local. *)
Lemma explicit_striping_witness :
  exists s w',
    BenchmarkSpec_init Ex.aws_flags BenchmarkSpec Ex.tmp
      Ex.eight_local_disks Ex.no_port Ex.no_port Ex.port_22
      Ex.installs_packages Ex.info Ex.world0 = (Ok s, w') /\
    forall vm, vm ∈ vms s ->
      exists old new,
        disk_specs vm = old ++ new /\
        length new = Z.to_nat (scratch_disk s) /\
        Forall (fun d => num_striped_disks d = FLAGS_num_striped_disks Ex.aws_flags) new.
Proof.
  eexists _, _. split; [vm_compute; reflexivity|].
  eapply (explicit_striping Ex.aws_flags BenchmarkSpec Ex.tmp
            Ex.eight_local_disks Ex.no_port Ex.no_port Ex.port_22
            Ex.installs_packages Ex.info Ex.world0).
  - vm_compute; reflexivity.
  - left. discriminate.
Defined.




(** Witness of X12, with [pickle] the identity on specs. *)
Lemma constructed_spec_round_trip_witness :
  exists s w1,
    BenchmarkSpec_init (Ex.flags STAGE_ALL) BenchmarkSpec Ex.tmp
      Ex.eight_local_disks Ex.no_port Ex.no_port Ex.port_22
      Ex.installs_packages Ex.info Ex.world0 = (Ok s, w1) /\
    exists w2,
      PickleSpec BenchmarkSpec id s w1 = (Ok (), w2) /\
      GetSpecFromFile BenchmarkSpec Some Ex.tmp (info_name Ex.info) w2 = (Ok s, w2).
Proof.
  eexists _, _. split; [vm_compute; reflexivity|].
  eapply (constructed_spec_round_trip (Ex.flags STAGE_ALL) BenchmarkSpec id Some Ex.tmp
            Ex.eight_local_disks Ex.no_port Ex.no_port Ex.port_22
            Ex.installs_packages Ex.info Ex.world0).
  - intros v. reflexivity.
  - vm_compute; reflexivity.
Defined.

(** Witness of X13. *)
Lemma pickle_files_per_benchmark_witness :
  (GetSpecFromFile BenchmarkSpec Some Ex.tmp (benchmark_name (Ex.two_vm_spec true))
     (PickleSpec BenchmarkSpec id (Ex.two_vm_spec true)
        (PickleSpec BenchmarkSpec id (Ex.two_vm_spec false) Ex.world0).2).2).1 =
    Ok (set_deleted false (Ex.two_vm_spec true)).
Proof.
  refine (proj1 (pickle_files_per_benchmark BenchmarkSpec id Some Ex.tmp
                   (Ex.two_vm_spec false) (Ex.two_vm_spec true) Ex.world0 _ _ _)).
  - intros v. reflexivity.
  - reflexivity.
  - reflexivity.
Defined.

(** Witness of X14: benchmark information without [scratch_disk]. *)
Lemma invalid_benchmark_is_skipped_witness :
  exists w',
    RunBenchmark (Ex.flags STAGE_ALL) Ex.always_raises BenchmarkSpec
      id Some Ex.tmp Ex.eight_local_disks Ex.no_port Ex.no_port Ex.port_22
      Ex.installs_packages [] Ex.broken Ex.world0 = (Ok (), w') /\
    trace w' = trace Ex.world0 /\ files w' = files Ex.world0 /\
    static_vm_pool w' = static_vm_pool Ex.world0 /\
    length (log w') = S (length (log Ex.world0)).
Proof.
  apply (invalid_benchmark_is_skipped (Ex.flags STAGE_ALL) Ex.always_raises BenchmarkSpec
           id Some Ex.tmp Ex.eight_local_disks Ex.no_port Ex.no_port Ex.port_22
           Ex.installs_packages [] Ex.broken Ex.world0).
  left. reflexivity.
Defined.

(** Witness of X15: the prerequisite check raises. *)
Lemma prerequisite_failure_aborts_witness :
  exists w',
    RunBenchmark (Ex.flags STAGE_ALL) Ex.always_raises BenchmarkSpec
      id Some Ex.tmp Ex.eight_local_disks Ex.no_port Ex.no_port Ex.port_22
      Ex.installs_packages [] Ex.checked_iperf Ex.world0 =
      (Raise (External "boom"), w') /\
    trace w' = trace Ex.world0 ++ [CheckPrerequisites (info_name (GetInfo Ex.checked_iperf))] /\
    files w' = files Ex.world0 /\
    static_vm_pool w' = static_vm_pool Ex.world0.
Proof.
  apply (prerequisite_failure_aborts (Ex.flags STAGE_ALL) Ex.always_raises BenchmarkSpec
           id Some Ex.tmp Ex.eight_local_disks Ex.no_port Ex.no_port Ex.port_22
           Ex.installs_packages [] Ex.checked_iperf Ex.world0 (External "boom")).
  - by eexists.
  - by eexists.
  - reflexivity.
  - reflexivity.
Defined.

(** Witness of X16: an 'all' invocation in which the [Run] hook raises. *)
Lemma resources_torn_down_once_witness :
  exists v,
    torn_down_once Ex.Run_raises BenchmarkSpec v Ex.world0
      (RunBenchmark (Ex.flags STAGE_ALL) Ex.Run_raises BenchmarkSpec
         id Some Ex.tmp Ex.eight_local_disks Ex.no_port Ex.no_port Ex.port_22
         Ex.installs_packages [] Ex.iperf Ex.world0).2.
Proof.
  eexists.
  eapply (resources_torn_down_once (Ex.flags STAGE_ALL) Ex.Run_raises BenchmarkSpec
            id Some Ex.tmp Ex.eight_local_disks Ex.no_port Ex.no_port Ex.port_22
            Ex.installs_packages [] Ex.iperf Ex.world0 Ex.world0).
  - apply list_elem_of_here.
  - by eexists.
  - by eexists.
  - reflexivity.
  - vm_compute; reflexivity.
  - apply surjective_pairing.
Defined.

(** Witness of X17: a 'prepare' invocation in which the creation of the
    VMs raises. *)
Lemma spec_persisted_outside_cleanup_witness :
  exists v,
    files (RunBenchmark (Ex.flags STAGE_PREPARE) Ex.VmCreate_raises BenchmarkSpec
             id Some Ex.tmp Ex.eight_local_disks Ex.no_port Ex.no_port Ex.port_22
             Ex.installs_packages [] Ex.iperf Ex.world0).2 =
      <[file_name v := v]> (files Ex.world0) /\
    Forall no_teardown_call
      (calls_since BenchmarkSpec (length (trace Ex.world0))
         (RunBenchmark (Ex.flags STAGE_PREPARE) Ex.VmCreate_raises BenchmarkSpec
            id Some Ex.tmp Ex.eight_local_disks Ex.no_port Ex.no_port Ex.port_22
            Ex.installs_packages [] Ex.iperf Ex.world0).2).
Proof.
  eexists.
  refine (let H := spec_persisted_outside_cleanup (Ex.flags STAGE_PREPARE)
                     Ex.VmCreate_raises BenchmarkSpec
                     id Some Ex.tmp Ex.eight_local_disks Ex.no_port Ex.no_port Ex.port_22
                     Ex.installs_packages [] Ex.iperf Ex.world0 Ex.world0 _ _ _ _
                     _ _ _ _ _ _ in conj (proj1 H) (proj1 (proj2 H))).
  - apply list_elem_of_here.
  - by eexists.
  - by eexists.
  - reflexivity.
  - vm_compute; reflexivity.
  - apply surjective_pairing.
Defined.

(** Witness of X18: a 'cleanup' invocation without a pickled spec. *)
Lemma first_failure_propagates_witness :
  exists w1,
    GetSpecFromFile BenchmarkSpec Some Ex.tmp (info_name (GetInfo Ex.iperf)) Ex.world0 =
      (Raise (IOError "/tmp/perfkitbenchmarker/run_1234/iperf"), w1) /\
    exists w',
      RunBenchmark (Ex.flags STAGE_CLEANUP) Ex.never_raises BenchmarkSpec
        id Some Ex.tmp Ex.eight_local_disks Ex.no_port Ex.no_port Ex.port_22
        Ex.installs_packages [] Ex.iperf Ex.world0 =
        (Raise (IOError "/tmp/perfkitbenchmarker/run_1234/iperf"), w') /\
      trace w' = trace Ex.world0 /\ files w' = files Ex.world0 /\
      log w' = log w1 ++ ["Error during benchmark " +:+ info_name (GetInfo Ex.iperf)].
Proof.
  eexists. split; [vm_compute; reflexivity|].
  eapply (first_failure_propagates (Ex.flags STAGE_CLEANUP) Ex.never_raises BenchmarkSpec
            id Some Ex.tmp Ex.eight_local_disks Ex.no_port Ex.no_port Ex.port_22
            Ex.installs_packages [] Ex.iperf Ex.world0 Ex.world0).
  - apply list_elem_of_further, list_elem_of_here.
  - by eexists.
  - by eexists.
  - reflexivity.
  - vm_compute; reflexivity.
Defined.

(** Witness of X19: an 'all' invocation with one before-run hook in which
    nothing raises. *)
Lemma all_stages_in_order_witness :
  exists w' provisioning teardown_calls,
    RunBenchmark (Ex.flags STAGE_ALL) Ex.never_raises BenchmarkSpec
      id Some Ex.tmp Ex.eight_local_disks Ex.no_port Ex.no_port Ex.port_22
      Ex.installs_packages ["drop_caches"] Ex.checked_iperf Ex.world0 = (Ok (), w') /\
    trace w' =
      trace Ex.world0 ++
      [CheckPrerequisites "iperf"] ++
      provisioning ++
      [BenchmarkPrepare "iperf"] ++
      [BeforeRunHook "drop_caches" "iperf"] ++
      [BenchmarkRun "iperf"; CollectorAddSamples "samples" "iperf";
       BenchmarkCleanup "iperf"] ++
      teardown_calls ++
      [CollectorAddSamples "end_to_end_timer" "iperf";
       CollectorAddSamples "detailed_timer" "iperf"] /\
    Forall is_provisioning_call provisioning /\
    Forall is_teardown_call teardown_calls.
Proof.
  eapply (all_stages_in_order (Ex.flags STAGE_ALL) Ex.never_raises BenchmarkSpec
            id Some Ex.tmp Ex.eight_local_disks Ex.no_port Ex.no_port Ex.port_22
            Ex.installs_packages ["drop_caches"] Ex.checked_iperf Ex.world0).
  - reflexivity.
  - intros history e. reflexivity.
  - by eexists.
  - by eexists.
  - vm_compute; reflexivity.
Defined.

(** Witness of X20: a 'prepare' invocation in which the creation of the
    VMs raises, followed by a 'cleanup' invocation. *)
Lemma prepare_then_cleanup_witness :
  exists v,
    torn_down_once Ex.VmCreate_raises BenchmarkSpec v
      (RunBenchmark (Ex.flags STAGE_PREPARE) Ex.VmCreate_raises BenchmarkSpec
         id Some Ex.tmp Ex.eight_local_disks Ex.no_port Ex.no_port Ex.port_22
         Ex.installs_packages [] Ex.iperf Ex.world0).2
      (RunBenchmark (Ex.flags STAGE_CLEANUP) Ex.VmCreate_raises BenchmarkSpec
         id Some Ex.tmp Ex.eight_local_disks Ex.no_port Ex.no_port Ex.port_22
         Ex.installs_packages [] Ex.iperf
         (RunBenchmark (Ex.flags STAGE_PREPARE) Ex.VmCreate_raises BenchmarkSpec
            id Some Ex.tmp Ex.eight_local_disks Ex.no_port Ex.no_port Ex.port_22
            Ex.installs_packages [] Ex.iperf Ex.world0).2).2.
Proof.
  eexists.
  refine (proj2 (prepare_then_cleanup (Ex.flags STAGE_PREPARE) (Ex.flags STAGE_CLEANUP)
                   Ex.VmCreate_raises BenchmarkSpec id Some Ex.tmp
                   Ex.eight_local_disks Ex.no_port Ex.no_port Ex.port_22
                   Ex.installs_packages [] Ex.iperf Ex.world0 Ex.world0 _ _ _ _ _
                   _ _ _ _ _ _ _ _ _ _ _ _ _ _)).
  - reflexivity.
  - reflexivity.
  - intros s. reflexivity.
  - by eexists.
  - by eexists.
  - reflexivity.
  - vm_compute; reflexivity.
  - apply surjective_pairing.
  - reflexivity.
  - reflexivity.
  - apply surjective_pairing.
Defined.

(** Witness of X22: of the five names given, [iperf] is a benchmark,
    [standard_set] is a benchmark set, and [zzz] is given twice. *)
Lemma ListUnknownBenchmarks_unique_witness :
  ListUnknownBenchmarks [Ex.iperf] Ex.BENCHMARK_SETS Ex.FLAGS_benchmarks = ["abc"; "zzz"].
Proof.
  apply (ListUnknownBenchmarks_unique [Ex.iperf] Ex.BENCHMARK_SETS Ex.FLAGS_benchmarks
           ["abc"; "zzz"]).
  - apply (bool_decide_unpack _). vm_compute. exact I.
  - repeat constructor.
  - intros name. unfold Ex.FLAGS_benchmarks, Ex.BENCHMARK_SETS.
    rewrite !elem_of_cons, elem_of_nil. split.
    + intros [-> | [-> | []]];
        (split; [auto | split; [intros b ->%list_elem_of_singleton; discriminate
                               | vm_compute; reflexivity]]).
    + intros ([-> | [-> | [-> | [-> | [-> | []]]]]] & Hb & Hs); auto.
      * by destruct (Hb Ex.iperf (list_elem_of_here _ _)).
      * vm_compute in Hs. discriminate Hs.
Defined.

(** Witness of X23: one static VM in the pool and five VMs requested. *)
Lemma static_vms_first_witness :
  exists s w',
    BenchmarkSpec_init (Ex.flags STAGE_ALL) BenchmarkSpec Ex.tmp
      Ex.eight_local_disks Ex.no_port Ex.no_port Ex.port_22
      Ex.installs_packages Ex.info Ex.world_with_static_vm = (Ok s, w') /\
    static_vm_pool w' =
      drop (Z.to_nat (num_vms s)) (static_vm_pool Ex.world_with_static_vm) /\
    forall (i : nat) vm,
      static_vm_pool Ex.world_with_static_vm !! i = Some vm ->
      (i < Z.to_nat (num_vms s))%nat ->
      vms s !! i = Some (add_scratch_disk_specs (Ex.flags STAGE_ALL) s (scratch_disk s) vm).
Proof.
  eexists _, _. split; [vm_compute; reflexivity|].
  eapply (static_vms_first (Ex.flags STAGE_ALL) BenchmarkSpec Ex.tmp
            Ex.eight_local_disks Ex.no_port Ex.no_port Ex.port_22
            Ex.installs_packages Ex.info Ex.world_with_static_vm).
  vm_compute; reflexivity.
Defined.
